(** * feishubot: webhook signer, message constructors and delivery client

  A shallow embedding of the Go package [feishubot]:
  - [sign.go]     : [GenSign]
  - [message.go]  : the [Message] envelope and its constructors
  - [client.go]   : [Client], [Response] and [Send]

  The Go standard-library pieces the package calls (crypto/sha256,
  crypto/hmac, encoding/base64, fmt, encoding/json struct tags) are
  modelled in the modules that precede the package itself. *)

From Stdlib Require Import ZArith String Ascii List Lia DecimalString DecimalZ.
From stdpp Require Import gmap strings list.

Local Open Scope Z_scope.

(** Go strings are byte sequences; a byte is an [ascii] (eight bits). *)
Abbreviation byte := ascii (only parsing).

Definition byte_to_Z (b : byte) : Z := Z.of_N (N_of_ascii b).
Definition Z_to_byte (z : Z) : byte := ascii_of_N (Z.to_N (z mod 256)).

(** [[]byte(s)] and [string(b)] *)
Definition bytes_of_string (s : string) : list byte := list_ascii_of_string s.
Definition string_of_bytes (l : list byte) : string := string_of_list_ascii l.

(* ------------------------------------------------------------------ *)
(** ** Go values shared by the package: errors *)

(** An [error] value.  [fmt.Errorf] with a [%w] verb wraps an inner error
  behind a text prefix; other calls produce a plain text. *)
Inductive error : Type :=
| errorString (text : string)
| wrapError (prefix : string) (inner : error).

(** [err.Error()] *)
Fixpoint Error (e : error) : string :=
match e with
| errorString text => text
| wrapError prefix inner => (prefix +:+ Error inner)%string
end.

(* ------------------------------------------------------------------ *)
(** ** crypto/sha256 *)
Module sha256.

Definition Size : nat := 32.
Definition BlockSize : nat := 64.
Definition chunk : nat := 64.

(** uint32 arithmetic: every operation is reduced modulo 2^32. *)
Definition u32 (x : Z) : Z := x mod 2 ^ 32.
Definition add32 (x y : Z) : Z := u32 (x + y).
Definition not32 (x : Z) : Z := Z.lxor (u32 x) 4294967295.
(** [bits.RotateLeft32(x, -k)] *)
Definition rotr (k x : Z) : Z :=
  u32 (Z.lor (Z.shiftr x k) (Z.shiftl x (32 - k))).

(** The round constants [_K], written in decimal. *)
Definition _K : list Z :=
  [ 1116352408; 1899447441; 3049323471; 3921009573;
    961987163; 1508970993; 2453635748; 2870763221;
    3624381080; 310598401; 607225278; 1426881987;
    1925078388; 2162078206; 2614888103; 3248222580;
    3835390401; 4022224774; 264347078; 604807628;
    770255983; 1249150122; 1555081692; 1996064986;
    2554220882; 2821834349; 2952996808; 3210313671;
    3336571891; 3584528711; 113926993; 338241895;
    666307205; 773529912; 1294757372; 1396182291;
    1695183700; 1986661051; 2177026350; 2456956037;
    2730485921; 2820302411; 3259730800; 3345764771;
    3516065817; 3600352804; 4094571909; 275423344;
    430227734; 506948616; 659060556; 883997877;
    958139571; 1322822218; 1537002063; 1747873779;
    1955562222; 2024104815; 2227730452; 2361852424;
    2428436474; 2756734187; 3204031479; 3329325298 ].

(** The chaining value [h [8]uint32]. *)
Record hash8 : Type := Hash8 {
  h0 : Z; h1 : Z; h2 : Z; h3 : Z; h4 : Z; h5 : Z; h6 : Z; h7 : Z }.

Definition init : hash8 :=
  Hash8 1779033703 3144134277 1013904242 2773480762
        1359893119 2600822924 528734635 1541459225.

(** [uint32(p[j])<<24 | uint32(p[j+1])<<16 | uint32(p[j+2])<<8 | uint32(p[j+3])] *)
Definition be32 (a b c d : byte) : Z :=
  Z.lor (Z.lor (Z.lor (Z.shiftl (byte_to_Z a) 24) (Z.shiftl (byte_to_Z b) 16))
               (Z.shiftl (byte_to_Z c) 8)) (byte_to_Z d).

(** The first sixteen schedule words of a 64-byte chunk. *)
Fixpoint load_words (p : list byte) : list Z :=
  match p with
  | a :: b :: c :: d :: rest => be32 a b c d :: load_words rest
  | _ => []
  end.

Definition wi (w : list Z) (i : nat) : Z := nth i w 0.

(** [for i := 16; i < 64; i++ { ... w[i] = t1 + w[i-7] + t2 + w[i-16] }] *)
Definition schedule_step (w : list Z) (i : nat) : list Z :=
  let v1 := wi w (i - 2) in
  let t1 := Z.lxor (Z.lxor (rotr 17 v1) (rotr 19 v1)) (Z.shiftr v1 10) in
  let v2 := wi w (i - 15) in
  let t2 := Z.lxor (Z.lxor (rotr 7 v2) (rotr 18 v2)) (Z.shiftr v2 3) in
  w ++ [add32 (add32 (add32 t1 (wi w (i - 7))) t2) (wi w (i - 16))].

Definition schedule (p : list byte) : list Z :=
  fold_left schedule_step (seq 16 48) (load_words (firstn 64 p)).

(** One iteration of the 64-round loop over the working variables. *)
Definition round (v : hash8) (kw : Z * Z) : hash8 :=
  let '(Hash8 a b c d e f g h) := v in
  let t1 :=
    add32 (add32 (add32 (add32 h
      (Z.lxor (Z.lxor (rotr 6 e) (rotr 11 e)) (rotr 25 e)))
      (Z.lxor (Z.land e f) (Z.land (not32 e) g)))
      (fst kw)) (snd kw) in
  let t2 :=
    add32 (Z.lxor (Z.lxor (rotr 2 a) (rotr 13 a)) (rotr 22 a))
          (Z.lxor (Z.lxor (Z.land a b) (Z.land a c)) (Z.land b c)) in
  Hash8 (add32 t1 t2) a b c (add32 d t1) e f g.

(** The body of [blockGeneric]'s outer loop: one 64-byte chunk. *)
Definition block1 (hv : hash8) (p : list byte) : hash8 :=
  let '(Hash8 a b c d e f g h) :=
    fold_left round (combine _K (schedule p)) hv in
  Hash8 (add32 (h0 hv) a) (add32 (h1 hv) b) (add32 (h2 hv) c)
        (add32 (h3 hv) d) (add32 (h4 hv) e) (add32 (h5 hv) f)
        (add32 (h6 hv) g) (add32 (h7 hv) h).

(** [for len(p) >= chunk { ...; p = p[chunk:] }]: consumes every whole
    chunk of [p] and hands back the unconsumed tail.  [fuel] bounds the
    number of iterations; [length p] always suffices. *)
Fixpoint blockGeneric (fuel : nat) (hv : hash8) (p : list byte)
  : hash8 * list byte :=
  match fuel with
  | O => (hv, p)
  | S fuel' =>
      if (chunk <=? length p)%nat
      then blockGeneric fuel' (block1 hv (firstn chunk p)) (skipn chunk p)
      else (hv, p)
  end.

(** [type digest struct { h [8]uint32; x [chunk]byte; nx int; len uint64 }];
    the buffer [x[:nx]] is kept as the list [x]. *)
Record digest : Type := Digest { h : hash8; x : list byte; len : Z }.

(** [sha256.New()] *)
Definition New : digest := Digest init [] 0.

(** [d.Write(p)]: buffered bytes and [p] are fed to the block function,
    the incomplete tail stays buffered; [len] is a uint64 byte count.
    Returns the updated digest, the byte count and a nil error. *)
Definition Write (d : digest) (p : list byte) : digest * (Z * option error) :=
  let data := x d ++ p in
  let '(hv, tail) := blockGeneric (length data) (h d) data in
  (Digest hv tail ((len d + Z.of_nat (length p)) mod 2 ^ 64),
   (Z.of_nat (length p), None)).

(** [binary.BigEndian.PutUint64] / [PutUint32] *)
Definition put_be (nbytes : nat) (v : Z) : list byte :=
  map (fun i => Z_to_byte (Z.shiftr v (8 * Z.of_nat (nbytes - 1 - i))))
      (seq 0 nbytes).

(** The padding appended by [checkSum]: 0x80, zeros up to 56 mod 64, and
    the bit length [len<<3] as a big-endian uint64. *)
Definition padding (len : Z) : list byte :=
  let t := if len mod 64 <? 56 then 56 - len mod 64 else 64 + 56 - len mod 64 in
  Z_to_byte 128 :: repeat (Z_to_byte 0) (Z.to_nat t - 1)
    ++ put_be 8 ((len * 8) mod 2 ^ 64).

Definition digest_bytes (hv : hash8) : list byte :=
  put_be 4 (h0 hv) ++ put_be 4 (h1 hv) ++ put_be 4 (h2 hv) ++ put_be 4 (h3 hv)
  ++ put_be 4 (h4 hv) ++ put_be 4 (h5 hv) ++ put_be 4 (h6 hv) ++ put_be 4 (h7 hv).

(** [d.checkSum()] *)
Definition checkSum (d : digest) : list byte :=
  digest_bytes (h (fst (Write d (padding (len d))))).

(** [d.Sum(in)]: works on a copy of [d], so [d] itself is not advanced. *)
Definition Sum (d : digest) (b : list byte) : list byte := b ++ checkSum d.

(** [sha256.Sum256(data)] *)
Definition Sum256 (data : list byte) : list byte :=
  Sum (fst (Write New data)) [].

End sha256.

(* ------------------------------------------------------------------ *)
(** ** crypto/hmac, instantiated with [sha256.New] *)
Module hmac.

(** [type hmac struct { opad, ipad []byte; outer, inner hash.Hash }] *)
Record t : Type := Hmac {
  opad : list byte; ipad : list byte;
  outer : sha256.digest; inner : sha256.digest }.

(** [copy(pad, key)] into a zeroed block. *)
Definition pad_key (key : list byte) : list byte :=
  firstn sha256.BlockSize key
    ++ repeat (Z_to_byte 0) (sha256.BlockSize - length key).

Definition xor_with (c : Z) (l : list byte) : list byte :=
  map (fun b => Z_to_byte (Z.lxor (byte_to_Z b) c)) l.

(** [hmac.New(sha256.New, key)] *)
Definition New (key : list byte) : t :=
  let outer0 := sha256.New in
  let inner0 := sha256.New in
  let key' :=
    if (sha256.BlockSize <? length key)%nat
    then sha256.Sum (fst (sha256.Write outer0 key)) []
    else key in
  let ipad := xor_with 0x36 (pad_key key') in
  let opad := xor_with 0x5c (pad_key key') in
  Hmac opad ipad outer0 (fst (sha256.Write inner0 ipad)).

(** [h.Write(p)] is [h.inner.Write(p)]. *)
Definition Write (hm : t) (p : list byte) : t * (Z * option error) :=
  let '(inner', r) := sha256.Write (inner hm) p in
  (Hmac (opad hm) (ipad hm) (outer hm) inner', r).

(** [h.Sum(in)]: inner digest, then the outer hash is reset and fed
    [opad] followed by the inner digest. *)
Definition Sum (hm : t) (b : list byte) : list byte :=
  let innerSum := sha256.Sum (inner hm) [] in
  let outer1 := fst (sha256.Write sha256.New (opad hm)) in
  let outer2 := fst (sha256.Write outer1 innerSum) in
  sha256.Sum outer2 b.

End hmac.

(* ------------------------------------------------------------------ *)
(** ** encoding/base64: [StdEncoding] *)
Module base64.

Definition encodeStd : string :=
  "ABCDEFGHIJKLMNOPQRSTUVWXYZabcdefghijklmnopqrstuvwxyz0123456789+/".
Definition StdPadding : byte := "="%char.

(** [enc.encode[i]] *)
Definition encode (i : Z) : byte :=
  match String.get (Z.to_nat i) encodeStd with
  | Some c => c
  | None => "000"%char
  end.

Definition sextet (val shift : Z) : byte :=
  encode (Z.land (Z.shiftr val shift) 0x3F).

(** [enc.Encode]: three source bytes become four characters; a final
    group of one or two bytes is padded with [=]. *)
Fixpoint Encode (src : list byte) : list byte :=
  match src with
  | [] => []
  | [a] =>
      let val := Z.shiftl (byte_to_Z a) 16 in
      [sextet val 18; sextet val 12; StdPadding; StdPadding]
  | [a; b] =>
      let val := Z.lor (Z.shiftl (byte_to_Z a) 16) (Z.shiftl (byte_to_Z b) 8) in
      [sextet val 18; sextet val 12; sextet val 6; StdPadding]
  | a :: b :: c :: rest =>
      let val := Z.lor (Z.lor (Z.shiftl (byte_to_Z a) 16)
                              (Z.shiftl (byte_to_Z b) 8)) (byte_to_Z c) in
      sextet val 18 :: sextet val 12 :: sextet val 6 :: sextet val 0
        :: Encode rest
  end.

(** [StdEncoding.EncodeToString] *)
Definition EncodeToString (src : list byte) : string :=
  string_of_bytes (Encode src).

(** [enc.decodeMap[c]]: position of [c] in the alphabet, if any. *)
Fixpoint index_from (i : Z) (c : byte) (alphabet : list byte) : option Z :=
  match alphabet with
  | [] => None
  | a :: rest => if Ascii.eqb a c then Some i else index_from (i + 1) c rest
  end.
Definition decode (c : byte) : option Z :=
  index_from 0 c (bytes_of_string encodeStd).

Definition quantum (v0 v1 v2 v3 : Z) : Z :=
  Z.lor (Z.lor (Z.lor (Z.shiftl v0 18) (Z.shiftl v1 12)) (Z.shiftl v2 6)) v3.

Definition is_pad (c : byte) : bool := Ascii.eqb c StdPadding.
Definition is_nil (l : list byte) : bool :=
  match l with [] => true | _ => false end.

(** The quantum loop of [enc.decode] on input without line breaks:
    groups of four alphabet characters give three bytes; padding may
    only close the last group, and nothing may follow it. *)
Fixpoint decode_quanta (s : list byte) : option (list byte) :=
  match s with
  | [] => Some []
  | c0 :: c1 :: c2 :: c3 :: rest =>
      match decode c0, decode c1 with
      | Some v0, Some v1 =>
          match decode c2, decode c3 with
          | Some v2, Some v3 =>
              let val := quantum v0 v1 v2 v3 in
              option_map
                (fun tl => Z_to_byte (Z.shiftr val 16)
                             :: Z_to_byte (Z.shiftr val 8)
                             :: Z_to_byte val :: tl)
                (decode_quanta rest)
          | Some v2, None =>
              if is_pad c3 && is_nil rest then
                let val := quantum v0 v1 v2 0 in
                Some [Z_to_byte (Z.shiftr val 16); Z_to_byte (Z.shiftr val 8)]
              else None
          | None, _ =>
              if is_pad c2 && is_pad c3 && is_nil rest then
                let val := quantum v0 v1 0 0 in
                Some [Z_to_byte (Z.shiftr val 16)]
              else None
          end
      | _, _ => None
      end
  | _ => None
  end.

Definition is_newline (c : byte) : bool :=
  Ascii.eqb c "010"%char || Ascii.eqb c "013"%char.

(** [StdEncoding.DecodeString]: carriage returns and line feeds are
    skipped, the rest is decoded quantum by quantum. *)
Definition DecodeString (s : string) : option (list byte) :=
  decode_quanta (List.filter (fun c => negb (is_newline c)) (bytes_of_string s)).

(** A character of the standard alphabet, or the padding character. *)
Definition std_char (c : byte) : bool :=
  match decode c with Some _ => true | None => is_pad c end.

End base64.

(* ------------------------------------------------------------------ *)
(** ** fmt *)
Module fmt.

(** [fmt.Sprintf("%v", n)] for an integer [n]: its decimal digits, with a
    leading minus sign when negative. *)
Definition Sprintf_v (n : Z) : string := NilZero.string_of_int (Z.to_int n).

(** [fmt.Sprintf("%d", n)] prints an integer the same way. *)
Definition Sprintf_d (n : Z) : string := Sprintf_v n.

(** [fmt.Errorf(prefix + "%w", err)] *)
Definition Errorf_w (prefix : string) (err : error) : error :=
  wrapError prefix err.

End fmt.

(** Range of a Go [int64]. *)
Definition int64_range (z : Z) : Prop := - 2 ^ 63 <= z < 2 ^ 63.

(* ------------------------------------------------------------------ *)
(** ** sign.go *)

(** [func GenSign(secret string, timestamp int64) (string, error)] *)
Definition GenSign (secret : string) (timestamp : Z) : string * option error :=
let stringToSign := (fmt.Sprintf_v timestamp +:+ String "010" EmptyString +:+ secret)%string in
let h := hmac.New (bytes_of_string stringToSign) in
let '(h, (_, err)) := hmac.Write h [] in
match err with
| Some e => (EmptyString, Some (fmt.Errorf_w "failed to write to hmac: " e))
| None =>
    let signature := base64.EncodeToString (hmac.Sum h []) in
    (signature, None)
end.

(* ------------------------------------------------------------------ *)
(** ** message.go *)

(** Result of calling a Go function that may dereference a nil pointer. *)
Inductive outcome (A : Type) : Type :=
| Returns (a : A)
| Panics (reason : string).
Arguments Returns {A} a.
Arguments Panics {A} reason.

Definition nil_dereference : string :=
"runtime error: invalid memory address or nil pointer dereference".

(** A slice of message.go is an optional list: [None] is the nil slice,
  [Some []] an empty slice that is not nil.  JSON writes the first as
  [null] and the second as [[]].  The backing arrays are not modelled:
  two slices with the same elements are the same value. *)
Definition items {A : Type} (s : option (list A)) : list A :=
match s with
| Some l => l
| None => []
end.

(** The slice a function with a parameter [args ...T] receives when it
  is called with the arguments listed: nil when there are none. *)
Definition variadic {A : Type} (args : list A) : option (list A) :=
match args with
| [] => None
| _ => Some args
end.

Module builtin.

(** [make([]T, 0, n)] *)
Definition make {A : Type} : option (list A) := Some [].

(** [append(s, x)] *)
Definition append {A : Type} (s : option (list A)) (x : A) : option (list A) :=
Some (items s ++ [x]).

End builtin.

(** [type CardTitle struct { Tag, Content string }] *)
Record CardTitle : Type := { Tag : string; TitleContent : string }.

(** [type CardHeader struct]; the [*CardTitle] fields may be nil. *)
Record CardHeader : Type := {
Title : option CardTitle;
Subtitle : option CardTitle;
Template : string;
UiElement : option CardTitle }.

(** [type CardBody struct], over the type of dynamic values held by its
  elements ([CardElement] is [map[string]any]). *)
Record CardBodyOf (A : Type) : Type := {
Direction : string;
Padding : string;
Elements : list (gmap string A) }.
Arguments Direction {A} _.
Arguments Padding {A} _.
Arguments Elements {A} _.

(** The values of Go's [any] that the package stores in its maps.  A
  caller may store anything else; such values are [VOpaque]. *)
#[warnings="-register-all"]
Inductive any : Type :=
| VString (s : string)
| VBool (b : bool)
| VInt (z : Z)
| VMap (m : gmap string any)
| VParagraphs (ps : option (list (option (list (gmap string any)))))
| VCardTitle (t : option CardTitle)
| VCardBody (b : CardBodyOf any)
| VCardHeader (h : CardHeader)
| VOpaque (id : nat).

(** [map[string]any]; [None] is the nil map. *)
Abbreviation gomap := (option (gmap string any)).

(** [len(m)] *)
Definition len (m : gomap) : nat :=
match m with
| Some entries => size entries
| None => 0%nat
end.

(** A map field is populated when it holds at least one entry; this is
  also the condition under which [omitempty] keeps it. *)
Definition populated (m : gomap) : bool := negb (len m =? 0)%nat.

Abbreviation CardBody := (CardBodyOf any).
Abbreviation Element := (gmap string any) (only parsing).
Abbreviation CardElement := (gmap string any) (only parsing).
Abbreviation Paragraph := (option (list (gmap string any))) (only parsing).

(** [type MsgType string] and its constants *)
Definition MsgTypeText : string := "text".
Definition MsgTypePost : string := "post".
Definition MsgTypeImage : string := "image".
Definition MsgTypeShareChat : string := "share_chat".
Definition MsgTypeInteractive : string := "interactive".

(** [type Language string] and its constants *)
Definition LanguageZhCN : string := "zh_cn".
Definition LanguageEnUS : string := "en_us".
Definition LanguageJa : string := "ja".

(** [type Message struct] *)
Record Message : Type := {
MsgType : string;
Content : gomap;
Card : gomap;
Timestamp : Z;
Sign : string }.

Definition set_Timestamp (m : Message) (t : Z) : Message :=
{| MsgType := MsgType m; Content := Content m; Card := Card m;
   Timestamp := t; Sign := Sign m |}.
Definition set_Sign (m : Message) (s : string) : Message :=
{| MsgType := MsgType m; Content := Content m; Card := Card m;
   Timestamp := Timestamp m; Sign := s |}.

(** [type PostContent struct { Title string; Content []Paragraph }] *)
Record PostContent : Type := {
PostTitle : string;
Paragraphs : option (list Paragraph) }.

(** [type PostLanguageContent struct] *)
Record PostLanguageContent : Type := { Language : string; LangContent : PostContent }.

Definition NewTextElement (text : string) : Element :=
{[ "tag" := VString "text"; "text" := VString text ]}.

Definition NewLinkElement (text href : string) : Element :=
{[ "tag" := VString "a"; "text" := VString text; "href" := VString href ]}.

Definition NewAtElement (userID userName : string) : Element :=
{[ "tag" := VString "at"; "user_id" := VString userID;
   "user_name" := VString userName ]}.

Definition NewImageElement (imageKey : string) : Element :=
{[ "tag" := VString "img"; "image_key" := VString imageKey ]}.

Definition NewEmoticonElement (emojiKey : string) : Element :=
{[ "tag" := VString "emotion"; "emoji_key" := VString emojiKey ]}.

(** [func NewParagraph(elements ...Element) Paragraph]: the conversion
  keeps the slice, nil or not. *)
Definition NewParagraph (elements : option (list Element)) : Paragraph := elements.

(** [func NewPostContent(title string, paragraphs ...Paragraph) *PostContent] *)
Definition NewPostContent (title : string) (paragraphs : option (list Paragraph))
: PostContent :=
{| PostTitle := title; Paragraphs := paragraphs |}.

(** [content] is a [*PostContent]; dereferencing nil panics. *)
Definition NewPostLanguageContent (lang : string) (content : option PostContent)
: outcome PostLanguageContent :=
match content with
| None => Panics nil_dereference
| Some pc => Returns {| Language := lang; LangContent := pc |}
end.

(** [func convertParagraphs(paragraphs []Paragraph) [][]map[string]any]:
  the result and every paragraph in it start from [make] and grow by
  [append], one loop inside the other. *)
Definition convertParagraphs (paragraphs : option (list Paragraph))
: option (list (option (list (gmap string any)))) :=
fold_left
  (fun result p =>
     let paragraphArray :=
       fold_left (fun arr e => builtin.append arr e) (items p) builtin.make in
     builtin.append result paragraphArray)
  (items paragraphs) builtin.make.

Definition post_entry (pc : PostContent) : any :=
VMap {[ "title" := VString (PostTitle pc);
        "content" := VParagraphs (convertParagraphs (Paragraphs pc)) ]}.

Definition NewPostMessage (lang : string) (content : option PostContent) : outcome Message :=
match content with
| None => Panics nil_dereference
| Some pc =>
    Returns {| MsgType := MsgTypePost;
               Content := Some {[ "post" := VMap {[ lang := post_entry pc ]} ]};
               Card := None; Timestamp := 0; Sign := EmptyString |}
end.

Definition NewPostMessageMultiLanguage (langContents : list PostLanguageContent) : Message :=
let postData :=
  fold_left (fun (postData : gmap string any) lc =>
               <[ Language lc := post_entry (LangContent lc) ]> postData)
            langContents ∅ in
{| MsgType := MsgTypePost;
   Content := Some {[ "post" := VMap postData ]};
   Card := None; Timestamp := 0; Sign := EmptyString |}.

Definition NewTextMessage (text : string) : Message :=
{| MsgType := MsgTypeText;
   Content := Some {[ "text" := VString text ]};
   Card := None; Timestamp := 0; Sign := EmptyString |}.

Definition NewImageMessage (imageKey : string) : Message :=
{| MsgType := MsgTypeImage;
   Content := Some {[ "image_key" := VString imageKey ]};
   Card := None; Timestamp := 0; Sign := EmptyString |}.

Definition NewShareChatMessage (shareChatID : string) : Message :=
{| MsgType := MsgTypeShareChat;
   Content := Some {[ "share_chat_id" := VString shareChatID ]};
   Card := None; Timestamp := 0; Sign := EmptyString |}.

(** [type Card struct]; [Body] and [Header] are pointers. *)
Record CardT : Type := {
Schema : string;
Config : gomap;
Body : option CardBody;
Header : option CardHeader }.

Definition NewCardTitle (content : string) : CardTitle :=
{| Tag := "plain_text"; TitleContent := content |}.

Definition NewCardMarkdownTitle (content : string) : CardTitle :=
{| Tag := "lark_md"; TitleContent := content |}.

Definition NewMarkdownElement (content : string) : CardElement :=
{[ "tag" := VString "markdown"; "content" := VString content ]}.

Definition NewDivElement (text : option CardTitle) : CardElement :=
{[ "tag" := VString "div"; "text" := VCardTitle text ]}.

Definition NewButtonElement (text buttonType url : string) : CardElement :=
{[ "tag" := VString "button";
   "text" := VMap {[ "tag" := VString "plain_text"; "content" := VString text ]};
   "type" := VString buttonType;
   "url" := VString url ]}.

Definition NewCard (schema : string) : CardT :=
{| Schema := schema; Config := None; Body := None; Header := None |}.

Definition SetConfig (c : CardT) (config : gomap) : CardT :=
{| Schema := Schema c; Config := config; Body := Body c; Header := Header c |}.
Definition SetBody (c : CardT) (body : option CardBody) : CardT :=
{| Schema := Schema c; Config := Config c; Body := body; Header := Header c |}.
Definition SetHeader (c : CardT) (header : option CardHeader) : CardT :=
{| Schema := Schema c; Config := Config c; Body := Body c; Header := header |}.

(** [func (c *Card) ToMap() map[string]any] *)
Definition ToMap (c : CardT) : gmap string any :=
let result : gmap string any := {[ "schema" := VString (Schema c) ]} in
let result :=
  match Config c with
  | Some config => <[ "config" := VMap config ]> result
  | None => result
  end in
let result :=
  match Body c with
  | Some body => <[ "body" := VCardBody body ]> result
  | None => result
  end in
match Header c with
| Some header => <[ "header" := VCardHeader header ]> result
| None => result
end.

(** [card] is a [*Card]; [card.ToMap()] reads [c.Schema] and so panics on
  nil. *)
Definition NewInteractiveMessage (card : option CardT) : outcome Message :=
match card with
| None => Panics nil_dereference
| Some c =>
    Returns {| MsgType := MsgTypeInteractive;
               Content := None; Card := Some (ToMap c);
               Timestamp := 0; Sign := EmptyString |}
end.

Definition NewInteractiveMessageFromMap (card : gomap) : Message :=
{| MsgType := MsgTypeInteractive;
   Content := None; Card := card;
   Timestamp := 0; Sign := EmptyString |}.

(* ------------------------------------------------------------------ *)
(** ** client.go: the types *)

(** [type Response struct]; [Data] is an [interface{}], nil when absent. *)
Record Response : Type := {
Code : Z;
Msg : string;
Data : option any;
StatusCode : Z;
StatusMessage : string }.

(** [context.Context]: what a transport can observe of it. *)
Record Context : Type := { ctx_done : bool }.

(** One member of the JSON object that [json.Marshal] emits for a
  [Message]: a string, a number, or the encoding of a map. *)
Inductive jvalue : Type :=
| JString (s : string)
| JNumber (z : Z)
| JObject (encoded : string).

(** The request body is kept as the list of members of the JSON object,
  in the order of the struct fields. *)
Abbreviation envelope := (list (string * jvalue)).

(** [*http.Request] as built by [http.NewRequestWithContext]. *)
Record Request : Type := {
req_ctx : Context;
req_method : string;
req_url : string;
req_header : gmap string string;
req_body : envelope }.

(** [resp.Body]: the bytes [io.ReadAll] obtains, and the error it ends
  with, if any. *)
Record ReadCloser : Type := { rc_data : list byte; rc_err : option error }.

(** [*http.Response]: the HTTP status and the body. *)
Record HTTPResponse : Type := { http_status : Z; http_body : ReadCloser }.

(** [type HTTPClient interface]: the single method [Do] takes a request
  and gives back a response or an error.  These are the transports that
  keep to what net/http asks of a [Do]: a response with a body, or else
  an error.  [RawHTTPClient] further down holds every value of the
  interface, and [Send_raw] is [Send] on those. *)
Record HTTPClient : Type := { Do : Request -> HTTPResponse + error }.

(** [type Client struct] *)
Record Client : Type := {
WebhookURL : string;
Secret : string;
Transport : HTTPClient }.

(** [SetHTTPClient] *)
Definition SetHTTPClient (c : Client) (client : HTTPClient) : Client :=
{| WebhookURL := WebhookURL c; Secret := Secret c; Transport := client |}.

(* ------------------------------------------------------------------ *)
(** ** The world a call runs in *)

(** Addresses of [Message] structs; [None] is the nil pointer. *)
Abbreviation loc := positive (only parsing).
Abbreviation ptr := (option positive) (only parsing).

(** What a call does to the outside, in order. *)
Inductive Event : Type :=
| EvDo (req : Request)            (* the transport was handed [req] *)
| EvReadAll                       (* the response body was read *)
| EvUnmarshal (body : list byte)  (* [body] was parsed as a Response *)
| EvClose.                        (* the response body was closed *)

Record World : Type := {
clock : Z;                     (* what [time.Now().Unix()] reads *)
heap : gmap positive Message;  (* the [Message] structs callers own *)
trace : list Event }.

Definition log (e : Event) (w : World) : World :=
{| clock := clock w; heap := heap w; trace := trace w ++ [e] |}.

(** A statement of a function whose result type is [R]: it falls through
  with a value, executes [return], or panics. *)
Inductive step (R A : Type) : Type :=
| Next (a : A)
| Return_ (r : R)
| Panic (reason : string).
Arguments Next {R A} a.
Arguments Return_ {R A} r.
Arguments Panic {R A} reason.

Definition M (R A : Type) : Type := World -> step R A * World.

#[global] Instance M_ret {R} : MRet (M R) := fun A a w => (Next a, w).
#[global] Instance M_bind {R} : MBind (M R) := fun A B k m w =>
match m w with
| (Next a, w') => k a w'
| (Return_ r, w') => (Return_ r, w')
| (Panic reason, w') => (Panic reason, w')
end.

(** [return r] *)
Definition return_ {R A} (r : R) : M R A := fun w => (Return_ r, w).

Definition emit {R} (e : Event) : M R unit := fun w => (Next tt, log e w).

(** [*p] *)
Definition deref {R} (p : ptr) : M R Message := fun w =>
match p with
| None => (Panic nil_dereference, w)
| Some l =>
    match heap w !! l with
    | Some m => (Next m, w)
    | None => (Panic nil_dereference, w)
    end
end.

(** [defer cleanup] followed by [body]: [cleanup] runs when [body] is
  left, however it is left. *)
Definition defer {R A} (cleanup : M R unit) (body : M R A) : M R A := fun w =>
let '(s, w') := body w in
match cleanup w' with
| (Panic reason, w'') => (Panic reason, w'')
| (_, w'') => (s, w'')
end.

(** Running a whole function body. *)
Definition call {R} (body : M R R) (w : World) : outcome R * World :=
match body w with
| (Next r, w') => (Returns r, w')
| (Return_ r, w') => (Returns r, w')
| (Panic reason, w') => (Panics reason, w')
end.

(** [time.Now().Unix()] *)
Definition time_Now_Unix {R} : M R Z := fun w => (Next (clock w), w).

(** [c.HTTPClient.Do(req)] *)
Definition HTTPClient_Do {R} (c : Client) (req : Request) : M R (HTTPResponse + error) :=
emit (EvDo req);; mret (Do (Transport c) req).

(** [io.ReadAll(body)] *)
Definition io_ReadAll {R} (body : ReadCloser) : M R (list byte * option error) :=
emit EvReadAll;; mret (rc_data body, rc_err body).

(** [body.Close()] *)
Definition Body_Close {R} (body : ReadCloser) : M R unit := emit EvClose.

(* ------------------------------------------------------------------ *)
(** ** client.go: [Send] *)

Section Delivery.

(** The encoders and parsers of the Go library that [Send] calls on
    dynamic data. *)

(** [json.Marshal] on a non-empty [map[string]any]; it fails on values
    JSON cannot express. *)
Variable json_encode_map : gmap string any -> string + error.

(** [json.Unmarshal(data, &apiResp)] on a zero [Response]. *)
Variable json_Unmarshal : list byte -> Response + error.

(** The error of [url.Parse], if the text is not a URL. *)
Variable url_Parse_error : string -> option error.

Definition marshal_map_field (key : string) (m : gomap) : envelope + error :=
  match m with
  | None => inl []
  | Some entries =>
      if (size entries =? 0)%nat then inl []
      else match json_encode_map entries with
           | inl text => inl [(key, JObject text)]
           | inr e => inr e
           end
  end.

(** [json.Marshal(msgCopy)], following the struct tags of [Message]:
    [msg_type] is always written; [content], [card], [timestamp] and
    [sign] carry [omitempty] and are left out when empty or zero. *)
Definition json_Marshal (m : Message) : envelope + error :=
  match marshal_map_field "content" (Content m) with
  | inr e => inr e
  | inl content =>
      match marshal_map_field "card" (Card m) with
      | inr e => inr e
      | inl card =>
          inl ([("msg_type", JString (MsgType m))]
                 ++ content ++ card
                 ++ (if Timestamp m =? 0 then []
                     else [("timestamp", JNumber (Timestamp m))])
                 ++ (if String.eqb (Sign m) EmptyString then []
                     else [("sign", JString (Sign m))]))
      end
  end.

(** [http.NewRequestWithContext(ctx, method, url, body)]: a nil context
    and an unparsable URL are refused. *)
Definition http_NewRequestWithContext
    (ctx : option Context) (method url : string) (body : envelope)
  : Request + error :=
  match ctx with
  | None => inr (errorString "net/http: nil Context")
  | Some cx =>
      match url_Parse_error url with
      | Some e => inr e
      | None =>
          inl {| req_ctx := cx; req_method := method; req_url := url;
                 req_header := ∅; req_body := body |}
      end
  end.

(** [req.Header.Set(key, value)] *)
Definition Header_Set (req : Request) (key value : string) : Request :=
  {| req_ctx := req_ctx req; req_method := req_method req;
     req_url := req_url req;
     req_header := <[ key := value ]> (req_header req);
     req_body := req_body req |}.

Definition UnmarshalResponse {R} (respBody : list byte) : M R (Response + error) :=
  emit (EvUnmarshal respBody);; mret (json_Unmarshal respBody).

Definition api_error (apiResp : Response) : error :=
  errorString ("API error (code " +:+ fmt.Sprintf_d (Code apiResp) +:+ "): "
                 +:+ Msg apiResp).

Abbreviation result := (option Response * option error)%type.

(** The statements of [Send], in the order of the source. *)
Definition Send_body (c : Client) (ctx : option Context) (msg : ptr)
  : M result result :=
  (* msgCopy := *msg *)
  msgCopy ← deref msg;
  (* if c.Secret is not empty *)
  msgCopy ← (if String.eqb (Secret c) EmptyString then mret msgCopy
             else
               timestamp ← time_Now_Unix;
               let '(sign, err) := GenSign (Secret c) timestamp in
               match err with
               | Some e =>
                   return_ (None, Some (fmt.Errorf_w "failed to generate signature: " e))
               | None =>
                   mret (set_Sign (set_Timestamp msgCopy timestamp) sign)
               end);
  body ← match json_Marshal msgCopy with
         | inr e => return_ (None, Some (fmt.Errorf_w "failed to marshal message: " e))
         | inl body => mret body
         end;
  req ← match http_NewRequestWithContext ctx "POST" (WebhookURL c) body with
        | inr e => return_ (None, Some (fmt.Errorf_w "failed to create request: " e))
        | inl req => mret req
        end;
  let req := Header_Set req "Content-Type" "application/json" in
  sent ← HTTPClient_Do c req;
  resp ← match sent with
         | inr e => return_ (None, Some (fmt.Errorf_w "failed to send request: " e))
         | inl resp => mret resp
         end;
  defer (Body_Close (http_body resp))
    (read ← io_ReadAll (http_body resp);
     respBody ← match read with
                | (_, Some e) =>
                    return_ (None, Some (fmt.Errorf_w "failed to read response body: " e))
                | (respBody, None) => mret respBody
                end;
     parsed ← UnmarshalResponse respBody;
     apiResp ← match parsed with
               | inr e =>
                   return_ (None, Some (fmt.Errorf_w "failed to unmarshal response: " e))
               | inl apiResp => mret apiResp
               end;
     if negb (Code apiResp =? 0)
     then return_ (Some apiResp, Some (api_error apiResp))
     else return_ (Some apiResp, None)).

(** [func (c *Client) Send(ctx, msg)]: a [*Response] and an [error]. *)
Definition Send (c : Client) (ctx : option Context) (msg : ptr) (w : World)
  : outcome result * World :=
  call (Send_body c ctx msg) w.

End Delivery.

(** A member of an envelope is populated when it is present on the wire. *)
Definition member (key : string) (env : envelope) : option jvalue :=
snd <$> List.find (fun kv => String.eqb (fst kv) key) env.

Definition has_member (key : string) (env : envelope) : bool :=
match member key env with Some _ => true | None => false end.

(* ------------------------------------------------------------------ *)
(** ** sign.go: the HMAC as the object it is *)
Module object.

(** [hmac.New] allocates; [h] is the address of a hash among those
    allocated so far, and [Write] and [Sum] work on the hash found there. *)
Definition New (key : list byte) (hashes : gmap positive hmac.t)
  : positive * gmap positive hmac.t :=
let h := fresh (dom hashes) in
(h, <[ h := hmac.New key ]> hashes).

Definition Write (h : positive) (p : list byte) (hashes : gmap positive hmac.t)
  : outcome (Z * option error) * gmap positive hmac.t :=
match hashes !! h with
| Some hm =>
    let '(hm', r) := hmac.Write hm p in
    (Returns r, <[ h := hm' ]> hashes)
| None => (Panics nil_dereference, hashes)
end.

(** [Sum] leaves in the outer hash what it has fed it. *)
Definition Sum (h : positive) (b : list byte) (hashes : gmap positive hmac.t)
  : outcome (list byte) * gmap positive hmac.t :=
match hashes !! h with
| Some hm =>
    let innerSum := sha256.Sum (hmac.inner hm) [] in
    let outer1 := fst (sha256.Write sha256.New (hmac.opad hm)) in
    let outer2 := fst (sha256.Write outer1 innerSum) in
    (Returns (hmac.Sum hm b),
     <[ h := hmac.Hmac (hmac.opad hm) (hmac.ipad hm) outer2 (hmac.inner hm) ]> hashes)
| None => (Panics nil_dereference, hashes)
end.

End object.

(** [GenSign], statement by statement, on the hashes allocated so far. *)
Definition GenSign_run (secret : string) (timestamp : Z) (hashes : gmap positive hmac.t)
  : outcome (string * option error) * gmap positive hmac.t :=
let stringToSign := (fmt.Sprintf_v timestamp +:+ String "010" EmptyString +:+ secret)%string in
let '(h, hashes) := object.New (bytes_of_string stringToSign) hashes in
match object.Write h [] hashes with
| (Panics reason, hashes) => (Panics reason, hashes)
| (Returns (_, Some e), hashes) =>
    (Returns (EmptyString, Some (fmt.Errorf_w "failed to write to hmac: " e)), hashes)
| (Returns (_, None), hashes) =>
    match object.Sum h [] hashes with
    | (Panics reason, hashes) => (Panics reason, hashes)
    | (Returns digest, hashes) =>
        let signature := base64.EncodeToString digest in
        (Returns (signature, None), hashes)
    end
end.

(* ------------------------------------------------------------------ *)
(** ** The signer as the specification words it *)
Module Spec.

(** FIPS 180-4, 5.1.1: a one bit (the byte 0x80), zero bits up to 448
    modulo 512 (56 bytes modulo 64), and the message length in bits as a
    64-bit big-endian integer. *)
Definition pad (msg : list byte) : list byte :=
  let l := Z.of_nat (length msg) in
  msg ++ [Z_to_byte 128]
      ++ repeat (Z_to_byte 0) (Z.to_nat ((55 - l) mod 64))
      ++ sha256.put_be 8 ((8 * l) mod 2 ^ 64).

(** FIPS 180-4, 5.2.1: the padded message parsed into 512-bit blocks. *)
Fixpoint blocks (n : nat) (l : list byte) : list (list byte) :=
  match n with
  | O => []
  | S n' => firstn 64 l :: blocks n' (skipn 64 l)
  end.

(** FIPS 180-4, 6.2: the hash of a whole message. *)
Definition SHA256 (msg : list byte) : list byte :=
  let padded := pad msg in
  sha256.digest_bytes
    (fold_left sha256.block1 (blocks (length padded / 64) padded) sha256.init).

(** RFC 2104: keys longer than the block size are hashed first, then the
    key is filled with zeros to the block size. *)
Definition block_key (key : list byte) : list byte :=
  let k := if (64 <? length key)%nat then SHA256 key else key in
  k ++ repeat (Z_to_byte 0) (64 - length k).

Definition xor_pad (c : Z) (k : list byte) : list byte :=
  map (fun b => Z_to_byte (Z.lxor (byte_to_Z b) c)) k.

(** RFC 2104: H(K xor opad, H(K xor ipad, text)). *)
Definition HMAC_SHA256 (key text : list byte) : list byte :=
  let k := block_key key in
  SHA256 (xor_pad 0x5c k ++ SHA256 (xor_pad 0x36 k ++ text)).

(** The decimal representation of an integer. *)
Definition decimal (n : Z) : string := NilZero.string_of_int (Z.to_int n).

Definition newline : string := String "010" EmptyString.

(** Section 4.1, steps 1 to 3. *)
Definition sign (secret : string) (timestampSeconds : Z) : string :=
  let key := (decimal timestampSeconds +:+ newline +:+ secret)%string in
  base64.EncodeToString (HMAC_SHA256 (bytes_of_string key) []).

End Spec.

(* ------------------------------------------------------------------ *)
(** ** The data-model invariants, as predicates on messages and envelopes *)

(** Exactly one content shape is populated, selected by the kind: [Card]
  for [interactive], [Content] for every other kind. *)
Definition exactly_one_shape (kind : string) (m : Message) : Prop :=
MsgType m = kind
/\ populated (Card m) = String.eqb kind MsgTypeInteractive
/\ populated (Content m) = negb (String.eqb kind MsgTypeInteractive).

(** On the wire, [timestamp] and [sign] are both present or both absent. *)
Definition both_or_neither (env : envelope) : Prop :=
has_member "timestamp" env = has_member "sign" env.

(** The events a run added to the trace. *)
Definition new_events (before after : World) : list Event :=
skipn (length (trace before)) (trace after).

(** The requests handed to the transport. *)
Definition requests_of (evs : list Event) : list Request :=
omap (fun e => match e with EvDo req => Some req | _ => None end) evs.

(** Whether a response was parsed. *)
Definition parses (evs : list Event) : bool :=
existsb (fun e => match e with EvUnmarshal _ => true | _ => false end) evs.

(** The same transport, reporting every HTTP status [s] as [f s]. *)
Definition restatus (f : Z -> Z) (t : HTTPClient) : HTTPClient :=
{| Do := fun req =>
     match Do t req with
     | inl resp => inl {| http_status := f (http_status resp);
                          http_body := http_body resp |}
     | inr e => inr e
     end |}.

Section DeliveryPaths.

Variable json_encode_map : gmap string any -> string + error.
Variable json_Unmarshal : list byte -> Response + error.
Variable url_Parse_error : string -> option error.

(** The duplicate [msgCopy] as it stands after the signing block. *)
Definition outbound_copy (c : Client) (now : Z) (m : Message) : Message :=
  if String.eqb (Secret c) EmptyString then m
  else set_Sign (set_Timestamp m now) (fst (GenSign (Secret c) now)).

(** [Send] got as far as handing [req] to the transport: the message
    was read at [l], its duplicate serialized and the request built. *)
Definition dispatched (c : Client) (ctx : option Context) (msg : ptr)
    (w : World) (req : Request) : Prop :=
  exists l m body r,
    msg = Some l /\ heap w !! l = Some m
    /\ json_Marshal json_encode_map (outbound_copy c (clock w) m) = inl body
    /\ http_NewRequestWithContext url_Parse_error ctx "POST" (WebhookURL c) body = inl r
    /\ req = Header_Set r "Content-Type" "application/json".

Definition logs (evs : list Event) (w : World) : World :=
  {| clock := clock w; heap := heap w; trace := trace w ++ evs |}.

(** The ways through [Send], one constructor for each way out of the
    function, with the result and the events it leaves. *)
Inductive Send_path (c : Client) (ctx : option Context) (msg : ptr) (w : World)
  : outcome (option Response * option error) -> list Event -> Prop :=
| path_nil_message :
    (msg ≫= (fun l => heap w !! l)) = None ->
    Send_path c ctx msg w (Panics nil_dereference) []
| path_marshal_failure l m e :
    msg = Some l -> heap w !! l = Some m ->
    json_Marshal json_encode_map (outbound_copy c (clock w) m) = inr e ->
    Send_path c ctx msg w
      (Returns (None, Some (wrapError "failed to marshal message: " e))) []
| path_request_failure l m body e :
    msg = Some l -> heap w !! l = Some m ->
    json_Marshal json_encode_map (outbound_copy c (clock w) m) = inl body ->
    http_NewRequestWithContext url_Parse_error ctx "POST" (WebhookURL c) body = inr e ->
    Send_path c ctx msg w
      (Returns (None, Some (wrapError "failed to create request: " e))) []
| path_transport_failure req e :
    dispatched c ctx msg w req ->
    Do (Transport c) req = inr e ->
    Send_path c ctx msg w
      (Returns (None, Some (wrapError "failed to send request: " e)))
      [EvDo req]
| path_read_failure req resp e :
    dispatched c ctx msg w req ->
    Do (Transport c) req = inl resp ->
    rc_err (http_body resp) = Some e ->
    Send_path c ctx msg w
      (Returns (None, Some (wrapError "failed to read response body: " e)))
      [EvDo req; EvReadAll; EvClose]
| path_decode_failure req resp e :
    dispatched c ctx msg w req ->
    Do (Transport c) req = inl resp ->
    rc_err (http_body resp) = None ->
    json_Unmarshal (rc_data (http_body resp)) = inr e ->
    Send_path c ctx msg w
      (Returns (None, Some (wrapError "failed to unmarshal response: " e)))
      [EvDo req; EvReadAll; EvUnmarshal (rc_data (http_body resp)); EvClose]
| path_api_failure req resp apiResp :
    dispatched c ctx msg w req ->
    Do (Transport c) req = inl resp ->
    rc_err (http_body resp) = None ->
    json_Unmarshal (rc_data (http_body resp)) = inl apiResp ->
    Code apiResp <> 0 ->
    Send_path c ctx msg w
      (Returns (Some apiResp, Some (api_error apiResp)))
      [EvDo req; EvReadAll; EvUnmarshal (rc_data (http_body resp)); EvClose]
| path_success req resp apiResp :
    dispatched c ctx msg w req ->
    Do (Transport c) req = inl resp ->
    rc_err (http_body resp) = None ->
    json_Unmarshal (rc_data (http_body resp)) = inl apiResp ->
    Code apiResp = 0 ->
    Send_path c ctx msg w
      (Returns (Some apiResp, None))
      [EvDo req; EvReadAll; EvUnmarshal (rc_data (http_body resp)); EvClose].

(** The signing invariant as section 3 and section 8 of the
    specification word it, for the envelopes of one run. *)
Definition signing_as_specified (c : Client) (w : World) (evs : list Event) : Prop :=
  forall req, In req (requests_of evs) ->
    (Secret c = EmptyString ->
       has_member "timestamp" (req_body req) = false
       /\ has_member "sign" (req_body req) = false)
    /\ (Secret c <> EmptyString ->
          member "timestamp" (req_body req) = Some (JNumber (clock w))
          /\ member "sign" (req_body req)
             = Some (JString (fst (GenSign (Secret c) (clock w)))))
    /\ both_or_neither (req_body req).

End DeliveryPaths.

(* ------------------------------------------------------------------ *)
(** ** A sample endpoint, for examples *)
Module Sample.

Definition encode_map (m : gmap string any) : string + error := inl "{...}"%string.

Definition success : Response :=
  {| Code := 0; Msg := "success"; Data := None;
     StatusCode := 0; StatusMessage := EmptyString |}.

Definition key_words_not_found : Response :=
  {| Code := 19024; Msg := "Key Words Not Found"; Data := None;
     StatusCode := 0; StatusMessage := EmptyString |}.

(** The parser, on the three bodies the sample endpoints answer with. *)
Definition Unmarshal (body : list byte) : Response + error :=
  if String.eqb (string_of_bytes body) "code=0" then inl success
  else if String.eqb (string_of_bytes body) "code=19024" then inl key_words_not_found
  else inr (errorString "invalid character 'i' looking for beginning of value").

Definition url_ok (url : string) : option error := None.

(** An endpoint answering every request with [status] and [body]. *)
Definition endpoint (status : Z) (body : string) : HTTPClient :=
  {| Do := fun _ =>
       inl {| http_status := status;
              http_body := {| rc_data := bytes_of_string body; rc_err := None |} |} |}.

(** A transport that cannot connect. *)
Definition unreachable : HTTPClient :=
  {| Do := fun _ => inr (errorString "dial tcp: connection refused") |}.

Definition client (secret : string) (transport : HTTPClient) : Client :=
  {| WebhookURL := "https://open.feishu.cn/open-apis/bot/v2/hook/test";
     Secret := secret; Transport := transport |}.

Definition background : option Context := Some {| ctx_done := false |}.

(** A world holding one text message at address 1. *)
Definition world : World :=
  {| clock := 1599360473;
     heap := {[ 1%positive := NewTextMessage "test" ]};
     trace := [] |}.

(** The same message after the caller set [Timestamp] and [Sign] by
    hand, as the test of serialization with a signature does. *)
Definition hand_signed : Message :=
  set_Sign (set_Timestamp (NewTextMessage "test") 1599360473) "abc123".

Definition world_hand_signed : World :=
  {| clock := 1599360473;
     heap := {[ 1%positive := hand_signed ]};
     trace := [] |}.

Definition send (c : Client) (w : World) : outcome (option Response * option error) * World :=
  Send encode_map Unmarshal url_ok c background (Some 1%positive) w.

End Sample.

Module SampleRuns.
Import Sample.

(** The request a signing client builds for the message of [world]. *)
Definition signed_request : Request :=
  {| req_ctx := {| ctx_done := false |};
     req_method := "POST";
     req_url := "https://open.feishu.cn/open-apis/bot/v2/hook/test";
     req_header := {[ "Content-Type" := "application/json" ]};
     req_body := [ ("msg_type", JString "text");
                   ("content", JObject "{...}");
                   ("timestamp", JNumber 1599360473);
                   ("sign", JString "l1N0gAcBjdwBvGm1xMjOF0XSyaLRpR7tuO5dHfhAYc8=") ] |}.

(** The request a client without secret builds for the hand-signed
    message of [world_hand_signed]. *)
Definition hand_signed_request : Request :=
  {| req_ctx := {| ctx_done := false |};
     req_method := "POST";
     req_url := "https://open.feishu.cn/open-apis/bot/v2/hook/test";
     req_header := {[ "Content-Type" := "application/json" ]};
     req_body := [ ("msg_type", JString "text");
                   ("content", JObject "{...}");
                   ("timestamp", JNumber 1599360473);
                   ("sign", JString "abc123") ] |}.

End SampleRuns.

(* ------------------------------------------------------------------ *)
(** ** Predicates used to state the properties *)

(** The digest [d] has absorbed exactly the bytes [msg]. *)
Definition absorbed (d : sha256.digest) (msg : list byte) : Prop :=
(sha256.h d, sha256.x d) = sha256.blockGeneric (length msg) sha256.init msg
/\ sha256.len d = Z.of_nat (length msg) mod 2 ^ 64.

(** A character [base64.Encode] can produce. *)
Definition encoded_char (c : byte) : Prop :=
(exists i, 0 <= i < 64 /\ c = base64.encode i) \/ c = base64.StdPadding.

(* ------------------------------------------------------------------ *)
(** ** sign_test.go: the reference signer of the tests *)

(** [func calculateExpectedSign(secret string, timestamp int64) string];
    it writes a nil slice and drops the error of the write. *)
Definition calculateExpectedSign (secret : string) (timestamp : Z) : string :=
  let stringToSign := (fmt.Sprintf_v timestamp +:+ String "010" EmptyString +:+ secret)%string in
  let h := hmac.New (bytes_of_string stringToSign) in
  let '(h, _) := hmac.Write h [] in
  let signature := base64.EncodeToString (hmac.Sum h []) in
  signature.

(* ------------------------------------------------------------------ *)
(** ** message_test.go: [containsString] *)

(** [len(s)] as a Go int. *)
Definition strlen (s : string) : Z := Z.of_nat (String.length s).

(** [s[lo:hi]], for [0 <= lo <= hi <= len(s)]. *)
Definition slice (s : string) (lo hi : Z) : string :=
  string_of_bytes (firstn (Z.to_nat (hi - lo)) (skipn (Z.to_nat lo) (bytes_of_string s))).

(** The loop of [containsString] from index [i] on; each round tests the
    loop condition, the bounds guard and the slice.  [fuel] bounds the
    number of rounds. *)
Fixpoint containsString_from (fuel : nat) (i : Z) (s substr : string) : bool :=
  match fuel with
  | O => false
  | S fuel' =>
      if i <=? strlen s - strlen substr then
        if i + strlen substr >? strlen s then false
        else if String.eqb (slice s i (i + strlen substr)) substr then true
        else containsString_from fuel' (i + 1) s substr
      else false
  end.

(** [func containsString(s, substr string) bool]; the loop runs at most
    [len(s) + 1] rounds. *)
Definition containsString (s substr : string) : bool :=
  containsString_from (S (String.length s)) 0 s substr.

(* ------------------------------------------------------------------ *)
(** ** Counting on runs *)

(** How many times a run closed a response body. *)
Definition closes (evs : list Event) : nat :=
  length (List.filter (fun e => match e with EvClose => true | _ => false end) evs).

(** The texts [Send] puts in front of the error of a failed stage. *)
Definition stage_prefixes : list string :=
  [ "failed to marshal message: "; "failed to create request: ";
    "failed to send request: "; "failed to read response body: ";
    "failed to unmarshal response: " ]%string.

(* ------------------------------------------------------------------ *)
(** ** client.go: [Send] on every value its types admit *)

(** [*http.Response] whose [Body] may be the nil interface. *)
Record RawHTTPResponse : Type := { raw_status : Z; raw_body : option ReadCloser }.

(** A value of [type HTTPClient interface], as far as [Send] sees it:
  its [Do] may return any pair of a [*http.Response] and an [error],
  both of which may be nil.  A [Do] that panics itself or never returns
  is not among them. *)
Record RawHTTPClient : Type := {
RawDo : Request -> option RawHTTPResponse * option error }.

(** [type Client struct], whose [HTTPClient] may be the nil interface. *)
Record RawClient : Type := {
RawWebhookURL : string;
RawSecret : string;
RawTransport : option RawHTTPClient }.

(** What net/http asks of a [Do]: an error, or else a response with a body. *)
Definition keeps_contract (r : option RawHTTPResponse * option error) : bool :=
match r with
| (_, Some _) => true
| (Some resp, None) => match raw_body resp with Some _ => true | None => false end
| (None, None) => false
end.

(** An [HTTPClient] seen as such a value. *)
Definition as_raw (t : HTTPClient) : RawHTTPClient :=
{| RawDo := fun req =>
     match Do t req with
     | inl resp =>
         (Some {| raw_status := http_status resp; raw_body := Some (http_body resp) |},
          None)
     | inr e => (None, Some e)
     end |}.

Definition raw_client (c : Client) : RawClient :=
{| RawWebhookURL := WebhookURL c;
   RawSecret := Secret c;
   RawTransport := Some (as_raw (Transport c)) |}.

(** The tests of the client: [type MockHTTPClient struct] with its one
  field [DoFunc], and its [Do], which answers [nil, nil] when [DoFunc]
  is nil. *)
Record MockHTTPClient : Type := {
DoFunc : option (Request -> option RawHTTPResponse * option error) }.

Definition MockHTTPClient_Do (m : MockHTTPClient) : RawHTTPClient :=
{| RawDo := fun req =>
     match DoFunc m with
     | Some f => f req
     | None => (None, None)
     end |}.

(** [panic] of the runtime. *)
Definition panic {R A : Type} (reason : string) : M R A := fun w => (Panic reason, w).

Section DeliveryRaw.

Variable json_encode_map : gmap string any -> string + error.
Variable json_Unmarshal : list byte -> Response + error.
Variable url_Parse_error : string -> option error.

(** The statements of [Send], in the order of the source, with the nil
    checks the runtime makes at [c.Secret], [c.HTTPClient.Do] and
    [defer resp.Body.Close()]. *)
Definition Send_raw_body (c : option RawClient) (ctx : option Context) (msg : ptr)
  : M (option Response * option error) (option Response * option error) :=
  (* msgCopy := *msg *)
  msgCopy ← deref msg;
  (* c.Secret *)
  cl ← match c with
       | None => panic nil_dereference
       | Some cl => mret cl
       end;
  msgCopy ← (if String.eqb (RawSecret cl) EmptyString then mret msgCopy
             else
               timestamp ← time_Now_Unix;
               let '(sign, err) := GenSign (RawSecret cl) timestamp in
               match err with
               | Some e =>
                   return_ (None, Some (fmt.Errorf_w "failed to generate signature: " e))
               | None =>
                   mret (set_Sign (set_Timestamp msgCopy timestamp) sign)
               end);
  body ← match json_Marshal json_encode_map msgCopy with
         | inr e => return_ (None, Some (fmt.Errorf_w "failed to marshal message: " e))
         | inl body => mret body
         end;
  req ← match http_NewRequestWithContext url_Parse_error ctx "POST" (RawWebhookURL cl) body with
        | inr e => return_ (None, Some (fmt.Errorf_w "failed to create request: " e))
        | inl req => mret req
        end;
  let req := Header_Set req "Content-Type" "application/json" in
  (* c.HTTPClient.Do(req) *)
  client ← match RawTransport cl with
           | None => panic nil_dereference
           | Some client => mret client
           end;
  sent ← (emit (EvDo req);; mret (RawDo client req));
  resp ← match sent with
         | (_, Some e) => return_ (None, Some (fmt.Errorf_w "failed to send request: " e))
         | (resp, None) => mret resp
         end;
  (* defer resp.Body.Close() evaluates resp.Body and its Close at once *)
  resp ← match resp with
         | None => panic nil_dereference
         | Some resp => mret resp
         end;
  Body ← match raw_body resp with
         | None => panic nil_dereference
         | Some Body => mret Body
         end;
  defer (Body_Close Body)
    (read ← io_ReadAll Body;
     respBody ← match read with
                | (_, Some e) =>
                    return_ (None, Some (fmt.Errorf_w "failed to read response body: " e))
                | (respBody, None) => mret respBody
                end;
     parsed ← UnmarshalResponse json_Unmarshal respBody;
     apiResp ← match parsed with
               | inr e =>
                   return_ (None, Some (fmt.Errorf_w "failed to unmarshal response: " e))
               | inl apiResp => mret apiResp
               end;
     if negb (Code apiResp =? 0)
     then return_ (Some apiResp, Some (api_error apiResp))
     else return_ (Some apiResp, None)).

Definition Send_raw (c : option RawClient) (ctx : option Context) (msg : ptr) (w : World)
  : outcome (option Response * option error) * World :=
  call (Send_raw_body c ctx msg) w.

End DeliveryRaw.

Module SampleRaw.

(** A client whose transport is a [MockHTTPClient] without [DoFunc]. *)
Definition mock_client : RawClient :=
  {| RawWebhookURL := "https://open.feishu.cn/open-apis/bot/v2/hook/test";
     RawSecret := "demo";
     RawTransport := Some (MockHTTPClient_Do {| DoFunc := None |}) |}.

End SampleRaw.

(* ------------------------------------------------------------------ *)
(** ** More sample endpoints, for examples *)
Module SampleMore.

(** An encoder that refuses every map. *)
Definition encode_unsupported (m : gmap string any) : string + error :=
  inr (errorString "json: unsupported type: chan int").

(** An endpoint whose body breaks off while it is read. *)
Definition broken_body : HTTPClient :=
  {| Do := fun _ =>
       inl {| http_status := 200;
              http_body := {| rc_data := bytes_of_string "code";
                              rc_err := Some (errorString "unexpected EOF") |} |} |}.

(** A transport that gives up on a request whose context is done. *)
Definition cancelling (t : HTTPClient) : HTTPClient :=
  {| Do := fun req =>
       if ctx_done (req_ctx req) then inr (errorString "context canceled")
       else Do t req |}.

Definition cancelled : Context := {| ctx_done := true |}.

(** [Sample.world] later on: other messages stored, earlier runs traced. *)
Definition world_later : World :=
  {| clock := 1599360473;
     heap := {[ 1%positive := NewTextMessage "test";
                2%positive := NewImageMessage "img_key_123" ]};
     trace := [EvReadAll; EvClose] |}.

(** The request of [SampleRuns.signed_request] under a done context. *)
Definition cancelled_request : Request :=
  {| req_ctx := cancelled;
     req_method := "POST";
     req_url := "https://open.feishu.cn/open-apis/bot/v2/hook/test";
     req_header := {[ "Content-Type" := "application/json" ]};
     req_body := req_body SampleRuns.signed_request |}.

End SampleMore.

(* ------------------------------------------------------------------ *)
(** ** client.go: [NewClient]; examples/main.go *)
Section Program.

Variable json_encode_map : gmap string any -> string + error.
Variable json_Unmarshal : list byte -> Response + error.
Variable url_Parse_error : string -> option error.

(** [&http.Client{Timeout: d}]: the network as seen through the default
    client with timeout [d], in nanoseconds. *)
Variable http_Client : Z -> HTTPClient.

(** [time.Second] *)
Definition Second : Z := 1000000000.

(** [func NewClient(webhookURL string, secret string) *Client] *)
Definition NewClient (webhookURL secret : string) : Client :=
  {| WebhookURL := webhookURL;
     Secret := secret;
     Transport := http_Client (30 * Second) |}.

(** What the example program has written besides its requests. *)
Record Process : Type := {
  world : World;
  stdout : list string;      (* [fmt.Printf] *)
  log_lines : list string }. (* [log.Println], [log.Printf], without the date *)

Definition print (line : string) (p : Process) : Process :=
  {| world := world p; stdout := stdout p ++ [line]; log_lines := log_lines p |}.

Definition log_line (line : string) (p : Process) : Process :=
  {| world := world p; stdout := stdout p; log_lines := log_lines p ++ [line] |}.

Definition in_world (w : World) (p : Process) : Process :=
  {| world := w; stdout := stdout p; log_lines := log_lines p |}.

(** A constructor's [&Message{...}]: the struct is stored at an address
    not in use. *)
Definition new_Message (m : Message) (w : World) : positive * World :=
  let l := fresh (dom (heap w)) in
  (l, {| clock := clock w; heap := <[ l := m ]> (heap w); trace := trace w |}).

(** [context.Background()] *)
Definition context_Background : option Context := Some {| ctx_done := false |}.

Definition quote : string := String "034" EmptyString.
Definition line_feed : string := String "010" EmptyString.

(** The part every example ends with:
    [resp, err := client.Send(context.Background(), message)], return of
    the error if there is one, else
    [fmt.Printf("Response: Code=%d, Msg=%s\n", resp.Code, resp.Msg)]. *)
Definition send_and_print (client : Client) (message : outcome Message) (p : Process)
  : outcome (option error) * Process :=
  match message with
  | Panics reason => (Panics reason, p)
  | Returns m =>
      let '(l, w1) := new_Message m (world p) in
      match Send json_encode_map json_Unmarshal url_Parse_error
                 client context_Background (Some l) w1 with
      | (Panics reason, w2) => (Panics reason, in_world w2 p)
      | (Returns (_, Some err), w2) => (Returns (Some err), in_world w2 p)
      | (Returns (None, None), w2) => (Panics nil_dereference, in_world w2 p)
      | (Returns (Some resp, None), w2) =>
          (Returns None,
           print ("Response: Code=" +:+ fmt.Sprintf_d (Code resp)
                    +:+ ", Msg=" +:+ Msg resp +:+ line_feed)
                 (in_world w2 p))
      end
  end.

Definition sendTextMessage (client : Client) : Process -> outcome (option error) * Process :=
  send_and_print client (Returns (NewTextMessage "Hello from Feishu Bot SDK!")).

Definition sendTextWithMention (client : Client) : Process -> outcome (option error) * Process :=
  let textWithMention :=
    ("<at user_id=" +:+ quote +:+ "ou_xxx" +:+ quote
       +:+ ">Tom</at> this is a notification for you.")%string in
  send_and_print client (Returns (NewTextMessage textWithMention)).

Definition sendPostMessage (client : Client) : Process -> outcome (option error) * Process :=
  let content :=
    NewPostContent "Project Update"
      (variadic
         [ NewParagraph
             (variadic [ NewTextElement "Project has been updated successfully!" ]) ]) in
  send_and_print client (NewPostMessage LanguageZhCN (Some content)).

Definition sendPostMessageWithElements (client : Client)
  : Process -> outcome (option error) * Process :=
  let content :=
    NewPostContent "Daily Report"
      (variadic
         [ NewParagraph
             (variadic
                [ NewTextElement "Project update: ";
                  NewLinkElement "View Details" "https://example.com/project/123";
                  NewTextElement " - Assigned to: ";
                  NewAtElement "ou_xxx" "Tom" ]);
           NewParagraph
             (variadic
                [ NewTextElement "Please review the changes by end of day." ]) ]) in
  send_and_print client (NewPostMessage LanguageZhCN (Some content)).

Definition sendInteractiveCard (client : Client) : Process -> outcome (option error) * Process :=
  let card :=
    SetBody
      (SetHeader (NewCard "2.0")
         (Some {| Title := Some (NewCardTitle "Welcome"); Subtitle := None;
                  Template := "blue"; UiElement := None |}))
      (Some {| Direction := EmptyString; Padding := EmptyString;
               Elements :=
                 [ NewMarkdownElement
                     "Hello! This is an interactive card message from Feishu Bot SDK." ] |}) in
  send_and_print client (NewInteractiveMessage (Some card)).

Definition sendInteractiveCardWithButtons (client : Client)
  : Process -> outcome (option error) * Process :=
  let card :=
    SetBody
      (SetHeader
         (SetConfig (NewCard "2.0") (Some {[ "wide_screen_mode"%string := VBool true ]}))
         (Some {| Title := Some (NewCardTitle "Task Alert"); Subtitle := None;
                  Template := "red"; UiElement := None |}))
      (Some {| Direction := "vertical"; Padding := "12px 12px 12px 12px";
               Elements :=
                 [ NewMarkdownElement
                     ("**High Priority Task**" +:+ line_feed +:+ line_feed
                        +:+ "Please complete this task by end of day.");
                   NewButtonElement "View Details" "primary"
                     "https://example.com/task/123";
                   NewButtonElement "Dismiss" "default" "https://example.com/dismiss" ] |}) in
  send_and_print client (NewInteractiveMessage (Some card)).

(** One [if err := example(client); err != nil { log.Printf(failed, err) }
    else { log.Println(sent) }] of [main]. *)
Definition run_example (failed sent : string)
    (example : Client -> Process -> outcome (option error) * Process)
    (client : Client) (p : Process) : outcome unit * Process :=
  match example client p with
  | (Panics reason, p') => (Panics reason, p')
  | (Returns (Some err), p') => (Returns tt, log_line (failed +:+ Error err) p')
  | (Returns None, p') => (Returns tt, log_line sent p')
  end.

(** Statements of [main] in sequence: a panic ends the program. *)
Definition and_then (first second : Process -> outcome unit * Process) (p : Process)
  : outcome unit * Process :=
  match first p with
  | (Panics reason, p') => (Panics reason, p')
  | (Returns _, p') => second p'
  end.

Definition placeholder_url : string :=
  "https://open.feishu.cn/open-apis/bot/v2/hook/your_webhook_id".

(** [func main()], given what [os.Getenv] answers. *)
Definition main (Getenv : string -> string) (p : Process) : outcome unit * Process :=
  let webhookURL := Getenv "FEISHU_WEBHOOK_URL" in
  let '(webhookURL, p) :=
    if String.eqb webhookURL EmptyString
    then (placeholder_url,
          log_line "Warning: FEISHU_WEBHOOK_URL not set, using placeholder" p)
    else (webhookURL, p) in
  let secret := Getenv "FEISHU_SECRET" in
  let client := NewClient webhookURL secret in
  and_then (run_example "Failed to send text message: "
                        "Text message sent successfully" sendTextMessage client)
  (and_then (run_example "Failed to send text message with mention: "
                         "Text message with mention sent successfully"
                         sendTextWithMention client)
  (and_then (run_example "Failed to send post message: "
                         "Post message sent successfully" sendPostMessage client)
  (and_then (run_example "Failed to send post message with elements: "
                         "Post message with elements sent successfully"
                         sendPostMessageWithElements client)
  (and_then (run_example "Failed to send interactive card: "
                         "Interactive card sent successfully" sendInteractiveCard client)
            (run_example "Failed to send interactive card with buttons: "
                         "Interactive card with buttons sent successfully"
                         sendInteractiveCardWithButtons client))))) p.

(** The six examples, in the order [main] runs them. *)
Definition examples : list (Client -> Process -> outcome (option error) * Process) :=
  [ sendTextMessage; sendTextWithMention; sendPostMessage;
    sendPostMessageWithElements; sendInteractiveCard;
    sendInteractiveCardWithButtons ].

End Program.

(** What a step of the program leaves behind: requests only to [url], at
    most [n] of them, appended to the trace. *)
Definition sends_to (url : string) (n : nat) (before after : Process) : Prop :=
  exists evs,
    trace (world after) = trace (world before) ++ evs
    /\ (length (requests_of evs) <= n)%nat
    /\ Forall (fun req => req_url req = url) (requests_of evs).

Module SampleProgram.

(** The network of the sample endpoint, whatever the timeout. *)
Definition network (timeout : Z) : HTTPClient := Sample.endpoint 200 "code=0".

Definition no_environment (name : string) : string := EmptyString.

(** A URL parser that accepts only what starts with a scheme. *)
Definition need_scheme (url : string) : option error :=
  if String.prefix "http" url then None
  else Some (errorString "unsupported protocol scheme").

Definition start : Process :=
  {| world := Sample.world; stdout := []; log_lines := [] |}.

Definition run : outcome unit * Process :=
  main Sample.encode_map Sample.Unmarshal Sample.url_ok network no_environment start.

End SampleProgram.

(* ================================================================== *)
(** * Properties *)

(** ** crypto/sha256: streaming writes against the one-shot hash *)
Section Sha256Facts.
Import sha256.

Lemma blockGeneric_S (f : nat) (hv : hash8) (p : list byte) :
  blockGeneric (S f) hv p =
  if (64 <=? length p)%nat
  then blockGeneric f (block1 hv (firstn 64 p)) (skipn 64 p)
  else (hv, p).
Proof. reflexivity. Qed.

Lemma blockGeneric_fuel (f1 f2 : nat) (hv : hash8) (p : list byte) :
  (length p <= f1)%nat -> (length p <= f2)%nat ->
  blockGeneric f1 hv p = blockGeneric f2 hv p.
Proof.
  revert f2 hv p. induction f1 as [|f1 IH]; intros f2 hv p H1 H2.
  - destruct p; [|simpl in H1; lia].
    destruct f2; reflexivity.
  - destruct f2 as [|f2].
    + destruct p; [reflexivity|simpl in H2; lia].
    + rewrite !blockGeneric_S.
      destruct (Nat.leb_spec 64 (length p)) as [E|E]; [|reflexivity].
      apply IH; rewrite length_skipn; lia.
Qed.

Lemma blockGeneric_app (f : nat) (hv : hash8) (a b : list byte) :
  (length a <= f)%nat ->
  blockGeneric (length (a ++ b)) hv (a ++ b) =
  blockGeneric (length (snd (blockGeneric f hv a) ++ b))
               (fst (blockGeneric f hv a)) (snd (blockGeneric f hv a) ++ b).
Proof.
  revert hv a. induction f as [|f IH]; intros hv a Hf.
  - reflexivity.
  - rewrite blockGeneric_S.
    destruct (Nat.leb_spec 64 (length a)) as [E|E]; [|reflexivity].
    rewrite <- IH by (rewrite length_skipn; lia).
    destruct (length (a ++ b)) as [|n] eqn:El.
    { rewrite length_app in El. lia. }
    rewrite blockGeneric_S.
    destruct (Nat.leb_spec 64 (length (a ++ b))) as [E'|E'];
      [|rewrite length_app in E'; lia].
    rewrite firstn_app, skipn_app.
    replace (64 - length a)%nat with 0%nat by lia.
    rewrite firstn_0, skipn_0, app_nil_r.
    apply blockGeneric_fuel.
    + rewrite length_app, length_skipn. rewrite length_app in El. lia.
    + lia.
Qed.

Lemma div64_step (n : nat) : (64 <= n)%nat -> (n / 64 = S ((n - 64) / 64))%nat.
Proof.
  intros H. replace n with ((n - 64) + 1 * 64)%nat at 1 by lia.
  rewrite Nat.div_add by lia. lia.
Qed.

Lemma fold_left_cons {A B : Type} (f : A -> B -> A) (b : B) (l : list B) (a : A) :
  fold_left f (b :: l) a = fold_left f l (f a b).
Proof. reflexivity. Qed.

Lemma blocks_S (n : nat) (l : list byte) :
  Spec.blocks (S n) l = firstn 64 l :: Spec.blocks n (skipn 64 l).
Proof. reflexivity. Qed.

Lemma blocks_small (p : list byte) :
  (length p < 64)%nat -> Spec.blocks (length p / 64) p = [].
Proof. intros H. rewrite Nat.div_small by lia. reflexivity. Qed.

Lemma blockGeneric_blocks (f : nat) (hv : hash8) (p : list byte) :
  (length p <= f)%nat ->
  fst (blockGeneric f hv p) = fold_left block1 (Spec.blocks (length p / 64) p) hv.
Proof.
  revert hv p. induction f as [|f IH]; intros hv p Hf.
  - rewrite blocks_small by lia. reflexivity.
  - rewrite blockGeneric_S.
    destruct (Nat.leb_spec 64 (length p)) as [E|E].
    + rewrite IH by (rewrite length_skipn; lia).
      rewrite length_skipn.
      rewrite (div64_step (length p)) by lia.
      rewrite blocks_S, fold_left_cons. reflexivity.
    + rewrite blocks_small by lia. reflexivity.
Qed.
Lemma absorbed_New : absorbed New [].
Proof. split; reflexivity. Qed.

Lemma absorbed_Write (d : digest) (msg p : list byte) :
  absorbed d msg -> absorbed (fst (Write d p)) (msg ++ p).
Proof.
  intros [Hb Hl]. unfold Write.
  destruct (blockGeneric (length (x d ++ p)) (h d) (x d ++ p)) as [hv tl] eqn:E.
  split; simpl.
  - rewrite (blockGeneric_app (length msg)) by lia.
    rewrite <- Hb. simpl. symmetry. exact E.
  - rewrite Hl, length_app, Nat2Z.inj_add.
    rewrite Zplus_mod_idemp_l. reflexivity.
Qed.

Lemma padding_mod (l : Z) : padding (l mod 2 ^ 64) = padding l.
Proof.
  unfold padding.
  replace ((l mod 2 ^ 64) mod 64) with (l mod 64).
  - rewrite Z.mul_mod_idemp_l by lia. reflexivity.
  - symmetry. apply Z.mod_mod_divide. exists (2 ^ 58). reflexivity.
Qed.

Lemma padding_pad (msg : list byte) :
  msg ++ padding (Z.of_nat (length msg)) = Spec.pad msg.
Proof.
  unfold padding, Spec.pad. f_equal. simpl. f_equal.
  set (l := Z.of_nat (length msg)).
  assert (Hm : 0 <= l mod 64 < 64) by (apply Z.mod_pos_bound; lia).
  f_equal.
  - f_equal.
    assert (Hk : (55 - l) mod 64 =
                 if l mod 64 <? 56 then 55 - l mod 64 else 119 - l mod 64).
    { destruct (l mod 64 <? 56) eqn:E.
      - apply Z.ltb_lt in E. symmetry.
        apply (Z.mod_unique_pos _ _ (- (l / 64))); [lia|].
        pose proof (Z.div_mod l 64). lia.
      - apply Z.ltb_ge in E. symmetry.
        apply (Z.mod_unique_pos _ _ (- (l / 64) - 1)); [lia|].
        pose proof (Z.div_mod l 64). lia. }
    rewrite Hk. destruct (l mod 64 <? 56); lia.
  - f_equal. f_equal. lia.
Qed.

Lemma absorbed_Sum (d : digest) (msg : list byte) :
  absorbed d msg -> Sum d [] = Spec.SHA256 msg.
Proof.
  intros Ha. unfold Sum, checkSum. rewrite app_nil_l.
  assert (Hpd : msg ++ padding (len d) = Spec.pad msg).
  { destruct Ha as [_ Hl]. rewrite Hl, padding_mod. apply padding_pad. }
  pose proof (absorbed_Write d msg (padding (len d)) Ha) as [Hb _].
  rewrite Hpd in Hb. apply (f_equal fst) in Hb. cbn [fst] in Hb.
  rewrite Hb. unfold Spec.SHA256. f_equal.
  apply blockGeneric_blocks. lia.
Qed.

Lemma Sum_Write (a : list byte) :
  Sum (fst (Write New a)) [] = Spec.SHA256 a.
Proof.
  apply absorbed_Sum. apply (absorbed_Write New [] a absorbed_New).
Qed.

Lemma Sum_Write_Write (a b : list byte) :
  Sum (fst (Write (fst (Write New a)) b)) [] = Spec.SHA256 (a ++ b).
Proof.
  apply absorbed_Sum. apply absorbed_Write.
  apply (absorbed_Write New [] a absorbed_New).
Qed.

Lemma length_put_be (n : nat) (v : Z) : length (put_be n v) = n.
Proof. unfold put_be. rewrite length_map, length_seq. reflexivity. Qed.

Lemma length_digest_bytes (hv : hash8) : length (digest_bytes hv) = 32%nat.
Proof. unfold digest_bytes. rewrite !length_app, !length_put_be. reflexivity. Qed.

Lemma length_Sum (d : digest) : length (Sum d []) = 32%nat.
Proof. unfold Sum, checkSum. rewrite app_nil_l. apply length_digest_bytes. Qed.

(** [Write] never reports an error, as [hash.Hash] promises. *)
Lemma Write_no_error (d : digest) (p : list byte) : snd (snd (Write d p)) = None.
Proof.
  unfold Write. destruct (blockGeneric _ _ _). reflexivity.
Qed.

End Sha256Facts.

(** ** crypto/hmac against RFC 2104 *)
Section HmacFacts.

Lemma length_SHA256 (msg : list byte) : length (Spec.SHA256 msg) = 32%nat.
Proof. unfold Spec.SHA256. apply length_digest_bytes. Qed.

Lemma hmac_Write_fst (hm : hmac.t) (p : list byte) :
  fst (hmac.Write hm p) =
  hmac.Hmac (hmac.opad hm) (hmac.ipad hm) (hmac.outer hm)
            (fst (sha256.Write (hmac.inner hm) p)).
Proof.
  unfold hmac.Write. destruct (sha256.Write (hmac.inner hm) p). reflexivity.
Qed.

Lemma hmac_Write_no_error (hm : hmac.t) (p : list byte) :
  snd (snd (hmac.Write hm p)) = None.
Proof.
  unfold hmac.Write.
  pose proof (Write_no_error (hmac.inner hm) p) as H.
  destruct (sha256.Write (hmac.inner hm) p). exact H.
Qed.

Lemma pad_key_block_key (key : list byte) :
  hmac.pad_key
    (if (sha256.BlockSize <? length key)%nat
     then sha256.Sum (fst (sha256.Write sha256.New key)) []
     else key)
  = Spec.block_key key.
Proof.
  unfold hmac.pad_key, Spec.block_key, sha256.BlockSize.
  rewrite Sum_Write.
  destruct (Nat.ltb_spec 64 (length key)) as [E|E].
  - rewrite firstn_all2 by (rewrite length_SHA256; lia). reflexivity.
  - rewrite firstn_all2 by lia. reflexivity.
Qed.

(** Writing [text] to a fresh HMAC and summing gives the RFC 2104 value. *)
Lemma hmac_Sum_Write (key text : list byte) :
  hmac.Sum (fst (hmac.Write (hmac.New key) text)) [] = Spec.HMAC_SHA256 key text.
Proof.
  rewrite hmac_Write_fst. unfold hmac.Sum, hmac.New.
  cbn [hmac.opad hmac.ipad hmac.inner hmac.outer].
  rewrite pad_key_block_key, !Sum_Write_Write. reflexivity.
Qed.

End HmacFacts.


(** ** encoding/base64 *)
Section Base64Facts.
Import base64.

Lemma list_ind3 {A : Type} (P : list A -> Prop) :
  P [] -> (forall a, P [a]) -> (forall a b, P [a; b]) ->
  (forall a b c l, P l -> P (a :: b :: c :: l)) ->
  forall l, P l.
Proof.
  intros H0 H1 H2 H3 l.
  assert (H : P l /\ (forall a, P (a :: l)) /\ (forall a b, P (a :: b :: l))).
  { induction l as [|x l [IH0 [IH1 IH2]]].
    - auto.
    - repeat split; auto. }
  apply H.
Qed.

Lemma byte_to_Z_range (b : byte) : 0 <= byte_to_Z b < 256.
Proof.
  unfold byte_to_Z. pose proof (N_ascii_bounded b) as H.
  split; [apply N2Z.is_nonneg|].
  change 256 with (Z.of_N 256). apply N2Z.inj_lt. exact H.
Qed.

Lemma Z_to_byte_eq (z : Z) (b : byte) : z mod 256 = byte_to_Z b -> Z_to_byte z = b.
Proof.
  intros H. unfold Z_to_byte. rewrite H. unfold byte_to_Z.
  rewrite N2Z.id. apply ascii_N_embedding.
Qed.

(** Two bit fields that do not overlap combine by addition. *)
Lemma lor_add (hi lo k : Z) :
  0 <= k -> hi mod 2 ^ k = 0 -> 0 <= lo < 2 ^ k -> Z.lor hi lo = hi + lo.
Proof.
  intros Hk Hhi Hlo. symmetry. apply Z.add_nocarry_lor.
  apply Z.bits_inj'. intros n Hn.
  rewrite Z.land_spec, Z.bits_0.
  destruct (Z.lt_ge_cases n k) as [Hlt|Hge].
  - replace hi with (Z.shiftl (hi / 2 ^ k) k).
    + rewrite Z.shiftl_spec_low by lia. reflexivity.
    + rewrite Z.shiftl_mul_pow2 by lia.
      pose proof (Z.div_mod hi (2 ^ k)). lia.
  - rewrite <- (Z.mod_small lo (2 ^ k)) by lia.
    rewrite Z.mod_pow2_bits_high by lia. apply andb_false_r.
Qed.

Ltac pow_lia :=
  change (2 ^ 18) with 262144 in *; change (2 ^ 16) with 65536 in *;
  change (2 ^ 12) with 4096 in *; change (2 ^ 8) with 256 in *;
  change (2 ^ 6) with 64 in *;
  Z.div_mod_to_equations; lia.

Lemma sextet_arith (val k : Z) :
  0 <= k -> Z.land (Z.shiftr val k) 0x3F = (val / 2 ^ k) mod 64.
Proof.
  intros Hk. rewrite Z.shiftr_div_pow2 by lia.
  change 0x3F with (Z.ones 6). rewrite Z.land_ones by lia. reflexivity.
Qed.

Lemma quantum_arith (v0 v1 v2 v3 : Z) :
  0 <= v0 -> 0 <= v1 < 64 -> 0 <= v2 < 64 -> 0 <= v3 < 64 ->
  quantum v0 v1 v2 v3 = v0 * 262144 + v1 * 4096 + v2 * 64 + v3.
Proof.
  intros H0 H1 H2 H3. unfold quantum.
  rewrite !Z.shiftl_mul_pow2 by lia.
  change (2 ^ 18) with 262144. change (2 ^ 12) with 4096. change (2 ^ 6) with 64.
  rewrite (lor_add (v0 * 262144) (v1 * 4096) 18)
    by pow_lia.
  rewrite (lor_add (v0 * 262144 + v1 * 4096) (v2 * 64) 12)
    by pow_lia.
  rewrite (lor_add (v0 * 262144 + v1 * 4096 + v2 * 64) v3 6)
    by pow_lia.
  reflexivity.
Qed.

(** The 24-bit group built from three bytes, arithmetically. *)
Lemma group_arith (a b c : Z) :
  0 <= a < 256 -> 0 <= b < 256 -> 0 <= c < 256 ->
  Z.lor (Z.lor (Z.shiftl a 16) (Z.shiftl b 8)) c = a * 65536 + b * 256 + c.
Proof.
  intros Ha Hb Hc. rewrite !Z.shiftl_mul_pow2 by lia.
  change (2 ^ 16) with 65536. change (2 ^ 8) with 256.
  rewrite (lor_add (a * 65536) (b * 256) 16)
    by pow_lia.
  rewrite (lor_add (a * 65536 + b * 256) c 8)
    by pow_lia.
  reflexivity.
Qed.

Lemma group2_arith (a b : Z) :
  0 <= a < 256 -> 0 <= b < 256 ->
  Z.lor (Z.shiftl a 16) (Z.shiftl b 8) = a * 65536 + b * 256.
Proof.
  intros Ha Hb. rewrite !Z.shiftl_mul_pow2 by lia.
  change (2 ^ 16) with 65536. change (2 ^ 8) with 256.
  apply (lor_add (a * 65536) (b * 256) 16);
    pow_lia.
Qed.

Lemma decode_encode (i : Z) : 0 <= i < 64 -> decode (encode i) = Some i.
Proof.
  intros Hi. rewrite <- (Z2Nat.id i) by lia.
  assert (Hn : (Z.to_nat i < 64)%nat) by lia.
  generalize dependent (Z.to_nat i). clear i Hi. intros n Hn.
  do 64 (destruct n as [|n]; [vm_compute; reflexivity|]). lia.
Qed.

Lemma encode_not_newline (i : Z) : 0 <= i < 64 -> is_newline (encode i) = false.
Proof.
  intros Hi. rewrite <- (Z2Nat.id i) by lia.
  assert (Hn : (Z.to_nat i < 64)%nat) by lia.
  generalize dependent (Z.to_nat i). clear i Hi. intros n Hn.
  do 64 (destruct n as [|n]; [vm_compute; reflexivity|]). lia.
Qed.

Lemma sextet_range (val k : Z) : 0 <= k -> 0 <= Z.land (Z.shiftr val k) 0x3F < 64.
Proof.
  intros Hk. rewrite sextet_arith by lia. apply Z.mod_pos_bound. lia.
Qed.

Lemma decode_sextet (val k : Z) :
  0 <= k -> decode (sextet val k) = Some ((val / 2 ^ k) mod 64).
Proof.
  intros Hk. unfold sextet. rewrite decode_encode by (apply sextet_range; lia).
  rewrite sextet_arith by lia. reflexivity.
Qed.

Lemma decode_pad : decode StdPadding = None.
Proof. vm_compute. reflexivity. Qed.

Lemma sextet_encoded (val k : Z) : 0 <= k -> encoded_char (sextet val k).
Proof.
  intros Hk. left. exists (Z.land (Z.shiftr val k) 0x3F).
  split; [apply sextet_range; lia|reflexivity].
Qed.

Lemma Encode_chars (src : list byte) : Forall encoded_char (Encode src).
Proof.
  assert (Hp : encoded_char StdPadding) by (right; reflexivity).
  induction src as [|a|a b|a b c l IH] using list_ind3; cbn [Encode].
  - apply List.Forall_nil.
  - repeat apply List.Forall_cons; try apply List.Forall_nil;
      try exact Hp; apply sextet_encoded; lia.
  - repeat apply List.Forall_cons; try apply List.Forall_nil;
      try exact Hp; apply sextet_encoded; lia.
  - repeat apply List.Forall_cons; try exact IH; apply sextet_encoded; lia.
Qed.

Lemma encoded_char_std (c : byte) : encoded_char c -> std_char c = true.
Proof.
  intros [[i [Hi ->]]| ->]; unfold std_char.
  - rewrite decode_encode by lia. reflexivity.
  - reflexivity.
Qed.

Lemma encoded_char_not_newline (c : byte) : encoded_char c -> is_newline c = false.
Proof.
  intros [[i [Hi ->]]| ->].
  - apply encode_not_newline. lia.
  - reflexivity.
Qed.

Lemma filter_newlines_Encode (src : list byte) :
  List.filter (fun c => negb (is_newline c)) (Encode src) = Encode src.
Proof.
  pose proof (Encode_chars src) as H.
  induction H as [|c l Hc Hl IH]; [reflexivity|].
  cbn [List.filter]. rewrite (encoded_char_not_newline c Hc). cbn [negb].
  f_equal. exact IH.
Qed.

Lemma length_Encode (src : list byte) :
  length (Encode src) = (4 * ((length src + 2) / 3))%nat.
Proof.
  induction src as [|a|a b|a b c l IH] using list_ind3; cbn [Encode]; try reflexivity.
  cbn [length]. rewrite IH.
  replace (S (S (S (length l))) + 2)%nat with ((length l + 2) + 1 * 3)%nat by lia.
  rewrite Nat.div_add by lia. lia.
Qed.

End Base64Facts.

Section Base64RoundTrip.
Import base64.

Ltac arith :=
  change (2 ^ 18) with 262144 in *; change (2 ^ 16) with 65536 in *;
  change (2 ^ 12) with 4096 in *; change (2 ^ 8) with 256 in *;
  change (2 ^ 6) with 64 in *; change (2 ^ 0) with 1 in *;
  Z.div_mod_to_equations; lia.

Lemma decode_quanta_cons4 (c0 c1 c2 c3 : byte) (rest : list byte) :
  decode_quanta (c0 :: c1 :: c2 :: c3 :: rest) =
  match decode c0, decode c1 with
  | Some v0, Some v1 =>
      match decode c2 with
      | Some v2 =>
          match decode c3 with
          | Some v3 =>
              option_map
                (fun tl => Z_to_byte (Z.shiftr (quantum v0 v1 v2 v3) 16)
                             :: Z_to_byte (Z.shiftr (quantum v0 v1 v2 v3) 8)
                             :: Z_to_byte (quantum v0 v1 v2 v3) :: tl)
                (decode_quanta rest)
          | None =>
              if is_pad c3 && is_nil rest then
                Some [Z_to_byte (Z.shiftr (quantum v0 v1 v2 0) 16);
                      Z_to_byte (Z.shiftr (quantum v0 v1 v2 0) 8)]
              else None
          end
      | None =>
          if is_pad c2 && is_pad c3 && is_nil rest then
            Some [Z_to_byte (Z.shiftr (quantum v0 v1 0 0) 16)]
          else None
      end
  | _, _ => None
  end.
Proof. reflexivity. Qed.

Lemma mod64_range (z : Z) : 0 <= z mod 64 < 64.
Proof. apply Z.mod_pos_bound. lia. Qed.

Lemma decode_Encode_1 (a : byte) : decode_quanta (Encode [a]) = Some [a].
Proof.
  cbn [Encode]. rewrite decode_quanta_cons4.
  rewrite !decode_sextet by lia. rewrite decode_pad.
  change (is_pad StdPadding && is_pad StdPadding && is_nil []) with true.
  cbv iota. f_equal. f_equal.
  pose proof (byte_to_Z_range a) as Ha.
  apply Z_to_byte_eq.
  rewrite quantum_arith by (try apply mod64_range; lia).
  rewrite Z.shiftr_div_pow2, Z.shiftl_mul_pow2 by lia.
  generalize dependent (byte_to_Z a). intros A Ha. arith.
Qed.

Lemma decode_Encode_2 (a b : byte) : decode_quanta (Encode [a; b]) = Some [a; b].
Proof.
  cbn [Encode]. rewrite decode_quanta_cons4.
  rewrite !decode_sextet by lia. rewrite decode_pad.
  change (is_pad StdPadding && is_nil []) with true.
  cbv iota.
  pose proof (byte_to_Z_range a) as Ha. pose proof (byte_to_Z_range b) as Hb.
  rewrite group2_arith by lia.
  rewrite quantum_arith by (try apply mod64_range; lia).
  rewrite !Z.shiftr_div_pow2 by lia.
  f_equal. f_equal; [|f_equal]; apply Z_to_byte_eq;
    revert Ha Hb; generalize (byte_to_Z a) (byte_to_Z b); intros A B Ha Hb; arith.
Qed.

(** The four sextets of a 24-bit group put together again. *)
Lemma sextets_regroup (v : Z) :
  0 <= v < 16777216 ->
  (v / 2 ^ 18) mod 64 * 262144 + (v / 2 ^ 12) mod 64 * 4096
    + (v / 2 ^ 6) mod 64 * 64 + (v / 2 ^ 0) mod 64 = v.
Proof. intros Hv. arith. Qed.

Lemma decode_Encode_3 (a b c : byte) (rest : list byte) :
  decode_quanta (Encode (a :: b :: c :: rest)) =
  option_map (fun tl => a :: b :: c :: tl) (decode_quanta (Encode rest)).
Proof.
  cbn [Encode]. rewrite decode_quanta_cons4.
  rewrite !decode_sextet by lia. cbv iota.
  pose proof (byte_to_Z_range a) as Ha. pose proof (byte_to_Z_range b) as Hb.
  pose proof (byte_to_Z_range c) as Hc.
  rewrite group_arith by lia.
  rewrite quantum_arith by (try apply mod64_range; lia).
  rewrite sextets_regroup by lia.
  rewrite !Z.shiftr_div_pow2 by lia.
  replace (Z_to_byte ((byte_to_Z a * 65536 + byte_to_Z b * 256 + byte_to_Z c) / 2 ^ 16))
    with a by (symmetry; apply Z_to_byte_eq; arith).
  replace (Z_to_byte ((byte_to_Z a * 65536 + byte_to_Z b * 256 + byte_to_Z c) / 2 ^ 8))
    with b by (symmetry; apply Z_to_byte_eq; arith).
  replace (Z_to_byte (byte_to_Z a * 65536 + byte_to_Z b * 256 + byte_to_Z c))
    with c by (symmetry; apply Z_to_byte_eq; arith).
  reflexivity.
Qed.

(** Decoding what [Encode] produced gives the source bytes back. *)
Lemma decode_quanta_Encode (src : list byte) : decode_quanta (Encode src) = Some src.
Proof.
  induction src as [|a|a b|a b c l IH] using list_ind3.
  - reflexivity.
  - apply decode_Encode_1.
  - apply decode_Encode_2.
  - rewrite decode_Encode_3, IH. reflexivity.
Qed.

Lemma bytes_of_string_of_bytes (l : list byte) :
  bytes_of_string (string_of_bytes l) = l.
Proof. apply list_ascii_of_string_of_list_ascii. Qed.

Lemma DecodeString_EncodeToString (src : list byte) :
  DecodeString (EncodeToString src) = Some src.
Proof.
  unfold DecodeString, EncodeToString.
  rewrite bytes_of_string_of_bytes, filter_newlines_Encode.
  apply decode_quanta_Encode.
Qed.

Lemma length_string_of_bytes (l : list byte) :
  String.length (string_of_bytes l) = length l.
Proof.
  induction l as [|c l IH]; [reflexivity|].
  cbn [string_of_bytes string_of_list_ascii String.length length].
  f_equal. exact IH.
Qed.

End Base64RoundTrip.

(** ** sign.go: the claims about [GenSign] *)

Lemma GenSign_eq (secret : string) (timestamp : Z) :
GenSign secret timestamp =
(base64.EncodeToString
   (hmac.Sum
      (fst (hmac.Write
              (hmac.New (bytes_of_string
                 (fmt.Sprintf_v timestamp +:+ String "010" EmptyString +:+ secret)%string))
              [])) []),
 None).
Proof.
unfold GenSign.
pose proof (hmac_Write_no_error
              (hmac.New (bytes_of_string
                 (fmt.Sprintf_v timestamp +:+ String "010" EmptyString +:+ secret)%string))
              []) as He.
destruct (hmac.Write _ []) as [h' [n err]].
cbn [snd] in He. subst err. reflexivity.
Qed.

Lemma GenSign_Spec (secret : string) (timestamp : Z) :
GenSign secret timestamp = (Spec.sign secret timestamp, None).
Proof.
rewrite GenSign_eq, hmac_Sum_Write. reflexivity.
Qed.

Lemma length_HMAC (key text : list byte) : length (Spec.HMAC_SHA256 key text) = 32%nat.
Proof. unfold Spec.HMAC_SHA256. apply length_SHA256. Qed.

(** The decimal text of an integer reads back as that integer. *)
Lemma decimal_reads_back (n : Z) :
option_map Z.of_int (NilZero.int_of_string (Spec.decimal n)) = Some n.
Proof.
unfold Spec.decimal.
rewrite NilZero.isi.
- cbn [option_map]. rewrite DecimalZ.of_to. reflexivity.
- destruct n as [|p|p]; try discriminate.
  intros H. injection H. apply DecimalPos.Unsigned.to_uint_nonnil.
- destruct n as [|p|p]; try discriminate.
  intros H. injection H. apply DecimalPos.Unsigned.to_uint_nonnil.
Qed.

Lemma GenSign_nonempty (secret : string) (timestamp : Z) :
fst (GenSign secret timestamp) <> EmptyString.
Proof.
rewrite GenSign_Spec. cbn [fst]. intros H.
apply (f_equal String.length) in H.
unfold Spec.sign, base64.EncodeToString in H.
rewrite length_string_of_bytes, length_Encode, length_HMAC in H.
discriminate H.
Qed.

(** C1: for every secret and every timestamp, [GenSign] returns the
  standard padded Base64 encoding of the HMAC-SHA256 digest of the
  zero-length message, keyed by the decimal text of the timestamp, one
  newline, and the secret, in that order; the digest is that of
  RFC 2104 over the one-shot FIPS 180-4 hash. *)
Theorem GenSign_is_base64_hmac_of_empty_message (secret : string) (timestamp : Z) :
fst (GenSign secret timestamp) =
base64.EncodeToString
  (Spec.HMAC_SHA256
     (bytes_of_string (Spec.decimal timestamp +:+ Spec.newline +:+ secret)%string)
     []).
Proof.
rewrite GenSign_Spec. reflexivity.
Qed.

(** C4: for every secret and every timestamp, [GenSign] returns a
  signature together with a nil error; the write to the HMAC, the only
  step whose error is checked, never reports one. *)
Theorem GenSign_never_fails (secret : string) (timestamp : Z) :
(forall (key p : list byte), snd (snd (hmac.Write (hmac.New key) p)) = None)
/\ snd (GenSign secret timestamp) = None
/\ fst (GenSign secret timestamp) <> EmptyString.
Proof.
split; [intros key p; apply hmac_Write_no_error|].
split; [rewrite GenSign_Spec; reflexivity|apply GenSign_nonempty].
Qed.

(** C7: the string [GenSign] returns has exactly 44 characters, all of
  the standard Base64 alphabet or padding, and decodes to exactly 32
  bytes; in particular so does the signature of "demo" at 1599360473. *)
Theorem GenSign_44_chars_32_bytes :
(forall (secret : string) (timestamp : Z),
   let signature := fst (GenSign secret timestamp) in
   String.length signature = 44%nat
   /\ forallb base64.std_char (bytes_of_string signature) = true
   /\ exists digest, base64.DecodeString signature = Some digest
                     /\ length digest = 32%nat)
/\ option_map (@length byte)
     (base64.DecodeString (fst (GenSign "demo" 1599360473))) = Some 32%nat.
Proof.
assert (H : forall (secret : string) (timestamp : Z),
   let signature := fst (GenSign secret timestamp) in
   String.length signature = 44%nat
   /\ forallb base64.std_char (bytes_of_string signature) = true
   /\ exists digest, base64.DecodeString signature = Some digest
                     /\ length digest = 32%nat).
{ intros secret timestamp. rewrite GenSign_Spec. cbn [fst].
  unfold Spec.sign. cbv zeta.
  set (d := Spec.HMAC_SHA256 _ []).
  assert (Hd : length d = 32%nat) by apply length_HMAC.
  split; [|split].
  - unfold base64.EncodeToString.
    rewrite length_string_of_bytes, length_Encode, Hd. reflexivity.
  - unfold base64.EncodeToString. rewrite bytes_of_string_of_bytes.
    apply forallb_forall. intros c Hc.
    apply encoded_char_std.
    pose proof (Encode_chars d) as Hall.
    rewrite List.Forall_forall in Hall. apply Hall. exact Hc.
  - exists d. split; [apply DecodeString_EncodeToString|exact Hd]. }
split; [exact H|].
destruct (H "demo"%string 1599360473) as [_ [_ [digest [Hdec Hlen]]]].
rewrite Hdec. cbn [option_map]. rewrite Hlen. reflexivity.
Qed.

Lemma GenSign_run_result (secret : string) (timestamp : Z) (hashes : gmap positive hmac.t) :
fst (GenSign_run secret timestamp hashes) = Returns (GenSign secret timestamp)
/\ forall l, l <> fresh (dom hashes) ->
     snd (GenSign_run secret timestamp hashes) !! l = hashes !! l.
Proof.
unfold GenSign_run, GenSign, object.New, object.Write, object.Sum.
cbv zeta.
set (key := bytes_of_string _).
rewrite lookup_insert_eq.
destruct (hmac.Write (hmac.New key) []) as [hm' [n err]] eqn:Hw.
destruct err as [e|].
- cbn [fst snd]. split; [reflexivity|].
  intros l Hl. rewrite !lookup_insert_ne by congruence. reflexivity.
- rewrite lookup_insert_eq. cbn [fst snd]. split; [reflexivity|].
  intros l Hl. rewrite !lookup_insert_ne by congruence. reflexivity.
Qed.

(** C9: [GenSign] is a function of its two arguments alone.  Run on
  the hashes a process has allocated, whatever they are, it returns the
  same signature and the same nil error, so two calls on the same secret
  and timestamp agree, the second of two calls in a row included; what
  it returns is [GenSign secret timestamp]; and it leaves every hash
  that was there as it was. *)
Theorem GenSign_deterministic (secret : string) (timestamp : Z)
  (hashes hashes' : gmap positive hmac.t) :
fst (GenSign_run secret timestamp hashes) = fst (GenSign_run secret timestamp hashes')
/\ fst (GenSign_run secret timestamp (snd (GenSign_run secret timestamp hashes)))
   = fst (GenSign_run secret timestamp hashes)
/\ fst (GenSign_run secret timestamp hashes) = Returns (GenSign secret timestamp)
/\ (forall h hm, hashes !! h = Some hm ->
      snd (GenSign_run secret timestamp hashes) !! h = Some hm).
Proof.
repeat split.
- rewrite (proj1 (GenSign_run_result secret timestamp hashes)).
  rewrite (proj1 (GenSign_run_result secret timestamp hashes')). reflexivity.
- rewrite !(proj1 (GenSign_run_result secret timestamp _)). reflexivity.
- apply GenSign_run_result.
- intros h hm Hh.
  rewrite (proj2 (GenSign_run_result secret timestamp hashes)); [exact Hh|].
  intros ->. pose proof (is_fresh (dom hashes)) as Hf.
  apply Hf. apply elem_of_dom. eexists; exact Hh.
Qed.

Lemma GenSign_deterministic_witness :
fst (GenSign_run "test_secret_123" 1234567890 ∅)
= fst (GenSign_run "test_secret_123" 1234567890 {[ 7%positive := hmac.New [] ]}).
Proof.
exact (proj1 (GenSign_deterministic "test_secret_123" 1234567890 ∅
                {[ 7%positive := hmac.New [] ]})).
Defined.

(** ** client.go: the runs of [Send] *)
Section SendFacts.

Variable json_encode_map : gmap string any -> string + error.
Variable json_Unmarshal : list byte -> Response + error.
Variable url_Parse_error : string -> option error.

Lemma logs_nil (w : World) : logs [] w = w.
Proof. destruct w. unfold logs. cbn. rewrite app_nil_r. reflexivity. Qed.

Lemma Send_sound (c : Client) (ctx : option Context) (msg : ptr) (w : World) :
  exists evs,
    Send_path json_encode_map json_Unmarshal url_Parse_error c ctx msg w
      (fst (Send json_encode_map json_Unmarshal url_Parse_error c ctx msg w)) evs
    /\ snd (Send json_encode_map json_Unmarshal url_Parse_error c ctx msg w) = logs evs w.
Proof.
  unfold Send, call, Send_body.
  unfold mbind, M_bind, mret, M_ret, deref, return_, time_Now_Unix.
  destruct msg as [l|].
  2:{ exists []. split; [constructor; reflexivity|symmetry; apply logs_nil]. }
  destruct (heap w !! l) as [m|] eqn:Hm.
  2:{ exists []. split; [constructor; exact Hm|symmetry; apply logs_nil]. }
  assert (Hcopy :
    (if String.eqb (Secret c) EmptyString then m
     else set_Sign (set_Timestamp m (clock w)) (fst (GenSign (Secret c) (clock w))))
    = outbound_copy c (clock w) m) by reflexivity.
  destruct (String.eqb (Secret c) EmptyString); cbv beta iota;
    [|rewrite (GenSign_Spec (Secret c) (clock w)) in *; cbn [fst] in Hcopy; cbv beta iota];
    rewrite Hcopy; clear Hcopy;
    remember (outbound_copy c (clock w) m) as mc eqn:Hmc.
  all: destruct (json_Marshal json_encode_map mc) as [body|e] eqn:Hj; cbv beta iota.
  all: try (exists []; split; [subst mc; eapply path_marshal_failure; eauto
                             |symmetry; apply logs_nil]).
  all: destruct (http_NewRequestWithContext url_Parse_error ctx "POST" (WebhookURL c) body)
         as [r|e] eqn:Hr; cbv beta iota.
  all: try (exists []; split; [subst mc; eapply path_request_failure; eauto
                             |symmetry; apply logs_nil]).
  all: unfold HTTPClient_Do, defer, io_ReadAll, Body_Close, UnmarshalResponse, emit,
         mbind, M_bind, mret, M_ret, return_; cbv beta iota.
  all: assert (Hd : dispatched json_encode_map url_Parse_error c ctx (Some l) w
                      (Header_Set r "Content-Type" "application/json"))
         by (exists l, m, body, r; subst mc; auto).
  all: set (req := Header_Set r "Content-Type" "application/json") in *.
  all: destruct (Do (Transport c) req) as [resp|e] eqn:Hdo; cbv beta iota.
  all: try (exists [EvDo req]; split; [eapply path_transport_failure; eauto|reflexivity]).
  all: destruct (rc_err (http_body resp)) as [e|] eqn:Hrd; cbv beta iota.
  all: try (exists [EvDo req; EvReadAll; EvClose]; split;
            [eapply path_read_failure; eauto
            |unfold log, logs; cbn; rewrite <- !app_assoc; reflexivity]).
  all: destruct (json_Unmarshal (rc_data (http_body resp))) as [apiResp|e] eqn:Hu;
         cbv beta iota.
  all: try (exists [EvDo req; EvReadAll; EvUnmarshal (rc_data (http_body resp)); EvClose];
            split;
            [eapply path_decode_failure; eauto
            |unfold log, logs; cbn; rewrite <- !app_assoc; reflexivity]).
  all: destruct (Code apiResp =? 0) eqn:Hc; cbv beta iota; cbn [negb];
         exists [EvDo req; EvReadAll; EvUnmarshal (rc_data (http_body resp)); EvClose];
         (split; [|unfold log, logs; cbn; rewrite <- !app_assoc; reflexivity]).
  all: try (apply Z.eqb_eq in Hc; eapply path_success; eauto).
  all: try (apply Z.eqb_neq in Hc; eapply path_api_failure; eauto).
Qed.

Lemma new_events_logs (evs : list Event) (w : World) :
  new_events w (logs evs w) = evs.
Proof. unfold new_events, logs. cbn [trace]. apply drop_app_length. Qed.

(** Every run follows one of the paths, and changes the world only by
    appending that path's events to the trace. *)
Lemma Send_run (c : Client) (ctx : option Context) (msg : ptr) (w : World) :
  Send_path json_encode_map json_Unmarshal url_Parse_error c ctx msg w
    (fst (Send json_encode_map json_Unmarshal url_Parse_error c ctx msg w))
    (new_events w (snd (Send json_encode_map json_Unmarshal url_Parse_error c ctx msg w)))
  /\ heap (snd (Send json_encode_map json_Unmarshal url_Parse_error c ctx msg w)) = heap w
  /\ clock (snd (Send json_encode_map json_Unmarshal url_Parse_error c ctx msg w)) = clock w.
Proof.
  destruct (Send_sound c ctx msg w) as [evs [Hp Hw]].
  rewrite Hw, new_events_logs. repeat split. exact Hp.
Qed.

Lemma dispatched_body (c : Client) (ctx : option Context) (l : positive)
    (m : Message) (w : World) (req : Request) :
  heap w !! l = Some m ->
  dispatched json_encode_map url_Parse_error c ctx (Some l) w req ->
  json_Marshal json_encode_map (outbound_copy c (clock w) m) = inl (req_body req).
Proof.
  intros Hm [l' [m' [body [r [Hl [Hm' [Hj [Hr ->]]]]]]]].
  injection Hl as <-. rewrite Hm in Hm'. injection Hm' as <-.
  rewrite Hj. f_equal. cbn [Header_Set req_body].
  unfold http_NewRequestWithContext in Hr.
  destruct ctx as [cx|]; [|discriminate Hr].
  destruct (url_Parse_error (WebhookURL c)); [discriminate Hr|].
  injection Hr as <-. reflexivity.
Qed.

(** The requests of a run are those its path dispatched. *)
Lemma Send_path_requests (c : Client) (ctx : option Context) (msg : ptr)
    (w : World) (out : outcome (option Response * option error))
    (evs : list Event) (req : Request) :
  Send_path json_encode_map json_Unmarshal url_Parse_error c ctx msg w out evs ->
  In req (requests_of evs) ->
  dispatched json_encode_map url_Parse_error c ctx msg w req.
Proof.
  intros Hp Hin.
  destruct Hp; cbn in Hin; try contradiction;
    destruct Hin as [<-|[]]; assumption.
Qed.

Lemma marshal_map_field_shape (key : string) (m : gomap) (fields : envelope) :
  marshal_map_field json_encode_map key m = inl fields ->
  fields = [] \/ exists text, fields = [(key, JObject text)].
Proof.
  unfold marshal_map_field. intros H.
  destruct m as [entries|]; [|injection H as <-; left; reflexivity].
  destruct (size entries =? 0)%nat; [injection H as <-; left; reflexivity|].
  destruct (json_encode_map entries); [|discriminate H].
  injection H as <-. right. eexists. reflexivity.
Qed.

(** What [omitempty] leaves of [timestamp] and [sign] on the wire. *)
Lemma json_Marshal_auth_members (m : Message) (env : envelope) :
  json_Marshal json_encode_map m = inl env ->
  member "timestamp" env
    = (if Timestamp m =? 0 then None else Some (JNumber (Timestamp m)))
  /\ member "sign" env
    = (if String.eqb (Sign m) EmptyString then None else Some (JString (Sign m))).
Proof.
  unfold json_Marshal. intros H.
  destruct (marshal_map_field json_encode_map "content" (Content m))
    as [content|] eqn:Hc; [|discriminate H].
  destruct (marshal_map_field json_encode_map "card" (Card m))
    as [card|] eqn:Hk; [|discriminate H].
  injection H as <-.
  apply marshal_map_field_shape in Hc. apply marshal_map_field_shape in Hk.
  destruct Hc as [->|[tc ->]]; destruct Hk as [->|[tk ->]];
    destruct (Timestamp m =? 0); destruct (String.eqb (Sign m) EmptyString);
    split; reflexivity.
Qed.

End SendFacts.

(** ** client.go: the claims about [Send] *)
Section SendClaims.

Variable json_encode_map : gmap string any -> string + error.
Variable json_Unmarshal : list byte -> Response + error.
Variable url_Parse_error : string -> option error.

Local Abbreviation Send' := (Send json_encode_map json_Unmarshal url_Parse_error).

(** C2 (as amended): every envelope [Send] hands to the transport is the
    serialization of the duplicate.  With an empty secret its timestamp
    and sign are the caller's own, kept on the wire when non-zero and
    non-empty, so neither is present when the caller left both unset.
    With a non-empty secret, sign is present and equals
    [GenSign secret t] for the clock reading [t], and timestamp is
    present with that same [t] whenever [t] is not zero. *)
Theorem Send_outbound_signature (c : Client) (ctx : option Context)
    (l : positive) (m : Message) (w : World) (req : Request) :
  heap w !! l = Some m ->
  In req (requests_of (new_events w (snd (Send' c ctx (Some l) w)))) ->
  (Secret c = EmptyString ->
     member "timestamp" (req_body req)
       = (if Timestamp m =? 0 then None else Some (JNumber (Timestamp m)))
     /\ member "sign" (req_body req)
       = (if String.eqb (Sign m) EmptyString then None else Some (JString (Sign m))))
  /\ (Secret c <> EmptyString ->
        member "sign" (req_body req)
          = Some (JString (fst (GenSign (Secret c) (clock w))))
        /\ member "timestamp" (req_body req)
          = (if clock w =? 0 then None else Some (JNumber (clock w))))
  /\ (Secret c = EmptyString -> Timestamp m = 0 -> Sign m = EmptyString ->
        has_member "timestamp" (req_body req) = false
        /\ has_member "sign" (req_body req) = false)
  /\ (Secret c <> EmptyString -> clock w <> 0 ->
        has_member "timestamp" (req_body req) = true
        /\ has_member "sign" (req_body req) = true).
Proof.
  intros Hm Hin.
  destruct (Send_run json_encode_map json_Unmarshal url_Parse_error c ctx (Some l) w)
    as [Hp _].
  pose proof (Send_path_requests _ _ _ _ _ _ _ _ _ _ Hp Hin) as Hd.
  pose proof (dispatched_body _ _ _ _ _ _ _ _ Hm Hd) as Hj.
  apply json_Marshal_auth_members in Hj. destruct Hj as [Hts Hsg].
  unfold outbound_copy in Hts, Hsg. unfold has_member.
  destruct (String.eqb_spec (Secret c) EmptyString) as [He|He].
  - repeat split; intros; try contradiction.
    + exact Hts.
    + exact Hsg.
    + rewrite Hts. replace (Timestamp m) with 0 by auto. reflexivity.
    + rewrite Hsg. replace (Sign m) with EmptyString by auto. reflexivity.
  - cbn [set_Sign set_Timestamp Timestamp Sign] in Hts, Hsg.
    pose proof (GenSign_nonempty (Secret c) (clock w)) as Hne.
    apply String.eqb_neq in Hne. rewrite Hne in Hsg.
    repeat split; intros; try contradiction.
    + exact Hsg.
    + exact Hts.
    + rewrite Hts. destruct (Z.eqb_spec (clock w) 0); [contradiction|reflexivity].
    + rewrite Hsg. reflexivity.
Qed.



(** C6: whatever the outcome of [Send], the caller's message is as it
    was, field by field: the store of messages is untouched, and what
    is serialized is the duplicate carrying the timestamp and sign. *)
Theorem Send_leaves_caller_message (c : Client) (ctx : option Context)
    (l : positive) (m : Message) (w : World) :
  heap w !! l = Some m ->
  heap (snd (Send' c ctx (Some l) w)) !! l = Some m
  /\ heap (snd (Send' c ctx (Some l) w)) = heap w
  /\ forall req,
       In req (requests_of (new_events w (snd (Send' c ctx (Some l) w)))) ->
       json_Marshal json_encode_map (outbound_copy c (clock w) m)
         = inl (req_body req).
Proof.
  intros Hm.
  destruct (Send_run json_encode_map json_Unmarshal url_Parse_error c ctx (Some l) w)
    as [Hp [Hh _]].
  rewrite Hh. repeat split; [exact Hm|].
  intros req Hin.
  eapply dispatched_body; [exact Hm|].
  eapply Send_path_requests; eassumption.
Qed.

(** C10: [Send] never looks at the HTTP status.  A transport whose
    statuses are rewritten by any function gives the same result and the
    same run; and whatever the status of a response, once its body is
    read and parses with code zero the result is that Response and no
    error. *)
Theorem Send_ignores_http_status (c : Client) (ctx : option Context)
    (msg : ptr) (w : World) :
  (forall f : Z -> Z,
     Send' (SetHTTPClient c (restatus f (Transport c))) ctx msg w = Send' c ctx msg w)
  /\ (forall req status body apiResp,
        In (EvDo req) (new_events w (snd (Send' c ctx msg w))) ->
        Do (Transport c) req = inl {| http_status := status; http_body := body |} ->
        rc_err body = None ->
        json_Unmarshal (rc_data body) = inl apiResp ->
        Code apiResp = 0 ->
        fst (Send' c ctx msg w) = Returns (Some apiResp, None)).
Proof.
  split.
  - intros f.
    unfold Send, call, Send_body.
    unfold mbind, M_bind, mret, M_ret, deref, return_, time_Now_Unix.
    destruct msg as [l|]; [|reflexivity].
    destruct (heap w !! l) as [m|]; [|reflexivity].
    cbn [Secret WebhookURL SetHTTPClient].
    destruct (String.eqb (Secret c) EmptyString); cbv beta iota;
      [|rewrite (GenSign_Spec (Secret c) (clock w)); cbv beta iota].
    all: match goal with
         | |- context [json_Marshal json_encode_map ?mc] =>
             destruct (json_Marshal json_encode_map mc) as [body|e]
         end; cbv beta iota; [|reflexivity].
    all: destruct (http_NewRequestWithContext url_Parse_error ctx "POST" (WebhookURL c) body)
           as [r|e]; cbv beta iota; [|reflexivity].
    all: unfold HTTPClient_Do, defer, io_ReadAll, Body_Close, UnmarshalResponse, emit,
           mbind, M_bind, mret, M_ret, return_; cbv beta iota.
    all: cbn [Transport SetHTTPClient restatus Do].
    all: destruct (Do (Transport c) (Header_Set r "Content-Type" "application/json"))
           as [resp|e]; cbv beta iota; [|reflexivity].
    all: cbn [http_body]; reflexivity.
  - intros req status body apiResp Hin Hdo Hrd Hu Hc.
    destruct (Send_run json_encode_map json_Unmarshal url_Parse_error c ctx msg w)
      as [Hp _].
    destruct Hp; cbn in Hin;
      repeat (destruct Hin as [Hin|Hin]; try discriminate Hin); try contradiction;
      injection Hin as <-;
      match goal with
      | H : Do (Transport c) _ = inr _ |- _ => congruence
      | H : Do (Transport c) _ = inl ?resp |- _ =>
          assert (resp = {| http_status := status; http_body := body |})
            as -> by congruence
      end; cbn [http_body] in *; congruence.
Qed.

End SendClaims.

(** ** message.go: the constructors *)
Section MessageFacts.

Lemma populated_lookup (m : gmap string any) (k : string) (v : any) :
  m !! k = Some v -> populated (Some m) = true.
Proof.
  intros H. unfold populated, len.
  destruct (Nat.eqb_spec (size m) 0) as [E|E]; [|reflexivity].
  apply map_size_empty_iff in E. subst m.
  rewrite lookup_empty in H. discriminate H.
Qed.

Lemma populated_singleton (k : string) (v : any) :
  populated (Some {[ k := v ]}) = true.
Proof. apply (populated_lookup _ k v). apply lookup_singleton_eq. Qed.

Lemma ToMap_schema (c : CardT) : ToMap c !! "schema" = Some (VString (Schema c)).
Proof.
  unfold ToMap.
  destruct (Config c), (Body c), (Header c);
    repeat (rewrite lookup_insert_ne by discriminate);
    apply lookup_singleton_eq.
Qed.

Lemma post_shape (content : gmap string any) :
  exactly_one_shape MsgTypePost
    {| MsgType := MsgTypePost; Content := Some {[ "post" := VMap content ]};
       Card := None; Timestamp := 0; Sign := EmptyString |}.
Proof.
  split; [reflexivity|]. split; [reflexivity|].
  cbn [Content]. rewrite populated_singleton. reflexivity.
Qed.

End MessageFacts.

(** C8 (as amended): every constructor yields a message of its kind.
  The text, post, image and share_chat constructors populate Content
  and leave Card absent; [NewInteractiveMessage] populates Card and
  leaves Content absent; [NewInteractiveMessageFromMap] leaves Content
  absent and passes the given map on as Card, populated exactly when
  that map has an entry.  The two constructors taking a pointer are
  given a non-nil one. *)
Theorem constructors_populate_one_shape :
(forall text, exactly_one_shape MsgTypeText (NewTextMessage text))
/\ (forall lang content,
      exists m, NewPostMessage lang (Some content) = Returns m
                /\ exactly_one_shape MsgTypePost m)
/\ (forall langContents,
      exactly_one_shape MsgTypePost (NewPostMessageMultiLanguage langContents))
/\ (forall imageKey, exactly_one_shape MsgTypeImage (NewImageMessage imageKey))
/\ (forall shareChatID,
      exactly_one_shape MsgTypeShareChat (NewShareChatMessage shareChatID))
/\ (forall card,
      exists m, NewInteractiveMessage (Some card) = Returns m
                /\ exactly_one_shape MsgTypeInteractive m)
/\ (forall card,
      MsgType (NewInteractiveMessageFromMap card) = MsgTypeInteractive
      /\ populated (Content (NewInteractiveMessageFromMap card)) = false
      /\ populated (Card (NewInteractiveMessageFromMap card)) = populated card).
Proof.
repeat apply conj.
- intros text. split; [reflexivity|]. split; [reflexivity|].
  cbn [Content NewTextMessage]. rewrite populated_singleton. reflexivity.
- intros lang content. eexists. split; [reflexivity|]. apply post_shape.
- intros langContents. apply post_shape.
- intros imageKey. split; [reflexivity|]. split; [reflexivity|].
  cbn [Content NewImageMessage]. rewrite populated_singleton. reflexivity.
- intros shareChatID. split; [reflexivity|]. split; [reflexivity|].
  cbn [Content NewShareChatMessage]. rewrite populated_singleton. reflexivity.
- intros card. eexists. split; [reflexivity|].
  split; [reflexivity|]. split; [|reflexivity].
  cbn [Card]. rewrite (populated_lookup _ _ _ (ToMap_schema card)). reflexivity.
- intros card. repeat split.
Qed.

(** C8 as stated fails: a nil card map gives an interactive message in
  which neither Content nor Card is populated. *)
Lemma NewInteractiveMessageFromMap_nil_unpopulated :
~ exactly_one_shape MsgTypeInteractive (NewInteractiveMessageFromMap None).
Proof.
intros [_ [H _]]. vm_compute in H. discriminate H.
Qed.

(** ** Runs against the sample endpoint *)
Section SampleFacts.
Import Sample SampleRuns.

Lemma signing_run :
  snd (send (client "demo" (endpoint 200 "code=0")) world)
  = logs [EvDo signed_request; EvReadAll;
          EvUnmarshal (bytes_of_string "code=0"); EvClose] world.
Proof. vm_compute. reflexivity. Qed.

Lemma hand_signed_run :
  snd (send (client "" (endpoint 200 "code=0")) world_hand_signed)
  = logs [EvDo hand_signed_request; EvReadAll;
          EvUnmarshal (bytes_of_string "code=0"); EvClose] world_hand_signed.
Proof. vm_compute. reflexivity. Qed.

End SampleFacts.

(** C2 as stated fails: a client without secret sends the caller's own
  timestamp and sign along, so the envelope of a hand-signed message
  has both populated. *)
Lemma hand_signed_message_keeps_its_signature :
~ signing_as_specified
    (Sample.client "" (Sample.endpoint 200 "code=0")) Sample.world_hand_signed
    (new_events Sample.world_hand_signed
       (snd (Sample.send (Sample.client "" (Sample.endpoint 200 "code=0"))
               Sample.world_hand_signed))).
Proof.
rewrite hand_signed_run, new_events_logs. intros H.
destruct (H SampleRuns.hand_signed_request (or_introl eq_refl)) as [Hempty _].
destruct (Hempty eq_refl) as [_ Hsign].
vm_compute in Hsign. discriminate Hsign.
Qed.

Lemma Send_outbound_signature_witness :
heap Sample.world !! 1%positive = Some (NewTextMessage "test")
/\ In SampleRuns.signed_request
      (requests_of (new_events Sample.world
         (snd (Sample.send (Sample.client "demo" (Sample.endpoint 200 "code=0"))
                 Sample.world))))
/\ member "sign" (req_body SampleRuns.signed_request)
   = Some (JString (fst (GenSign "demo" 1599360473)))
/\ has_member "timestamp" (req_body SampleRuns.signed_request) = true.
Proof.
assert (H1 : heap Sample.world !! 1%positive = Some (NewTextMessage "test"))
  by (vm_compute; reflexivity).
assert (H2 : In SampleRuns.signed_request
      (requests_of (new_events Sample.world
         (snd (Sample.send (Sample.client "demo" (Sample.endpoint 200 "code=0"))
                 Sample.world)))))
  by (rewrite signing_run, new_events_logs; left; reflexivity).
split; [exact H1|]. split; [exact H2|].
destruct (Send_outbound_signature Sample.encode_map Sample.Unmarshal Sample.url_ok
            (Sample.client "demo" (Sample.endpoint 200 "code=0"))
            Sample.background 1%positive (NewTextMessage "test") Sample.world
            SampleRuns.signed_request H1 H2) as [_ [Hsigned [_ Hboth]]].
split.
- apply Hsigned. discriminate.
- apply Hboth; discriminate.
Defined.



Lemma Send_leaves_caller_message_witness :
heap Sample.world !! 1%positive = Some (NewTextMessage "test")
/\ heap (snd (Sample.send (Sample.client "demo" (Sample.endpoint 200 "code=0"))
                Sample.world)) !! 1%positive
   = Some (NewTextMessage "test").
Proof.
assert (H1 : heap Sample.world !! 1%positive = Some (NewTextMessage "test"))
  by (vm_compute; reflexivity).
split; [exact H1|].
apply (Send_leaves_caller_message Sample.encode_map Sample.Unmarshal Sample.url_ok
         (Sample.client "demo" (Sample.endpoint 200 "code=0"))
         Sample.background 1%positive (NewTextMessage "test") Sample.world H1).
Defined.

Lemma Send_ignores_http_status_witness :
Sample.send (Sample.client "demo" (Sample.endpoint 500 "code=0")) Sample.world
= Sample.send (Sample.client "demo" (Sample.endpoint 200 "code=0")) Sample.world
/\ fst (Sample.send (Sample.client "demo" (Sample.endpoint 500 "code=0")) Sample.world)
   = Returns (Some Sample.success, None).
Proof.
destruct (Send_ignores_http_status Sample.encode_map Sample.Unmarshal Sample.url_ok
            (Sample.client "demo" (Sample.endpoint 200 "code=0"))
            Sample.background (Some 1%positive) Sample.world) as [Hsame _].
destruct (Send_ignores_http_status Sample.encode_map Sample.Unmarshal Sample.url_ok
            (Sample.client "demo" (Sample.endpoint 500 "code=0"))
            Sample.background (Some 1%positive) Sample.world) as [_ Hok].
split.
- exact (Hsame (fun _ => 500)).
- apply (Hok SampleRuns.signed_request 500
           {| rc_data := bytes_of_string "code=0"; rc_err := None |} Sample.success).
  + vm_compute. left. reflexivity.
  + reflexivity.
  + reflexivity.
  + reflexivity.
  + reflexivity.
Defined.

(* ================================================================== *)
(** * Further properties of the package *)

(** ** client.go: more about the runs of [Send] *)
Section SendMore.

Variable json_encode_map : gmap string any -> string + error.
Variable json_Unmarshal : list byte -> Response + error.
Variable url_Parse_error : string -> option error.

Local Abbreviation Send' := (Send json_encode_map json_Unmarshal url_Parse_error).
Local Abbreviation Send_path' := (Send_path json_encode_map json_Unmarshal url_Parse_error).
Local Abbreviation dispatched' := (dispatched json_encode_map url_Parse_error).

Lemma dispatched_functional (c : Client) (ctx : option Context) (msg : ptr)
    (w : World) (req1 req2 : Request) :
  dispatched' c ctx msg w req1 -> dispatched' c ctx msg w req2 -> req1 = req2.
Proof.
  intros [l1 [m1 [b1 [r1 [Hl1 [Hm1 [Hj1 [Hr1 ->]]]]]]]]
         [l2 [m2 [b2 [r2 [Hl2 [Hm2 [Hj2 [Hr2 ->]]]]]]]].
  congruence.
Qed.

Lemma dispatched_loaded (c : Client) (ctx : option Context) (msg : ptr)
    (w : World) (req : Request) :
  dispatched' c ctx msg w req ->
  exists l m body r,
    msg = Some l /\ heap w !! l = Some m
    /\ json_Marshal json_encode_map (outbound_copy c (clock w) m) = inl body
    /\ http_NewRequestWithContext url_Parse_error ctx "POST" (WebhookURL c) body = inl r
    /\ req = Header_Set r "Content-Type" "application/json".
Proof. intros H. exact H. Qed.

(** A run has one result and one list of events. *)
Lemma Send_path_functional (c : Client) (ctx : option Context) (msg : ptr) (w : World)
    (out1 out2 : outcome (option Response * option error)) (evs1 evs2 : list Event) :
  Send_path' c ctx msg w out1 evs1 -> Send_path' c ctx msg w out2 evs2 ->
  out1 = out2 /\ evs1 = evs2.
Proof.
  intros H1 H2.
  destruct H1; destruct H2;
    repeat match goal with
           | Ha : dispatched' _ _ _ _ ?r1, Hb : dispatched' _ _ _ _ ?r2 |- _ =>
               pose proof (dispatched_functional _ _ _ _ _ _ Ha Hb); subst r2; clear Hb
           | Ha : dispatched' _ _ _ _ _ |- _ =>
               apply dispatched_loaded in Ha;
               destruct Ha as [? [? [? [? [? [? [? [? ?]]]]]]]]
           end;
    subst; cbn [mbind option_bind] in *;
    try (split; congruence);
    try congruence.
Qed.

Lemma Send_path_run (c : Client) (ctx : option Context) (msg : ptr) (w : World)
    (out : outcome (option Response * option error)) (evs : list Event) :
  Send_path' c ctx msg w out evs ->
  fst (Send' c ctx msg w) = out
  /\ new_events w (snd (Send' c ctx msg w)) = evs
  /\ snd (Send' c ctx msg w) = logs evs w.
Proof.
  intros Hp.
  destruct (Send_sound json_encode_map json_Unmarshal url_Parse_error c ctx msg w)
    as [evs' [Hp' Hw]].
  destruct (Send_path_functional _ _ _ _ _ _ _ _ Hp' Hp) as [Ho He].
  subst evs'. rewrite Hw, new_events_logs. auto.
Qed.

Lemma dispatched_transfer (c : Client) (ctx : option Context) (l : positive)
    (w1 w2 : World) (req : Request) :
  clock w1 = clock w2 -> heap w1 !! l = heap w2 !! l ->
  dispatched' c ctx (Some l) w1 req -> dispatched' c ctx (Some l) w2 req.
Proof.
  intros Hc Hh [l' [m [body [r [Hl [Hm [Hj [Hr ->]]]]]]]].
  injection Hl as <-.
  exists l, m, body, r. rewrite <- Hc, <- Hh. auto.
Qed.

(** A path depends on the world only through the clock and the message
    read. *)
Lemma Send_path_transfer (c : Client) (ctx : option Context) (l : positive)
    (w1 w2 : World) (out : outcome (option Response * option error))
    (evs : list Event) :
  clock w1 = clock w2 -> heap w1 !! l = heap w2 !! l ->
  Send_path' c ctx (Some l) w1 out evs -> Send_path' c ctx (Some l) w2 out evs.
Proof.
  intros Hc Hh Hp.
  destruct Hp;
    repeat match goal with
           | H : Some _ = Some _ |- _ => injection H as <-
           | H : dispatched' _ _ _ w1 _ |- _ =>
               apply (dispatched_transfer _ _ _ _ _ _ Hc Hh) in H
           end.
  - apply path_nil_message. cbn [mbind option_bind] in *. congruence.
  - eapply path_marshal_failure; [reflexivity| |]; rewrite <- ?Hh, <- ?Hc; eassumption.
  - eapply path_request_failure; [reflexivity| | |]; rewrite <- ?Hh, <- ?Hc; eassumption.
  - eapply path_transport_failure; eassumption.
  - eapply path_read_failure; eassumption.
  - eapply path_decode_failure; eassumption.
  - eapply path_api_failure; eassumption.
  - eapply path_success; eassumption.
Qed.

End SendMore.

Section SendExtras.

Variable json_encode_map : gmap string any -> string + error.
Variable json_Unmarshal : list byte -> Response + error.
Variable url_Parse_error : string -> option error.

Local Abbreviation Send' := (Send json_encode_map json_Unmarshal url_Parse_error).
Local Abbreviation Send_raw' := (Send_raw json_encode_map json_Unmarshal url_Parse_error).

(** X1: [Send] never returns a nil Response together with a nil error.
    A nil error comes with a Response whose code is 0; a Response that
    comes with an error has a non-zero code and the error is the API
    error built from it. *)
Theorem Send_result_shape (c : Client) (ctx : option Context) (msg : ptr)
    (w : World) (resp : option Response) (err : option error) :
  fst (Send' c ctx msg w) = Returns (resp, err) ->
  (resp = None -> err <> None)
  /\ (err = None -> exists r, resp = Some r /\ Code r = 0)
  /\ (forall r e, resp = Some r -> err = Some e ->
        Code r <> 0 /\ e = api_error r).
Proof.
  intros Hout.
  destruct (Send_run json_encode_map json_Unmarshal url_Parse_error c ctx msg w)
    as [Hp _].
  rewrite Hout in Hp.
  inversion Hp; subst; repeat split; try discriminate; try congruence.
  eexists. split; [reflexivity|assumption].
Qed.

(** X2: one call dispatches at most one request (there is no retry), and
    that request is a POST to the client's webhook URL, bound to the
    caller's context, whose only header is the JSON content type. *)
Theorem Send_dispatches_one_POST (c : Client) (ctx : option Context) (msg : ptr)
    (w : World) :
  (length (requests_of (new_events w (snd (Send' c ctx msg w)))) <= 1)%nat
  /\ forall req,
       In req (requests_of (new_events w (snd (Send' c ctx msg w)))) ->
       req_method req = "POST"%string
       /\ req_url req = WebhookURL c
       /\ req_header req = {[ "Content-Type"%string := "application/json"%string ]}
       /\ ctx = Some (req_ctx req).
Proof.
  destruct (Send_run json_encode_map json_Unmarshal url_Parse_error c ctx msg w)
    as [Hp _].
  split.
  - destruct Hp; cbn; lia.
  - intros req Hin.
    pose proof (Send_path_requests _ _ _ _ _ _ _ _ _ _ Hp Hin) as Hd.
    destruct Hd as [l [m [body [r [_ [_ [_ [Hr ->]]]]]]]].
    unfold http_NewRequestWithContext in Hr.
    destruct ctx as [cx|]; [|discriminate Hr].
    destruct (url_Parse_error (WebhookURL c)); [discriminate Hr|].
    injection Hr as <-. cbn. repeat split.
Qed.

(** X3: the response body is released on every way out.  Once the
    transport has given a response, the run closes its body exactly once
    and as its last step, whether reading, parsing or the API code then
    fails or not; when the transport gave an error, or no request was
    sent, nothing is closed. *)
Theorem Send_closes_body (c : Client) (ctx : option Context) (msg : ptr) (w : World) :
  (forall req resp,
     In (EvDo req) (new_events w (snd (Send' c ctx msg w))) ->
     Do (Transport c) req = inl resp ->
     closes (new_events w (snd (Send' c ctx msg w))) = 1%nat
     /\ last (new_events w (snd (Send' c ctx msg w))) = Some EvClose)
  /\ (forall req e,
        In (EvDo req) (new_events w (snd (Send' c ctx msg w))) ->
        Do (Transport c) req = inr e ->
        closes (new_events w (snd (Send' c ctx msg w))) = 0%nat)
  /\ (requests_of (new_events w (snd (Send' c ctx msg w))) = [] ->
        closes (new_events w (snd (Send' c ctx msg w))) = 0%nat).
Proof.
  destruct (Send_run json_encode_map json_Unmarshal url_Parse_error c ctx msg w)
    as [Hp _].
  repeat split.
  - destruct Hp; cbn in H |- *;
      repeat (destruct H as [H|H]; try discriminate H); try contradiction;
      injection H as <-; congruence.
  - destruct Hp; cbn in H |- *;
      repeat (destruct H as [H|H]; try discriminate H); try contradiction;
      injection H as <-; congruence.
  - intros req e Hin Hdo.
    destruct Hp; cbn in Hin |- *;
      repeat (destruct Hin as [Hin|Hin]; try discriminate Hin); try contradiction;
      injection Hin as <-; congruence.
  - intros Hnone. destruct Hp; cbn in Hnone |- *; congruence.
Qed.

(** X4: a nil context is refused before anything is sent: for a message
    that serializes, [Send] returns the request-construction failure
    wrapping "net/http: nil Context" and leaves the world as it was. *)
Theorem Send_refuses_nil_context (c : Client) (l : positive) (m : Message)
    (w : World) (body : envelope) :
  heap w !! l = Some m ->
  json_Marshal json_encode_map (outbound_copy c (clock w) m) = inl body ->
  Send' c None (Some l) w
  = (Returns (None, Some (wrapError "failed to create request: "
                            (errorString "net/http: nil Context"))), w).
Proof.
  intros Hm Hj.
  assert (Hp : Send_path json_encode_map json_Unmarshal url_Parse_error
                 c None (Some l) w
                 (Returns (None, Some (wrapError "failed to create request: "
                                         (errorString "net/http: nil Context")))) []).
  { eapply path_request_failure; eauto. }
  apply Send_path_run in Hp. destruct Hp as [Ho [_ Hw]].
  rewrite logs_nil in Hw.
  destruct (Send' c None (Some l) w) as [out w']. cbn in Ho, Hw. congruence.
Qed.

(** X5: when the duplicate cannot be serialized, [Send] returns the
    serialization failure wrapping the encoder's error, and no request is
    sent: the world is as it was. *)
Theorem Send_serialization_failure (c : Client) (ctx : option Context)
    (l : positive) (m : Message) (w : World) (e : error) :
  heap w !! l = Some m ->
  json_Marshal json_encode_map (outbound_copy c (clock w) m) = inr e ->
  Send' c ctx (Some l) w
  = (Returns (None, Some (wrapError "failed to marshal message: " e)), w).
Proof.
  intros Hm Hj.
  assert (Hp : Send_path json_encode_map json_Unmarshal url_Parse_error
                 c ctx (Some l) w
                 (Returns (None, Some (wrapError "failed to marshal message: " e))) []).
  { eapply path_marshal_failure; eauto. }
  apply Send_path_run in Hp. destruct Hp as [Ho [_ Hw]].
  rewrite logs_nil in Hw.
  destruct (Send' c ctx (Some l) w) as [out w']. cbn in Ho, Hw. congruence.
Qed.

Lemma new_events_same (w : World) : new_events w w = [].
Proof. unfold new_events. apply drop_all. Qed.

Lemma new_events_log1 (w : World) (e : Event) : new_events w (log e w) = [e].
Proof. unfold new_events, log. cbn [trace]. apply drop_app_length. Qed.

(** On a client whose transport is an [HTTPClient] of the model, the two
    embeddings of [Send] are the same function. *)
Lemma Send_raw_agrees (c : Client) (ctx : option Context) (msg : ptr) (w : World) :
  Send_raw' (Some (raw_client c)) ctx msg w = Send' c ctx msg w.
Proof.
  unfold Send_raw, Send, call, Send_raw_body, Send_body, HTTPClient_Do, panic.
  unfold mbind, M_bind, mret, M_ret, deref, return_, time_Now_Unix.
  cbn [raw_client RawSecret RawWebhookURL RawTransport as_raw RawDo].
  destruct msg as [l|]; [|reflexivity].
  destruct (heap w !! l) as [m|]; [|reflexivity].
  destruct (String.eqb (Secret c) EmptyString); cbv beta iota.
  all: try (rewrite (GenSign_Spec (Secret c) (clock w)); cbv beta iota).
  all: match goal with |- context [json_Marshal _ ?x] =>
         destruct (json_Marshal json_encode_map x) as [body|e]; cbv beta iota end.
  all: try reflexivity.
  all: destruct (http_NewRequestWithContext url_Parse_error ctx "POST" (WebhookURL c) body)
         as [r|e]; cbv beta iota; [|reflexivity].
  all: unfold emit; cbv beta iota.
  all: destruct (Do (Transport c) (Header_Set r "Content-Type" "application/json"))
         as [resp|e]; cbv beta iota; [|reflexivity].
  all: cbn [raw_body raw_status]; reflexivity.
Qed.


Lemma In_requests_of (req : Request) (evs : list Event) :
  In (EvDo req) evs -> In req (requests_of evs).
Proof.
  induction evs as [|e evs IH]; [intros []|].
  intros [->|Hin].
  - left. reflexivity.
  - unfold requests_of in *. cbn [omap list_omap]. destruct e; cbn; auto.
Qed.

Lemma Send_raw_nil (c : option RawClient) (ctx : option Context) (msg : ptr) (w : World) :
  (msg ≫= (fun l => heap w !! l)) = None \/ c = None ->
  Send_raw' c ctx msg w = (Panics nil_dereference, w).
Proof.
  unfold Send_raw, call, Send_raw_body, panic.
  unfold mbind, M_bind, mret, M_ret, deref.
  intros [Hm| ->].
  - destruct msg as [l|]; [|reflexivity].
    cbn in Hm. rewrite Hm. reflexivity.
  - destruct msg as [l|]; [|reflexivity].
    destruct (heap w !! l); reflexivity.
Qed.

(** The ways a run is left once message and receiver are there. *)
Lemma Send_raw_run (cl : RawClient) (ctx : option Context) (l : positive)
    (m : Message) (w : World) :
  heap w !! l = Some m ->
  (exists e,
     Send_raw' (Some cl) ctx (Some l) w
     = (Returns (None, Some (wrapError "failed to marshal message: " e)), w))
  \/ (exists e,
        Send_raw' (Some cl) ctx (Some l) w
        = (Returns (None, Some (wrapError "failed to create request: " e)), w))
  \/ (RawTransport cl = None
      /\ Send_raw' (Some cl) ctx (Some l) w = (Panics nil_dereference, w))
  \/ (exists t req,
        RawTransport cl = Some t
        /\ requests_of (new_events w (snd (Send_raw' (Some cl) ctx (Some l) w))) = [req]
        /\ (if keeps_contract (RawDo t req)
            then exists resp err,
                   fst (Send_raw' (Some cl) ctx (Some l) w) = Returns (resp, err)
            else Send_raw' (Some cl) ctx (Some l) w
                 = (Panics nil_dereference, log (EvDo req) w))).
Proof.
  intros Hm.
  unfold Send_raw, call, Send_raw_body, panic.
  unfold mbind, M_bind, mret, M_ret, deref, return_, time_Now_Unix.
  rewrite Hm. cbv beta iota.
  destruct (String.eqb (RawSecret cl) EmptyString); cbv beta iota.
  all: try (rewrite (GenSign_Spec (RawSecret cl) (clock w)); cbv beta iota).
  all: match goal with |- context [json_Marshal _ ?x] =>
         destruct (json_Marshal json_encode_map x) as [body|e]; cbv beta iota end.
  all: try (left; eexists; reflexivity).
  all: right.
  all: destruct (http_NewRequestWithContext url_Parse_error ctx "POST"
                   (RawWebhookURL cl) body) as [r|e]; cbv beta iota.
  all: try (left; eexists; reflexivity).
  all: right.
  all: destruct (RawTransport cl) as [t|]; cbv beta iota.
  all: try (left; split; reflexivity).
  all: right; exists t, (Header_Set r "Content-Type" "application/json").
  all: split; [reflexivity|].
  all: unfold defer, io_ReadAll, Body_Close, UnmarshalResponse, emit,
         mbind, M_bind, mret, M_ret, return_; cbv beta iota.
  all: set (req := Header_Set r "Content-Type" "application/json").
  all: unfold keeps_contract.
  all: destruct (RawDo t req) as [[resp|] [e|]]; cbv beta iota.
  all: try (split; [|try (eexists; eexists; reflexivity); reflexivity];
            cbn [snd]; rewrite new_events_log1; reflexivity).
  all: destruct (raw_body resp) as [Body|]; cbv beta iota.
  all: try (split; [|reflexivity];
            cbn [snd]; rewrite new_events_log1; reflexivity).
  all: destruct (rc_err Body) as [e|]; cbv beta iota.
  all: try (destruct (json_Unmarshal (rc_data Body)) as [apiResp|e]; cbv beta iota).
  all: try (destruct (negb (Code apiResp =? 0)); cbv beta iota).
  all: split; [|eexists; eexists; reflexivity].
  all: cbn [snd]; unfold new_events, log; cbn [trace];
       rewrite <- ?app_assoc; rewrite drop_app_length; reflexivity.
Qed.

(** X6: what makes [Send] panic.  A nil message or a nil receiver
    panics before anything is sent.  A nil [HTTPClient] panics once the
    request is built, so nothing is ever sent and the call either panics
    or has failed before.  A transport that answers the request with
    neither a response nor an error, or with a response that has no
    body, panics right after the request was handed over.  With a
    message, a receiver and a transport that answers every request with
    an error or with a response that has a body, [Send] returns.  On the
    clients of [Send] the two embeddings agree. *)
Theorem Send_panics_exactly_on_nil_values (c : option RawClient) (ctx : option Context)
    (msg : ptr) (w : World) :
  ((msg ≫= (fun l => heap w !! l)) = None \/ c = None ->
     Send_raw' c ctx msg w = (Panics nil_dereference, w))
  /\ (forall cl, c = Some cl -> RawTransport cl = None ->
        new_events w (snd (Send_raw' c ctx msg w)) = []
        /\ (fst (Send_raw' c ctx msg w) = Panics nil_dereference
            \/ (exists e, fst (Send_raw' c ctx msg w)
                          = Returns (None, Some (wrapError "failed to marshal message: " e)))
            \/ (exists e, fst (Send_raw' c ctx msg w)
                          = Returns (None, Some (wrapError "failed to create request: " e)))))
  /\ (forall cl t req, c = Some cl -> RawTransport cl = Some t ->
        In (EvDo req) (new_events w (snd (Send_raw' c ctx msg w))) ->
        keeps_contract (RawDo t req) = false ->
        fst (Send_raw' c ctx msg w) = Panics nil_dereference
        /\ new_events w (snd (Send_raw' c ctx msg w)) = [EvDo req])
  /\ (forall m cl t, (msg ≫= (fun l => heap w !! l)) = Some m ->
        c = Some cl -> RawTransport cl = Some t ->
        (forall req, keeps_contract (RawDo t req) = true) ->
        exists resp err, fst (Send_raw' c ctx msg w) = Returns (resp, err))
  /\ (forall cl : Client,
        Send_raw' (Some (raw_client cl)) ctx msg w = Send' cl ctx msg w).
Proof.
  split; [apply Send_raw_nil|].
  split; [|split; [|split; [|intros cl; apply Send_raw_agrees]]].
  - intros cl -> Ht.
    destruct (msg ≫= (fun l => heap w !! l)) as [m|] eqn:Hm.
    + destruct msg as [l|]; [|discriminate Hm]. cbn in Hm.
      destruct (Send_raw_run cl ctx l m w Hm)
        as [[e H]|[[e H]|[[_ H]|[t [req [Ht' _]]]]]]; [..|congruence];
        rewrite H; cbn [fst snd]; rewrite new_events_same; split; eauto.
    + rewrite (Send_raw_nil (Some cl) ctx msg w) by (left; exact Hm).
      cbn [fst snd]. rewrite new_events_same. split; eauto.
  - intros cl t req -> Ht Hin Hk.
    destruct (msg ≫= (fun l => heap w !! l)) as [m|] eqn:Hm.
    + destruct msg as [l|]; [|discriminate Hm]. cbn in Hm.
      destruct (Send_raw_run cl ctx l m w Hm)
        as [[e H]|[[e H]|[[_ H]|[t' [req' [Ht' [Hreq H]]]]]]].
      1-3: rewrite H in Hin; cbn [snd] in Hin; rewrite new_events_same in Hin;
           destruct Hin.
      assert (t' = t) as -> by congruence.
      assert (In req (requests_of
                (new_events w (snd (Send_raw' (Some cl) ctx (Some l) w))))) as Hin'.
      { apply In_requests_of. exact Hin. }
      rewrite Hreq in Hin'. destruct Hin' as [->|[]].
      rewrite Hk in H. rewrite H. cbn [fst snd]. rewrite new_events_log1.
      split; reflexivity.
    + rewrite (Send_raw_nil (Some cl) ctx msg w) in Hin by (left; exact Hm).
      cbn [snd] in Hin. rewrite new_events_same in Hin. destruct Hin.
  - intros m cl t Hm -> Ht Hk.
    destruct msg as [l|]; [|discriminate Hm]. cbn in Hm.
    destruct (Send_raw_run cl ctx l m w Hm)
      as [[e H]|[[e H]|[[Hn H]|[t' [req' [Ht' [_ H]]]]]]].
    + rewrite H. eauto.
    + rewrite H. eauto.
    + congruence.
    + assert (t' = t) as -> by congruence. rewrite Hk in H. exact H.
Qed.

(** X7: when reading the response body fails, [Send] returns a nil
    Response and the read failure wrapping the reader's error; the body is
    not parsed, and it is closed. *)
Theorem Send_read_failure (c : Client) (ctx : option Context) (msg : ptr)
    (w : World) (req : Request) (resp : HTTPResponse) (e : error) :
  In (EvDo req) (new_events w (snd (Send' c ctx msg w))) ->
  Do (Transport c) req = inl resp ->
  rc_err (http_body resp) = Some e ->
  fst (Send' c ctx msg w)
    = Returns (None, Some (wrapError "failed to read response body: " e))
  /\ new_events w (snd (Send' c ctx msg w)) = [EvDo req; EvReadAll; EvClose].
Proof.
  intros Hin Hdo Hrd.
  destruct (Send_run json_encode_map json_Unmarshal url_Parse_error c ctx msg w)
    as [Hp _].
  destruct Hp; cbn in Hin;
    repeat (destruct Hin as [Hin|Hin]; try discriminate Hin); try contradiction;
    injection Hin as <-; try congruence.
  assert (resp0 = resp) as -> by congruence.
  assert (e0 = e) as -> by congruence.
  split; reflexivity.
Qed.

(** X8: the errors [Send] returns are those of five stages, each behind
    its own prefix, or the API error of the parsed Response; a signing
    failure is never among them. *)
Theorem Send_error_taxonomy (c : Client) (ctx : option Context) (msg : ptr)
    (w : World) (resp : option Response) (err : error) :
  fst (Send' c ctx msg w) = Returns (resp, Some err) ->
  ((exists r, resp = Some r /\ err = api_error r)
   \/ (resp = None
       /\ exists prefix inner,
            err = wrapError prefix inner /\ In prefix stage_prefixes))
  /\ forall inner, err <> wrapError "failed to generate signature: " inner.
Proof.
  intros Hout.
  destruct (Send_run json_encode_map json_Unmarshal url_Parse_error c ctx msg w)
    as [Hp _].
  rewrite Hout in Hp.
  inversion Hp; subst; (split; [|intros inner; discriminate]).
  all: try (left; eexists; split; reflexivity).
  all: right; split; [reflexivity|]; eexists; eexists; split; [reflexivity|].
  all: cbn; auto 6.
Qed.

(** X9: a call keeps nothing from earlier calls.  In two worlds that
    agree on the clock and on the message, [Send] gives the same result
    and the same new events, whatever is already in their traces and
    whatever else their stores hold. *)
Theorem Send_independent_of_history (c : Client) (ctx : option Context)
    (l : positive) (w1 w2 : World) :
  clock w1 = clock w2 ->
  heap w1 !! l = heap w2 !! l ->
  fst (Send' c ctx (Some l) w1) = fst (Send' c ctx (Some l) w2)
  /\ new_events w1 (snd (Send' c ctx (Some l) w1))
     = new_events w2 (snd (Send' c ctx (Some l) w2)).
Proof.
  intros Hc Hh.
  destruct (Send_run json_encode_map json_Unmarshal url_Parse_error c ctx (Some l) w1)
    as [Hp1 _].
  apply (Send_path_transfer _ _ _ _ _ _ _ _ _ _ Hc Hh) in Hp1.
  apply Send_path_run in Hp1. destruct Hp1 as [Ho [He _]].
  split; congruence.
Qed.

(** X10: [Send] leaves cancellation to the transport.  With a context
    that is already done and a transport that refuses such requests, a
    call on a stored message returns a nil Response and an error, and
    neither reads nor parses anything. *)
Theorem Send_with_cancelled_context (c : Client) (cx : Context) (l : positive)
    (m : Message) (w : World) :
  ctx_done cx = true ->
  (forall req, ctx_done (req_ctx req) = true ->
     exists e, Do (Transport c) req = inr e) ->
  heap w !! l = Some m ->
  (exists err, fst (Send' c (Some cx) (Some l) w) = Returns (None, Some err))
  /\ parses (new_events w (snd (Send' c (Some cx) (Some l) w))) = false
  /\ ~ In EvReadAll (new_events w (snd (Send' c (Some cx) (Some l) w))).
Proof.
  intros Hdone Hrefuse Hm.
  destruct (Send_run json_encode_map json_Unmarshal url_Parse_error
              c (Some cx) (Some l) w) as [Hp _].
  assert (Hctx : forall req,
            dispatched json_encode_map url_Parse_error c (Some cx) (Some l) w req ->
            exists e, Do (Transport c) req = inr e).
  { intros req [l' [m' [body [r [_ [_ [_ [Hr ->]]]]]]]].
    apply Hrefuse. unfold http_NewRequestWithContext in Hr.
    destruct (url_Parse_error (WebhookURL c)); [discriminate Hr|].
    injection Hr as <-. exact Hdone. }
  destruct Hp;
    try match goal with
        | H : dispatched _ _ _ _ _ _ _ |- _ =>
            destruct (Hctx _ H) as [e' He']
        end;
    try congruence.
  - cbn [mbind option_bind] in *. congruence.
  - repeat split; [eexists; reflexivity|]. cbn. tauto.
  - repeat split; [eexists; reflexivity|]. cbn. tauto.
  - repeat split; [eexists; reflexivity|]. cbn. intros [H'|[]]. discriminate H'.
Qed.

End SendExtras.

(** ** message.go: paragraphs, languages and cards *)

Lemma fold_left_append {A B : Type} (f : A -> B) (l : list A) (init : option (list B)) :
  fold_left (fun acc a => builtin.append acc (f a)) l init
  = match l with
    | [] => init
    | _ => Some (items init ++ map f l)
    end.
Proof.
  revert init. induction l as [|a l IH]; intros init; [reflexivity|].
  cbn [fold_left map]. rewrite IH. destruct l as [|b l].
  - reflexivity.
  - unfold builtin.append at 1. cbn [items]. rewrite <- app_assoc. reflexivity.
Qed.

Lemma fold_left_append_make {A B : Type} (f : A -> B) (l : list A) :
  fold_left (fun acc a => builtin.append acc (f a)) l builtin.make = Some (map f l).
Proof.
  rewrite fold_left_append. destruct l; reflexivity.
Qed.

(** X11: [convertParagraphs] keeps the paragraphs and, in each, the
    elements, in their order, none lost or added, and what it returns is
    never nil, nor is any paragraph in it: a nil list of paragraphs comes
    back as an empty one, and a nil paragraph as an empty paragraph. *)
Theorem convertParagraphs_preserves
    (paragraphs : option (list (option (list (gmap string any))))) :
  convertParagraphs paragraphs = Some (map (fun p => Some (items p)) (items paragraphs))
  /\ convertParagraphs None = Some []
  /\ convertParagraphs (Some [None]) = Some [Some []].
Proof.
  split; [|split; reflexivity].
  unfold convertParagraphs.
  rewrite (fold_left_append_make
             (fun p => fold_left (fun arr e => builtin.append arr e) (items p)
                                 builtin.make)
             (items paragraphs)).
  f_equal. apply map_ext. intros p.
  rewrite (fold_left_append_make (fun e => e) (items p)).
  rewrite map_id. reflexivity.
Qed.

Lemma postData_lookup (langContents : list PostLanguageContent)
    (acc : gmap string any) (lang : string) :
  fold_left (fun (postData : gmap string any) lc =>
               <[ Language lc := post_entry (LangContent lc) ]> postData)
            langContents acc !! lang
  = match last (filter (fun lc => Language lc = lang) langContents) with
    | Some lc => Some (post_entry (LangContent lc))
    | None => acc !! lang
    end.
Proof.
  revert acc. induction langContents as [|lc rest IH]; intros acc.
  - reflexivity.
  - cbn [fold_left]. rewrite IH. rewrite filter_cons.
    destruct (decide (Language lc = lang)) as [E|E].
    + rewrite last_cons.
      destruct (last (filter (fun lc0 => Language lc0 = lang) rest)); [reflexivity|].
      rewrite E. apply lookup_insert_eq.
    + destruct (last (filter (fun lc0 => Language lc0 = lang) rest)); [reflexivity|].
      apply lookup_insert_ne. exact E.
Qed.

(** X12: [NewPostMessageMultiLanguage] keeps one entry for each language
    given: the entry of a language is built from the last content given
    for it (a later one replaces an earlier one), a language that was not
    given has no entry, and with no content at all the post map is
    empty; the message is a post all the same. *)
Theorem NewPostMessageMultiLanguage_entries (langContents : list PostLanguageContent) :
  exists postData : gmap string any,
    NewPostMessageMultiLanguage langContents
    = {| MsgType := MsgTypePost; Content := Some {[ "post"%string := VMap postData ]};
         Card := None; Timestamp := 0; Sign := EmptyString |}
    /\ (forall lang,
          postData !! lang
          = (fun lc => post_entry (LangContent lc))
              <$> last (filter (fun lc => Language lc = lang) langContents))
    /\ (postData = ∅ <-> langContents = []).
Proof.
  eexists. split; [reflexivity|]. split.
  - intros lang. rewrite postData_lookup.
    destruct (last (filter (fun lc => Language lc = lang) langContents));
      [reflexivity|apply lookup_empty].
  - split.
    + intros Hempty. destruct langContents as [|lc rest]; [reflexivity|].
      exfalso.
      assert (Hl : is_Some (last (filter (fun x => Language x = Language lc) (lc :: rest)))).
      { rewrite filter_cons. rewrite decide_True by reflexivity.
        rewrite last_cons. destruct (last _); eauto. }
      destruct Hl as [x Hx].
      pose proof (postData_lookup (lc :: rest) ∅ (Language lc)) as Hlk.
      rewrite Hx in Hlk. rewrite Hempty, lookup_empty in Hlk. discriminate Hlk.
    + intros ->. reflexivity.
Qed.

(** X13: for one language, [NewPostMessageMultiLanguage] and
    [NewPostMessage] build the same message. *)
Theorem NewPostMessage_is_single_language (lang : string) (content : PostContent) :
  NewPostLanguageContent lang (Some content)
    = Returns {| Language := lang; LangContent := content |}
  /\ NewPostMessage lang (Some content)
     = Returns (NewPostMessageMultiLanguage [ {| Language := lang; LangContent := content |} ]).
Proof.
  split; [reflexivity|].
  unfold NewPostMessage, NewPostMessageMultiLanguage. cbn [fold_left Language LangContent].
  rewrite insert_empty. reflexivity.
Qed.

(** X14: [ToMap] always writes the schema; it writes config, body and
    header exactly when the field is not nil (an empty but non-nil config
    map is written), and it writes no other key. *)
Theorem ToMap_entries (c : CardT) :
  ToMap c !! "schema"%string = Some (VString (Schema c))
  /\ ToMap c !! "config"%string = VMap <$> Config c
  /\ ToMap c !! "body"%string = VCardBody <$> Body c
  /\ ToMap c !! "header"%string = VCardHeader <$> Header c
  /\ forall key : string,
       ~ In key ["schema"; "config"; "body"; "header"]%string ->
       ToMap c !! key = None.
Proof.
  assert (Hother : forall key : string,
            ~ In key ["schema"; "config"; "body"; "header"]%string ->
            "schema"%string <> key /\ "config"%string <> key
            /\ "body"%string <> key /\ "header"%string <> key).
  { intros key Hkey. cbn [In] in Hkey.
    repeat split; intros E; apply Hkey; rewrite E; auto 6. }
  unfold ToMap.
  destruct (Config c) as [config|], (Body c) as [body|], (Header c) as [header|];
    cbn [fmap option_fmap option_map];
    repeat split;
    try (intros key Hkey; destruct (Hother key Hkey) as [H1 [H2 [H3 H4]]];
         repeat (rewrite lookup_insert_ne by assumption);
         apply lookup_singleton_ne; assumption);
    repeat (rewrite lookup_insert_ne by discriminate);
    try (rewrite lookup_insert_eq; reflexivity);
    try (rewrite lookup_singleton_eq; reflexivity);
    try (apply lookup_singleton_ne; discriminate).
Qed.

(** ** The envelope on the wire *)
Section EnvelopeFacts.

Variable json_encode_map : gmap string any -> string + error.

Lemma marshal_map_field_populated (key : string) (m : gomap) (fields : envelope) :
  marshal_map_field json_encode_map key m = inl fields ->
  (populated m = false /\ fields = [])
  \/ (populated m = true /\ exists text, fields = [(key, JObject text)]).
Proof.
  unfold marshal_map_field, populated, len. intros H.
  destruct m as [entries|]; [|injection H as <-; left; split; reflexivity].
  destruct (size entries =? 0)%nat; [injection H as <-; left; split; reflexivity|].
  destruct (json_encode_map entries); [|discriminate H].
  injection H as <-. right. split; [reflexivity|]. eexists. reflexivity.
Qed.

(** X15: a serialized envelope lists its members in the order of the
    struct fields, each at most once: msg_type always, content and card
    exactly when the map has an entry, timestamp when not zero, sign when
    not empty. *)
Theorem json_Marshal_members (m : Message) (env : envelope) :
  json_Marshal json_encode_map m = inl env ->
  map fst env
  = ["msg_type"%string]
      ++ (if populated (Content m) then ["content"%string] else [])
      ++ (if populated (Card m) then ["card"%string] else [])
      ++ (if Timestamp m =? 0 then [] else ["timestamp"%string])
      ++ (if String.eqb (Sign m) EmptyString then [] else ["sign"%string])
  /\ member "msg_type" env = Some (JString (MsgType m))
  /\ has_member "content" env = populated (Content m)
  /\ has_member "card" env = populated (Card m).
Proof.
  unfold json_Marshal. intros H.
  destruct (marshal_map_field json_encode_map "content" (Content m))
    as [content|] eqn:Hc; [|discriminate H].
  destruct (marshal_map_field json_encode_map "card" (Card m))
    as [card|] eqn:Hk; [|discriminate H].
  injection H as <-.
  apply marshal_map_field_populated in Hc. apply marshal_map_field_populated in Hk.
  destruct Hc as [[-> ->]|[-> [tc ->]]]; destruct Hk as [[-> ->]|[-> [tk ->]]];
    destruct (Timestamp m =? 0); destruct (String.eqb (Sign m) EmptyString);
    repeat split.
Qed.

(** X16: serialization depends on the encoder only through the populated
    maps.  It succeeds when the encoder accepts each populated map, so in
    particular for a message without a populated map; it fails with the
    encoder's error when the encoder refuses the populated content. *)
Theorem json_Marshal_outcome (m : Message) :
  ((forall entries, Content m = Some entries -> size entries <> 0%nat ->
      exists text, json_encode_map entries = inl text) ->
   (forall entries, Card m = Some entries -> size entries <> 0%nat ->
      exists text, json_encode_map entries = inl text) ->
   exists env, json_Marshal json_encode_map m = inl env)
  /\ (forall entries e,
        Content m = Some entries -> size entries <> 0%nat ->
        json_encode_map entries = inr e ->
        json_Marshal json_encode_map m = inr e).
Proof.
  unfold json_Marshal, marshal_map_field. split.
  - intros Hcontent Hcard.
    destruct (Content m) as [ce|].
    + destruct (Nat.eqb_spec (size ce) 0) as [E|E].
      * destruct (Card m) as [ke|]; [|eexists; reflexivity].
        destruct (Nat.eqb_spec (size ke) 0) as [E'|E']; [eexists; reflexivity|].
        destruct (Hcard ke eq_refl E') as [t ->]. eexists. reflexivity.
      * destruct (Hcontent ce eq_refl E) as [t ->].
        destruct (Card m) as [ke|]; [|eexists; reflexivity].
        destruct (Nat.eqb_spec (size ke) 0) as [E'|E']; [eexists; reflexivity|].
        destruct (Hcard ke eq_refl E') as [t' ->]. eexists. reflexivity.
    + destruct (Card m) as [ke|]; [|eexists; reflexivity].
      destruct (Nat.eqb_spec (size ke) 0) as [E'|E']; [eexists; reflexivity|].
      destruct (Hcard ke eq_refl E') as [t' ->]. eexists. reflexivity.
  - intros entries e Hc Hsize He. rewrite Hc.
    destruct (Nat.eqb_spec (size entries) 0) as [E|E]; [contradiction|].
    rewrite He. reflexivity.
Qed.

End EnvelopeFacts.

(** ** sign.go and sign_test.go: the signing key and the reference signer *)

Lemma bytes_of_string_app (s t : string) :
  bytes_of_string (s +:+ t) = bytes_of_string s ++ bytes_of_string t.
Proof.
  unfold bytes_of_string.
  induction s as [|c s IH]; [reflexivity|].
  simpl. f_equal. exact IH.
Qed.

Lemma string_of_bytes_of_string (s : string) : string_of_bytes (bytes_of_string s) = s.
Proof. apply string_of_list_ascii_of_string. Qed.

Lemma bytes_of_string_inj (s t : string) : bytes_of_string s = bytes_of_string t -> s = t.
Proof.
  intros H. rewrite <- (string_of_bytes_of_string s), <- (string_of_bytes_of_string t).
  rewrite H. reflexivity.
Qed.

Lemma uint_no_newline (d : Decimal.uint) :
  ~ In "010"%char (bytes_of_string (NilEmpty.string_of_uint d)).
Proof.
  unfold bytes_of_string.
  induction d; simpl; [intros []|..]; intros [H|H]; try discriminate H; auto.
Qed.

Lemma Sprintf_v_no_newline (n : Z) :
  ~ In "010"%char (bytes_of_string (fmt.Sprintf_v n)).
Proof.
  assert (Hu : forall d, ~ In "010"%char (bytes_of_string (NilZero.string_of_uint d))).
  { intros d. destruct d; try apply uint_no_newline.
    simpl. intros [H|[]]. discriminate H. }
  unfold fmt.Sprintf_v.
  destruct (Z.to_int n) as [d|d]; cbn [NilZero.string_of_int].
  - apply Hu.
  - unfold bytes_of_string. simpl. intros [H|H]; [discriminate H|].
    revert H. apply Hu.
Qed.

Lemma split_at_separator {A : Type} (sep : A) (a b x y : list A) :
  ~ In sep a -> ~ In sep b -> a ++ sep :: x = b ++ sep :: y -> a = b /\ x = y.
Proof.
  revert b. induction a as [|c a IH]; intros b Ha Hb H.
  - destruct b as [|c' b].
    + injection H as ->. auto.
    + injection H as <- _. exfalso. apply Hb. left. reflexivity.
  - destruct b as [|c' b].
    + injection H as -> _. exfalso. apply Ha. left. reflexivity.
    + injection H as -> H.
      destruct (IH b) as [-> ->]; auto.
      * intros Hin. apply Ha. right. exact Hin.
      * intros Hin. apply Hb. right. exact Hin.
Qed.

Lemma Sprintf_v_inj (n1 n2 : Z) : fmt.Sprintf_v n1 = fmt.Sprintf_v n2 -> n1 = n2.
Proof.
  intros H.
  pose proof (decimal_reads_back n1) as H1. pose proof (decimal_reads_back n2) as H2.
  unfold Spec.decimal in H1, H2. fold (fmt.Sprintf_v n1) in H1.
  fold (fmt.Sprintf_v n2) in H2. rewrite H in H1. congruence.
Qed.

(** X17: the signing key determines the timestamp and the secret it was
    built from: two calls of [GenSign] sign with the same key only when
    they agree on both, whatever bytes the secrets contain. *)
Theorem signing_key_injective (secret1 secret2 : string) (timestamp1 timestamp2 : Z) :
  (fmt.Sprintf_v timestamp1 +:+ String "010" EmptyString +:+ secret1)%string
  = (fmt.Sprintf_v timestamp2 +:+ String "010" EmptyString +:+ secret2)%string ->
  timestamp1 = timestamp2 /\ secret1 = secret2.
Proof.
  intros H. apply (f_equal bytes_of_string) in H.
  rewrite !bytes_of_string_app in H.
  cbn [bytes_of_string list_ascii_of_string app] in H.
  apply split_at_separator in H; try apply Sprintf_v_no_newline.
  destruct H as [Ht Hs].
  split.
  - apply Sprintf_v_inj. apply bytes_of_string_inj. exact Ht.
  - apply bytes_of_string_inj. exact Hs.
Qed.

Lemma signing_key_injective_witness :
  1599360473 = 1599360473 /\ "demo"%string = "demo"%string.
Proof.
  apply (signing_key_injective "demo" "demo" 1599360473 1599360473). reflexivity.
Defined.

(** X18: on every secret and timestamp, [GenSign] returns the signature
    the reference implementation of the tests computes, and a nil error. *)
Theorem GenSign_agrees_with_reference (secret : string) (timestamp : Z) :
  GenSign secret timestamp = (calculateExpectedSign secret timestamp, None).
Proof.
  rewrite GenSign_eq. unfold calculateExpectedSign.
  destruct (hmac.Write _ []) as [h' r]. reflexivity.
Qed.

(** ** message_test.go: [containsString] *)

Lemma strlen_bytes (s : string) : strlen s = Z.of_nat (length (bytes_of_string s)).
Proof.
  unfold strlen. f_equal.
  rewrite <- (string_of_bytes_of_string s) at 1. apply length_string_of_bytes.
Qed.

Lemma slice_eqb (s substr : string) (i : Z) :
  0 <= i ->
  String.eqb (slice s i (i + strlen substr)) substr = true
  <-> firstn (length (bytes_of_string substr))
             (skipn (Z.to_nat i) (bytes_of_string s))
      = bytes_of_string substr.
Proof.
  intros Hi. unfold slice.
  replace (Z.to_nat (i + strlen substr - i)) with (length (bytes_of_string substr))
    by (rewrite strlen_bytes; lia).
  rewrite String.eqb_eq. split.
  - intros H. apply (f_equal bytes_of_string) in H.
    rewrite bytes_of_string_of_bytes in H. exact H.
  - intros H. rewrite H. apply string_of_bytes_of_string.
Qed.

(** The loop, as a search for a position. *)
Lemma containsString_from_spec (fuel : nat) (i : Z) (s substr : string) :
  0 <= i ->
  containsString_from fuel i s substr = true
  <-> exists j, i <= j < i + Z.of_nat fuel
                /\ j <= strlen s - strlen substr
                /\ firstn (length (bytes_of_string substr))
                          (skipn (Z.to_nat j) (bytes_of_string s))
                   = bytes_of_string substr.
Proof.
  revert i. induction fuel as [|fuel IH]; intros i Hi.
  - cbn [containsString_from]. split; [discriminate|].
    intros [j [Hj _]]. lia.
  - cbn [containsString_from].
    destruct (Z.leb_spec i (strlen s - strlen substr)) as [Hle|Hgt].
    + destruct (Z.gtb_spec (i + strlen substr) (strlen s)) as [Hbad|_]; [lia|].
      destruct (String.eqb (slice s i (i + strlen substr)) substr) eqn:Heq.
      * split; [intros _|reflexivity].
        exists i. split; [lia|]. split; [exact Hle|].
        apply slice_eqb; assumption.
      * rewrite IH by lia. split.
        -- intros [j [Hj [Hb Hs]]]. exists j. split; [lia|]. auto.
        -- intros [j [Hj [Hb Hs]]].
           destruct (Z.eq_dec j i) as [->|Hne].
           ++ apply slice_eqb in Hs; [|assumption]. congruence.
           ++ exists j. split; [lia|]. auto.
    + split; [discriminate|]. intros [j [Hj [Hb _]]]. lia.
Qed.

Lemma occurs_at_iff (l m : list ascii) :
  (exists j, 0 <= j < 0 + Z.of_nat (S (length l))
             /\ j <= Z.of_nat (length l) - Z.of_nat (length m)
             /\ firstn (length m) (skipn (Z.to_nat j) l) = m)
  <-> exists pre post, l = pre ++ m ++ post.
Proof.
  split.
  - intros [j [Hj [Hb Hs]]].
    exists (firstn (Z.to_nat j) l), (skipn (length m) (skipn (Z.to_nat j) l)).
    symmetry. etransitivity; [|apply (firstn_skipn (Z.to_nat j) l)]. f_equal.
    etransitivity; [|apply (firstn_skipn (length m))]. rewrite Hs. reflexivity.
  - intros [pre [post ->]].
    exists (Z.of_nat (length pre)). rewrite !length_app. split; [lia|]. split; [lia|].
    rewrite Nat2Z.id, drop_app_length, take_app_length. reflexivity.
Qed.

Lemma containsString_iff (s substr : string) :
  containsString s substr = true
  <-> exists pre post, s = (pre +:+ substr +:+ post)%string.
Proof.
  unfold containsString. rewrite containsString_from_spec by lia.
  rewrite !strlen_bytes.
  replace (S (String.length s)) with (S (length (bytes_of_string s)))
    by (f_equal; apply Nat2Z.inj; rewrite <- strlen_bytes; reflexivity).
  rewrite occurs_at_iff. split.
  - intros [pre [post H]].
    exists (string_of_bytes pre), (string_of_bytes post).
    apply bytes_of_string_inj.
    rewrite !bytes_of_string_app, !bytes_of_string_of_bytes. exact H.
  - intros [pre [post ->]].
    exists (bytes_of_string pre), (bytes_of_string post).
    rewrite !bytes_of_string_app. reflexivity.
Qed.

(** X19: [containsString s substr] is true exactly when [substr] occurs
    in [s]; the empty string occurs in every string, and a string longer
    than [s] never does. *)
Theorem containsString_correct (s substr : string) :
  (containsString s substr = true
   <-> exists pre post, s = (pre +:+ substr +:+ post)%string)
  /\ containsString s EmptyString = true
  /\ (strlen s < strlen substr -> containsString s substr = false).
Proof.
  split; [apply containsString_iff|]. split.
  - apply containsString_iff. exists EmptyString, s. reflexivity.
  - intros Hlong. unfold containsString. cbn [containsString_from].
    destruct (Z.leb_spec 0 (strlen s - strlen substr)) as [Hbad|_]; [lia|reflexivity].
Qed.

(** ** The further properties at the sample endpoints *)

Lemma Send_result_shape_witness :
  fst (Sample.send (Sample.client "demo" (Sample.endpoint 200 "code=19024")) Sample.world)
  = Returns (Some Sample.key_words_not_found,
             Some (api_error Sample.key_words_not_found))
  /\ Code Sample.key_words_not_found <> 0.
Proof.
  assert (H : fst (Sample.send (Sample.client "demo" (Sample.endpoint 200 "code=19024"))
                     Sample.world)
              = Returns (Some Sample.key_words_not_found,
                         Some (api_error Sample.key_words_not_found)))
    by (vm_compute; reflexivity).
  split; [exact H|].
  destruct (Send_result_shape Sample.encode_map Sample.Unmarshal Sample.url_ok
              _ _ _ _ _ _ H) as [_ [_ Hboth]].
  apply (Hboth Sample.key_words_not_found (api_error Sample.key_words_not_found));
    reflexivity.
Defined.

Lemma Send_dispatches_one_POST_witness :
  In SampleRuns.signed_request
     (requests_of (new_events Sample.world
        (snd (Sample.send (Sample.client "demo" (Sample.endpoint 200 "code=0"))
                Sample.world))))
  /\ req_method SampleRuns.signed_request = "POST"%string.
Proof.
  assert (H : In SampleRuns.signed_request
     (requests_of (new_events Sample.world
        (snd (Sample.send (Sample.client "demo" (Sample.endpoint 200 "code=0"))
                Sample.world)))))
    by (rewrite signing_run, new_events_logs; left; reflexivity).
  split; [exact H|].
  destruct (Send_dispatches_one_POST Sample.encode_map Sample.Unmarshal Sample.url_ok
              (Sample.client "demo" (Sample.endpoint 200 "code=0"))
              Sample.background (Some 1%positive) Sample.world) as [_ Hreq].
  apply (Hreq _ H).
Defined.

Lemma Send_closes_body_witness :
  closes (new_events Sample.world
            (snd (Sample.send (Sample.client "demo" (Sample.endpoint 502 "<html>"))
                    Sample.world))) = 1%nat
  /\ closes (new_events Sample.world
               (snd (Sample.send (Sample.client "demo" Sample.unreachable)
                       Sample.world))) = 0%nat.
Proof.
  split.
  - destruct (Send_closes_body Sample.encode_map Sample.Unmarshal Sample.url_ok
                (Sample.client "demo" (Sample.endpoint 502 "<html>"))
                Sample.background (Some 1%positive) Sample.world) as [Hopen _].
    refine (proj1 (Hopen SampleRuns.signed_request
                     {| http_status := 502;
                        http_body := {| rc_data := bytes_of_string "<html>";
                                        rc_err := None |} |} _ _)).
    + vm_compute. left. reflexivity.
    + reflexivity.
  - destruct (Send_closes_body Sample.encode_map Sample.Unmarshal Sample.url_ok
                (Sample.client "demo" Sample.unreachable)
                Sample.background (Some 1%positive) Sample.world) as [_ [Hfail _]].
    apply (Hfail SampleRuns.signed_request (errorString "dial tcp: connection refused")).
    + vm_compute. left. reflexivity.
    + reflexivity.
Defined.

Lemma Send_refuses_nil_context_witness :
  Send Sample.encode_map Sample.Unmarshal Sample.url_ok
       (Sample.client "" (Sample.endpoint 200 "code=0")) None (Some 1%positive)
       Sample.world
  = (Returns (None, Some (wrapError "failed to create request: "
                            (errorString "net/http: nil Context"))), Sample.world).
Proof.
  apply (Send_refuses_nil_context Sample.encode_map Sample.Unmarshal Sample.url_ok
           (Sample.client "" (Sample.endpoint 200 "code=0")) 1%positive
           (NewTextMessage "test") Sample.world
           [("msg_type", JString "text"); ("content", JObject "{...}")]%string).
  - vm_compute. reflexivity.
  - vm_compute. reflexivity.
Defined.

Lemma Send_serialization_failure_witness :
  Send SampleMore.encode_unsupported Sample.Unmarshal Sample.url_ok
       (Sample.client "" (Sample.endpoint 200 "code=0")) Sample.background
       (Some 1%positive) Sample.world
  = (Returns (None, Some (wrapError "failed to marshal message: "
                            (errorString "json: unsupported type: chan int"))),
     Sample.world).
Proof.
  apply (Send_serialization_failure SampleMore.encode_unsupported Sample.Unmarshal
           Sample.url_ok (Sample.client "" (Sample.endpoint 200 "code=0"))
           Sample.background 1%positive (NewTextMessage "test") Sample.world).
  - vm_compute. reflexivity.
  - vm_compute. reflexivity.
Defined.

Lemma Send_panics_exactly_on_nil_values_witness :
  fst (Send_raw Sample.encode_map Sample.Unmarshal Sample.url_ok
         (Some SampleRaw.mock_client) Sample.background (Some 1%positive) Sample.world)
  = Panics nil_dereference
  /\ new_events Sample.world
       (snd (Send_raw Sample.encode_map Sample.Unmarshal Sample.url_ok
               (Some SampleRaw.mock_client) Sample.background (Some 1%positive)
               Sample.world))
     = [EvDo SampleRuns.signed_request].
Proof.
  apply (proj1 (proj2 (proj2
           (Send_panics_exactly_on_nil_values Sample.encode_map Sample.Unmarshal
              Sample.url_ok (Some SampleRaw.mock_client) Sample.background
              (Some 1%positive) Sample.world)))
           SampleRaw.mock_client (MockHTTPClient_Do {| DoFunc := None |})
           SampleRuns.signed_request).
  - reflexivity.
  - reflexivity.
  - vm_compute. left. reflexivity.
  - reflexivity.
Defined.

Lemma Send_read_failure_witness :
  fst (Sample.send (Sample.client "demo" SampleMore.broken_body) Sample.world)
  = Returns (None, Some (wrapError "failed to read response body: "
                           (errorString "unexpected EOF")))
  /\ new_events Sample.world
       (snd (Sample.send (Sample.client "demo" SampleMore.broken_body) Sample.world))
     = [EvDo SampleRuns.signed_request; EvReadAll; EvClose].
Proof.
  apply (Send_read_failure Sample.encode_map Sample.Unmarshal Sample.url_ok
           (Sample.client "demo" SampleMore.broken_body) Sample.background
           (Some 1%positive) Sample.world SampleRuns.signed_request
           {| http_status := 200;
              http_body := {| rc_data := bytes_of_string "code";
                              rc_err := Some (errorString "unexpected EOF") |} |}
           (errorString "unexpected EOF")).
  - vm_compute. left. reflexivity.
  - reflexivity.
  - reflexivity.
Defined.

Lemma Send_error_taxonomy_witness :
  fst (Sample.send (Sample.client "demo" Sample.unreachable) Sample.world)
  = Returns (None, Some (wrapError "failed to send request: "
                           (errorString "dial tcp: connection refused")))
  /\ forall inner,
       wrapError "failed to send request: " (errorString "dial tcp: connection refused")
       <> wrapError "failed to generate signature: " inner.
Proof.
  assert (H : fst (Sample.send (Sample.client "demo" Sample.unreachable) Sample.world)
              = Returns (None, Some (wrapError "failed to send request: "
                                       (errorString "dial tcp: connection refused"))))
    by (vm_compute; reflexivity).
  split; [exact H|].
  apply (Send_error_taxonomy Sample.encode_map Sample.Unmarshal Sample.url_ok
           _ _ _ _ _ _ H).
Defined.

Lemma Send_independent_of_history_witness :
  fst (Send Sample.encode_map Sample.Unmarshal Sample.url_ok
         (Sample.client "demo" (Sample.endpoint 200 "code=0")) Sample.background
         (Some 1%positive) Sample.world)
  = fst (Send Sample.encode_map Sample.Unmarshal Sample.url_ok
           (Sample.client "demo" (Sample.endpoint 200 "code=0")) Sample.background
           (Some 1%positive) SampleMore.world_later).
Proof.
  apply (Send_independent_of_history Sample.encode_map Sample.Unmarshal Sample.url_ok
           (Sample.client "demo" (Sample.endpoint 200 "code=0")) Sample.background
           1%positive Sample.world SampleMore.world_later).
  - reflexivity.
  - vm_compute. reflexivity.
Defined.

Lemma Send_with_cancelled_context_witness :
  parses (new_events Sample.world
            (snd (Send Sample.encode_map Sample.Unmarshal Sample.url_ok
                    (Sample.client "demo"
                       (SampleMore.cancelling (Sample.endpoint 200 "code=0")))
                    (Some SampleMore.cancelled) (Some 1%positive) Sample.world)))
  = false.
Proof.
  apply (Send_with_cancelled_context Sample.encode_map Sample.Unmarshal Sample.url_ok
           (Sample.client "demo" (SampleMore.cancelling (Sample.endpoint 200 "code=0")))
           SampleMore.cancelled 1%positive (NewTextMessage "test") Sample.world).
  - reflexivity.
  - intros req Hdone. exists (errorString "context canceled").
    cbn. rewrite Hdone. reflexivity.
  - vm_compute. reflexivity.
Defined.

Lemma json_Marshal_members_witness :
  map fst (req_body SampleRuns.signed_request)
  = ["msg_type"; "content"; "timestamp"; "sign"]%string.
Proof.
  apply (json_Marshal_members Sample.encode_map
           (set_Sign (set_Timestamp (NewTextMessage "test") 1599360473)
              "l1N0gAcBjdwBvGm1xMjOF0XSyaLRpR7tuO5dHfhAYc8=")
           (req_body SampleRuns.signed_request)).
  vm_compute. reflexivity.
Defined.

Lemma json_Marshal_outcome_witness :
  (exists env, json_Marshal SampleMore.encode_unsupported
                 (NewInteractiveMessageFromMap None) = inl env)
  /\ json_Marshal SampleMore.encode_unsupported (NewTextMessage "test")
     = inr (errorString "json: unsupported type: chan int").
Proof.
  split.
  - apply (proj1 (json_Marshal_outcome SampleMore.encode_unsupported
                    (NewInteractiveMessageFromMap None))); discriminate.
  - apply (proj2 (json_Marshal_outcome SampleMore.encode_unsupported
                    (NewTextMessage "test"))
                 {[ "text"%string := VString "test" ]}).
    + reflexivity.
    + vm_compute. discriminate.
    + reflexivity.
Defined.

Lemma ToMap_entries_witness :
  ToMap (SetConfig (NewCard "2.0") (Some ∅)) !! "config"%string = Some (VMap ∅)
  /\ ToMap (SetConfig (NewCard "2.0") (Some ∅)) !! "elements"%string = None.
Proof.
  destruct (ToMap_entries (SetConfig (NewCard "2.0") (Some ∅)))
    as [_ [Hconfig [_ [_ Hother]]]].
  split; [exact Hconfig|].
  apply Hother. cbn [In]. intros [H|[H|[H|[H|[]]]]]; discriminate H.
Defined.

Lemma containsString_correct_witness :
  containsString "hello" "hello world" = false
  /\ containsString "hello world" "o w" = true.
Proof.
  split.
  - destruct (containsString_correct "hello" "hello world") as [_ [_ Hlong]].
    apply Hlong. reflexivity.
  - destruct (containsString_correct "hello world" "o w") as [[_ Hfound] _].
    apply Hfound. exists "hell"%string, "orld"%string. reflexivity.
Defined.

(** ** client.go and examples/main.go: the example program *)
Section ProgramFacts.

Variable json_encode_map : gmap string any -> string + error.
Variable json_Unmarshal : list byte -> Response + error.
Variable url_Parse_error : string -> option error.
Variable http_Client : Z -> HTTPClient.

Local Abbreviation send_and_print' :=
  (send_and_print json_encode_map json_Unmarshal url_Parse_error).

Lemma requests_of_app (evs1 evs2 : list Event) :
  requests_of (evs1 ++ evs2) = requests_of evs1 ++ requests_of evs2.
Proof. unfold requests_of. apply omap_app. Qed.

Lemma sends_to_refl (url : string) (p : Process) : sends_to url 0 p p.
Proof.
  exists []. rewrite app_nil_r. repeat split; [cbn; lia|apply List.Forall_nil].
Qed.

Lemma sends_to_trans (url : string) (n1 n2 : nat) (p1 p2 p3 : Process) :
  sends_to url n1 p1 p2 -> sends_to url n2 p2 p3 -> sends_to url (n1 + n2) p1 p3.
Proof.
  intros [e1 [H1 [L1 F1]]] [e2 [H2 [L2 F2]]].
  exists (e1 ++ e2). rewrite H2, H1, <- app_assoc, requests_of_app, length_app.
  repeat split; [lia|]. apply Forall_app. split; assumption.
Qed.

Lemma Send_path_sends_to (c : Client) (ctx : option Context) (msg : ptr) (w : World)
    (out : outcome (option Response * option error)) (evs : list Event) :
  Send_path json_encode_map json_Unmarshal url_Parse_error c ctx msg w out evs ->
  (length (requests_of evs) <= 1)%nat
  /\ Forall (fun req => req_url req = WebhookURL c) (requests_of evs).
Proof.
  intros Hp. split; [destruct Hp; cbn; lia|].
  apply List.Forall_forall. intros req Hin.
  pose proof (Send_path_requests _ _ _ _ _ _ _ _ _ _ Hp Hin) as Hd.
  destruct Hd as [l [m [body [r [_ [_ [_ [Hr ->]]]]]]]].
  unfold http_NewRequestWithContext in Hr.
  destruct ctx as [cx|]; [|discriminate Hr].
  destruct (url_Parse_error (WebhookURL c)); [discriminate Hr|].
  injection Hr as <-. reflexivity.
Qed.

(** The common tail of the examples, for a message that was built. *)
Lemma send_and_print_built (client : Client) (m : Message) (p : Process) :
  exists err p',
    send_and_print' client (Returns m) p = (Returns err, p')
    /\ log_lines p' = log_lines p
    /\ sends_to (WebhookURL client) 1 p p'
    /\ match err with
       | Some _ => stdout p' = stdout p
       | None => exists text,
           stdout p' = stdout p ++ [("Response: Code=0, Msg=" +:+ text +:+ line_feed)%string]
       end.
Proof.
  unfold send_and_print, new_Message.
  set (l := fresh (dom (heap (world p)))).
  set (w1 := {| clock := clock (world p); heap := <[l:=m]> (heap (world p));
                trace := trace (world p) |}).
  destruct (Send_sound json_encode_map json_Unmarshal url_Parse_error
              client context_Background (Some l) w1) as [evs [Hp Hw]].
  pose proof (Send_path_sends_to _ _ _ _ _ _ Hp) as [Hlen Hurl].
  assert (Hm : heap w1 !! l = Some m) by apply lookup_insert_eq.
  destruct (Send json_encode_map json_Unmarshal url_Parse_error
              client context_Background (Some l) w1) as [out w2].
  cbn [fst snd] in Hp, Hw. subst w2.
  assert (Hs : forall q, world q = logs evs w1 -> sends_to (WebhookURL client) 1 p q).
  { intros q Hq. exists evs. rewrite Hq. repeat split; assumption. }
  destruct Hp;
    try (cbn [mbind option_bind] in *; congruence);
    try (eexists; eexists; split; [reflexivity|];
         split; [reflexivity|]; split; [apply Hs; reflexivity|]; reflexivity).
  eexists. eexists. split; [reflexivity|].
  split; [reflexivity|]. split; [apply Hs; reflexivity|].
  exists (Msg apiResp). cbn [stdout print in_world].
  replace (Code apiResp) with 0 by auto. reflexivity.
Qed.

Lemma examples_build (client : Client) (example : Client -> Process -> _) :
  In example (examples json_encode_map json_Unmarshal url_Parse_error) ->
  exists m, example client = send_and_print' client (Returns m).
Proof.
  intros Hin. cbn [examples In] in Hin.
  destruct Hin as [<-|[<-|[<-|[<-|[<-|[<-|[]]]]]]]; eexists; reflexivity.
Qed.

(** X20: none of the six examples panics: each builds its message from
    non-nil parts and reads the Response only when [Send] gave no error.
    It sends at most one request, to the client's URL, and logs nothing.
    When it returns an error it prints nothing; when it returns nil it
    prints one line, and the code on that line is always 0. *)
Theorem examples_never_panic (client : Client) (p : Process)
    (example : Client -> Process -> outcome (option error) * Process) :
  In example (examples json_encode_map json_Unmarshal url_Parse_error) ->
  exists err p',
    example client p = (Returns err, p')
    /\ log_lines p' = log_lines p
    /\ sends_to (WebhookURL client) 1 p p'
    /\ match err with
       | Some _ => stdout p' = stdout p
       | None => exists text,
           stdout p' = stdout p ++ [("Response: Code=0, Msg=" +:+ text +:+ line_feed)%string]
       end.
Proof.
  intros Hin. destruct (examples_build client example Hin) as [m ->].
  apply send_and_print_built.
Qed.

Lemma run_example_step (failed sent : string) (client : Client) (p : Process)
    (example : Client -> Process -> outcome (option error) * Process) :
  In example (examples json_encode_map json_Unmarshal url_Parse_error) ->
  exists p',
    run_example failed sent example client p = (Returns tt, p')
    /\ length (log_lines p') = S (length (log_lines p))
    /\ sends_to (WebhookURL client) 1 p p'.
Proof.
  intros Hin. destruct (examples_build client example Hin) as [m Hex].
  destruct (send_and_print_built client m p) as [err [p' [Hrun [Hlog [Hsend _]]]]].
  unfold run_example. rewrite Hex, Hrun.
  destruct err as [e|]; eexists; (split; [reflexivity|]);
    cbn [log_lines log_line world]; rewrite length_app, Hlog; cbn [length];
    (split; [lia|]); destruct Hsend as [evs He]; exists evs; exact He.
Qed.

Lemma and_then_step (url : string) (n1 n2 k1 k2 : nat)
    (first second : Process -> outcome unit * Process) (p : Process) :
  (forall q, exists q', first q = (Returns tt, q')
                        /\ length (log_lines q') = (k1 + length (log_lines q))%nat
                        /\ sends_to url n1 q q') ->
  (forall q, exists q', second q = (Returns tt, q')
                        /\ length (log_lines q') = (k2 + length (log_lines q))%nat
                        /\ sends_to url n2 q q') ->
  exists p', and_then first second p = (Returns tt, p')
             /\ length (log_lines p') = (k1 + k2 + length (log_lines p))%nat
             /\ sends_to url (n1 + n2) p p'.
Proof.
  intros H1 H2. destruct (H1 p) as [q [Hq [Lq Sq]]].
  destruct (H2 q) as [q' [Hq' [Lq' Sq']]].
  exists q'. unfold and_then. rewrite Hq, Hq'.
  split; [reflexivity|]. split; [lia|].
  eapply sends_to_trans; eassumption.
Qed.

(** X21: [main] never panics and never stops early: whatever the
    endpoint answers, it runs all six examples, writing one log line for
    each, after one warning line when FEISHU_WEBHOOK_URL is empty; it
    sends at most six requests, every one to the URL of the environment,
    or to the placeholder when that is empty. *)
Theorem main_runs_every_example (Getenv : string -> string) (p : Process) :
  exists p',
    main json_encode_map json_Unmarshal url_Parse_error http_Client Getenv p
      = (Returns tt, p')
    /\ length (log_lines p')
       = ((if String.eqb (Getenv "FEISHU_WEBHOOK_URL") EmptyString then 7 else 6)
          + length (log_lines p))%nat
    /\ sends_to (if String.eqb (Getenv "FEISHU_WEBHOOK_URL") EmptyString
                 then placeholder_url else Getenv "FEISHU_WEBHOOK_URL") 6 p p'.
Proof.
  unfold main.
  set (url := if String.eqb (Getenv "FEISHU_WEBHOOK_URL") EmptyString
              then placeholder_url else Getenv "FEISHU_WEBHOOK_URL").
  set (p0 := if String.eqb (Getenv "FEISHU_WEBHOOK_URL") EmptyString
             then log_line "Warning: FEISHU_WEBHOOK_URL not set, using placeholder" p
             else p).
  assert (Hp0 : (if String.eqb (Getenv "FEISHU_WEBHOOK_URL") EmptyString
                 then (placeholder_url,
                       log_line "Warning: FEISHU_WEBHOOK_URL not set, using placeholder" p)
                 else (Getenv "FEISHU_WEBHOOK_URL", p)) = (url, p0))
    by (unfold url, p0; destruct (String.eqb _ _); reflexivity).
  rewrite Hp0.
  set (client := NewClient http_Client url (Getenv "FEISHU_SECRET")).
  assert (Hstep : forall failed sent example,
            In example (examples json_encode_map json_Unmarshal url_Parse_error) ->
            forall q, exists q',
              run_example failed sent example client q = (Returns tt, q')
              /\ length (log_lines q') = (1 + length (log_lines q))%nat
              /\ sends_to url 1 q q').
  { intros failed sent example Hin q.
    apply (run_example_step failed sent client q example Hin). }
  assert (Hall : exists p',
    and_then (run_example "Failed to send text message: "
                        "Text message sent successfully"
                (sendTextMessage json_encode_map json_Unmarshal url_Parse_error) client)
    (and_then (run_example "Failed to send text message with mention: "
                         "Text message with mention sent successfully"
                 (sendTextWithMention json_encode_map json_Unmarshal url_Parse_error) client)
    (and_then (run_example "Failed to send post message: "
                         "Post message sent successfully"
                 (sendPostMessage json_encode_map json_Unmarshal url_Parse_error) client)
    (and_then (run_example "Failed to send post message with elements: "
                         "Post message with elements sent successfully"
                 (sendPostMessageWithElements json_encode_map json_Unmarshal url_Parse_error)
                 client)
    (and_then (run_example "Failed to send interactive card: "
                         "Interactive card sent successfully"
                 (sendInteractiveCard json_encode_map json_Unmarshal url_Parse_error) client)
              (run_example "Failed to send interactive card with buttons: "
                         "Interactive card with buttons sent successfully"
                 (sendInteractiveCardWithButtons json_encode_map json_Unmarshal
                    url_Parse_error) client))))) p0 = (Returns tt, p')
    /\ length (log_lines p') = (1 + (1 + (1 + (1 + (1 + 1)))) + length (log_lines p0))%nat
    /\ sends_to url (1 + (1 + (1 + (1 + (1 + 1))))) p0 p').
  { repeat (apply and_then_step; [apply Hstep; cbn [examples In]; auto 10|intros ?]).
    apply Hstep. cbn [examples In]. auto 10. }
  destruct Hall as [p' [Hrun [Hlog Hsend]]].
  exists p'. split; [exact Hrun|].
  assert (Hp0' : sends_to url 0 p p0
                 /\ length (log_lines p0)
                    = ((if String.eqb (Getenv "FEISHU_WEBHOOK_URL") EmptyString
                        then 1 else 0) + length (log_lines p))%nat).
  { unfold p0. destruct (String.eqb _ _).
    - split; [|cbn [log_lines log_line]; rewrite length_app; cbn [length]; lia].
      exists []. cbn [world log_line]. rewrite app_nil_r.
      repeat split; [cbn; lia|apply List.Forall_nil].
    - split; [apply sends_to_refl|reflexivity]. }
  destruct Hp0' as [S0 L0]. split.
  - rewrite Hlog, L0. destruct (String.eqb _ _); lia.
  - apply (sends_to_trans url 0 6 p p0 p' S0 Hsend).
Qed.

(** X22: [NewClient] accepts any text as URL; one that does not parse is
    found out only by [Send], which then reports the request-construction
    failure for every message that serializes, and sends nothing. *)
Theorem NewClient_does_not_check_url (webhookURL secret : string) (e : error)
    (cx : Context) (l : positive) (m : Message) (w : World) (body : envelope) :
  url_Parse_error webhookURL = Some e ->
  heap w !! l = Some m ->
  json_Marshal json_encode_map
    (outbound_copy (NewClient http_Client webhookURL secret) (clock w) m) = inl body ->
  Send json_encode_map json_Unmarshal url_Parse_error
       (NewClient http_Client webhookURL secret) (Some cx) (Some l) w
  = (Returns (None, Some (wrapError "failed to create request: " e)), w).
Proof.
  intros Hurl Hm Hj.
  assert (Hp : Send_path json_encode_map json_Unmarshal url_Parse_error
                 (NewClient http_Client webhookURL secret) (Some cx) (Some l) w
                 (Returns (None, Some (wrapError "failed to create request: " e))) []).
  { eapply path_request_failure; eauto.
    unfold http_NewRequestWithContext. cbn [WebhookURL NewClient].
    rewrite Hurl. reflexivity. }
  apply Send_path_run in Hp. destruct Hp as [Ho [_ Hw]].
  rewrite logs_nil in Hw.
  destruct (Send _ _ _ _ _ _ w) as [out w']. cbn in Ho, Hw. congruence.
Qed.

End ProgramFacts.

Lemma examples_never_panic_witness :
  In (sendInteractiveCardWithButtons Sample.encode_map Sample.Unmarshal Sample.url_ok)
     (examples Sample.encode_map Sample.Unmarshal Sample.url_ok)
  /\ exists err p',
       sendInteractiveCardWithButtons Sample.encode_map Sample.Unmarshal Sample.url_ok
         (Sample.client "demo" Sample.unreachable) SampleProgram.start
       = (Returns err, p')
       /\ log_lines p' = log_lines SampleProgram.start.
Proof.
  assert (H : In (sendInteractiveCardWithButtons Sample.encode_map Sample.Unmarshal
                    Sample.url_ok)
                 (examples Sample.encode_map Sample.Unmarshal Sample.url_ok))
    by (cbn [examples In]; auto 10).
  split; [exact H|].
  destruct (examples_never_panic Sample.encode_map Sample.Unmarshal Sample.url_ok
              (Sample.client "demo" Sample.unreachable) SampleProgram.start _ H)
    as [err [p' [Hrun [Hlog _]]]].
  exists err, p'. split; assumption.
Defined.

Lemma NewClient_does_not_check_url_witness :
  Send Sample.encode_map Sample.Unmarshal SampleProgram.need_scheme
       (NewClient SampleProgram.network "open.feishu.cn/hook" "")
       (Some {| ctx_done := false |}) (Some 1%positive) Sample.world
  = (Returns (None, Some (wrapError "failed to create request: "
                            (errorString "unsupported protocol scheme"))),
     Sample.world).
Proof.
  apply (NewClient_does_not_check_url Sample.encode_map Sample.Unmarshal
           SampleProgram.need_scheme SampleProgram.network "open.feishu.cn/hook" ""
           (errorString "unsupported protocol scheme") {| ctx_done := false |}
           1%positive (NewTextMessage "test") Sample.world
           [("msg_type", JString "text"); ("content", JObject "{...}")]%string).
  - reflexivity.
  - vm_compute. reflexivity.
  - vm_compute. reflexivity.
Defined.

(** ** sign.go: the form of the signature *)

Lemma sextet_is_letter (val k : Z) :
  0 <= k -> base64.decode (base64.sextet val k) <> None.
Proof. intros Hk. rewrite decode_sextet by lia. discriminate. Qed.

(** The Base64 text of [src], by the length of [src] modulo 3: letters of
    the alphabet only, followed by no, two or one padding character. *)
Lemma Encode_padding (src : list ascii) :
  exists body,
    Forall (fun c => base64.decode c <> None) body
    /\ base64.Encode src
       = body ++ match (length src mod 3)%nat with
                 | 0%nat => []
                 | 1%nat => [base64.StdPadding; base64.StdPadding]
                 | _ => [base64.StdPadding]
                 end.
Proof.
  induction src as [|a|a b|a b c l IH] using list_ind3.
  - exists []. split; [apply List.Forall_nil|reflexivity].
  - eexists [_; _]. split; [|reflexivity].
    repeat apply List.Forall_cons; try apply List.Forall_nil;
      apply sextet_is_letter; lia.
  - eexists [_; _; _]. split; [|reflexivity].
    repeat apply List.Forall_cons; try apply List.Forall_nil;
      apply sextet_is_letter; lia.
  - destruct IH as [body [Hbody Henc]].
    exists (base64.sextet
              (Z.lor (Z.lor (Z.shiftl (byte_to_Z a) 16) (Z.shiftl (byte_to_Z b) 8))
                     (byte_to_Z c)) 18
            :: base64.sextet
              (Z.lor (Z.lor (Z.shiftl (byte_to_Z a) 16) (Z.shiftl (byte_to_Z b) 8))
                     (byte_to_Z c)) 12
            :: base64.sextet
              (Z.lor (Z.lor (Z.shiftl (byte_to_Z a) 16) (Z.shiftl (byte_to_Z b) 8))
                     (byte_to_Z c)) 6
            :: base64.sextet
              (Z.lor (Z.lor (Z.shiftl (byte_to_Z a) 16) (Z.shiftl (byte_to_Z b) 8))
                     (byte_to_Z c)) 0
            :: body).
    split.
    + repeat (apply List.Forall_cons; [apply sextet_is_letter; lia|]). exact Hbody.
    + cbn [base64.Encode]. rewrite Henc.
      replace (length (a :: b :: c :: l) mod 3)%nat with (length l mod 3)%nat.
      * reflexivity.
      * cbn [length].
        replace (S (S (S (length l)))) with (length l + 1 * 3)%nat by lia.
        rewrite Nat.Div0.mod_add. reflexivity.
Qed.

(** X23: every signature is 43 letters of the Base64 alphabet followed
    by exactly one padding character. *)
Theorem GenSign_signature_form (secret : string) (timestamp : Z) :
  exists body,
    bytes_of_string (fst (GenSign secret timestamp)) = body ++ [base64.StdPadding]
    /\ length body = 43%nat
    /\ Forall (fun c => base64.decode c <> None) body.
Proof.
  rewrite GenSign_Spec. cbn [fst]. unfold Spec.sign, base64.EncodeToString.
  rewrite bytes_of_string_of_bytes.
  set (d := Spec.HMAC_SHA256 _ []).
  assert (Hd : length d = 32%nat) by apply length_HMAC.
  destruct (Encode_padding d) as [body [Hbody Henc]].
  rewrite Hd in Henc. change (32 mod 3)%nat with 2%nat in Henc. cbv iota in Henc.
  exists body. split; [exact Henc|]. split; [|exact Hbody].
  apply (f_equal (@length ascii)) in Henc.
  rewrite length_Encode, Hd, length_app in Henc. cbn in Henc. lia.
Qed.

(** ** An empty card on the wire *)
Section EmptyCard.

Variable json_encode_map : gmap string any -> string + error.
Variable json_Unmarshal : list byte -> Response + error.
Variable url_Parse_error : string -> option error.

(** X24: an interactive message built from a nil or empty map goes out
    without any card: with no secret the envelope has the single member
    msg_type, and the encoder is never asked about the map. *)
Theorem empty_card_is_sent_bare (c : Client) (ctx : option Context) (l : positive)
    (card : gomap) (w : World) (req : Request) :
  populated card = false ->
  Secret c = EmptyString ->
  heap w !! l = Some (NewInteractiveMessageFromMap card) ->
  In req (requests_of (new_events w
            (snd (Send json_encode_map json_Unmarshal url_Parse_error
                    c ctx (Some l) w)))) ->
  req_body req = [("msg_type"%string, JString MsgTypeInteractive)].
Proof.
  intros Hcard Hsecret Hm Hin.
  destruct (Send_run json_encode_map json_Unmarshal url_Parse_error c ctx (Some l) w)
    as [Hp _].
  pose proof (Send_path_requests _ _ _ _ _ _ _ _ _ _ Hp Hin) as Hd.
  pose proof (dispatched_body _ _ _ _ _ _ _ _ Hm Hd) as Hj.
  unfold outbound_copy in Hj. rewrite Hsecret in Hj. cbn [String.eqb] in Hj.
  unfold json_Marshal, marshal_map_field in Hj.
  cbn [Content Card NewInteractiveMessageFromMap Timestamp Sign MsgType] in Hj.
  unfold populated, len in Hcard.
  destruct card as [entries|].
  - destruct (size entries =? 0)%nat; [|discriminate Hcard].
    cbn in Hj. congruence.
  - cbn in Hj. congruence.
Qed.

End EmptyCard.

Lemma empty_card_is_sent_bare_witness :
  req_body
    {| req_ctx := {| ctx_done := false |};
       req_method := "POST";
       req_url := "https://open.feishu.cn/open-apis/bot/v2/hook/test";
       req_header := {[ "Content-Type"%string := "application/json"%string ]};
       req_body := [("msg_type"%string, JString MsgTypeInteractive)] |}
  = [("msg_type"%string, JString MsgTypeInteractive)].
Proof.
  apply (empty_card_is_sent_bare SampleMore.encode_unsupported Sample.Unmarshal
           Sample.url_ok (Sample.client "" (Sample.endpoint 200 "code=0"))
           Sample.background 1%positive (Some ∅)
           {| clock := 0; heap := {[ 1%positive := NewInteractiveMessageFromMap (Some ∅) ]};
              trace := [] |}).
  - reflexivity.
  - reflexivity.
  - vm_compute. reflexivity.
  - vm_compute. left. reflexivity.
Defined.
